(** * Comparative benchmark engine (PostgreSQL vs Neo4j): shallow embedding

    The development follows the Python sources:
    - [app/utils/benchmark.py]            (class [DatabaseBenchmark]),
    - [app/api/endpoints/benchmark.py]    (task registry, status poll, comparator),
    - [app/utils/data_generator.py]       (class [DataGenerator], follow edges),
    - [app/services/user_service.py]      ([follow_user]),
    - [app/services/comparative_service.py] (product virality, both backends).

    Conventions.
    - Python [float] latencies are modelled as exact rationals [Q]; every
      comparison and division is the exact one.  [float('inf')] is a separate
      constructor.  Python [int] is [Z].  Module [Binary64] evaluates the
      step percentage of the status poll in IEEE 754 arithmetic, to compare
      the exact model with it on the counters a run reports.
    - An exception is a value of [exn]; fallible code returns [result].
    - The two database engines are external: what a query call does (how long
      it takes, whether the driver raises) is an explicit input, the [world]. *)

From Stdlib Require Import ZArith QArith Qround Lia Lqa List Bool.
From Stdlib Require Import Floats.SpecFloat.
From stdpp Require Import gmap strings list fin_maps.

Local Open Scope Z_scope.

(** ** Exceptions and results *)

Inductive exn : Type :=
  | StatisticsError     (* statistics.mean / statistics.median on no data *)
  | ValueError          (* min() / max() of an empty sequence *)
  | ZeroDivisionError
  | KeyError
  | TypeError
  | TimeoutError        (* asyncio.wait_for ran out of time *)
  | BackendError        (* any exception raised by a database driver *)
  | HTTPException (status_code : Z).

Inductive result (A : Type) : Type :=
  | Ok (a : A)
  | Raise (e : exn).
Arguments Ok {A} a.
Arguments Raise {A} e.

Definition is_ok {A} (r : result A) : bool :=
  match r with Ok _ => true | Raise _ => false end.

Definition rbind {A B} (r : result A) (k : A -> result B) : result B :=
  match r with Ok a => k a | Raise e => Raise e end.

(** ** Python numerics on [Q] *)

Module Py.

Local Open Scope Q_scope.

(** [int(x)] on a float: truncation toward zero. *)
Definition int (x : Q) : Z := Z.quot (Qnum x) (Zpos (Qden x)).


(** [a / b] on floats: raises on a zero divisor. *)
Definition truediv (a b : Q) : result Q :=
  if Qeq_bool b 0 then Raise ZeroDivisionError else Ok (a / b).

(** Truthiness of a number: [if x:] holds when [x] is not zero. *)
Definition truthy (x : Q) : bool := negb (Qeq_bool x 0).

Definition ltb (a b : Q) : bool := negb (Qle_bool b a).

(** [range(n)] for a possibly negative [n]. *)
Definition range (n : Z) : list nat := seq 0 (Z.to_nat n).

End Py.

(** ** The [statistics] module and the [min]/[max] builtins *)

Module Statistics.

Local Open Scope Q_scope.

Definition fsum (xs : list Q) : Q := fold_right Qplus 0 xs.

Fixpoint insert_sorted (x : Q) (xs : list Q) : list Q :=
  match xs with
  | [] => [x]
  | y :: ys => if Qle_bool x y then x :: y :: ys else y :: insert_sorted x ys
  end.

Definition sorted (xs : list Q) : list Q := fold_right insert_sorted [] xs.

Definition mean (xs : list Q) : result Q :=
  match xs with
  | [] => Raise StatisticsError
  | _ => Ok (fsum xs / inject_Z (Z.of_nat (length xs)))
  end.

Definition median (xs : list Q) : result Q :=
  let data := sorted xs in
  let n := length data in
  match n with
  | O => Raise StatisticsError
  | _ =>
      if Nat.odd n then Ok (nth (n / 2) data 0)
      else
        let i := (n / 2)%nat in
        Ok ((nth (i - 1) data 0 + nth i data 0) / 2)
  end.

Definition min (xs : list Q) : result Q :=
  match xs with
  | [] => Raise ValueError
  | x :: rest => Ok (fold_left (fun m y => if Py.ltb y m then y else m) rest x)
  end.

Definition max (xs : list Q) : result Q :=
  match xs with
  | [] => Raise ValueError
  | x :: rest => Ok (fold_left (fun m y => if Py.ltb m y then y else m) rest x)
  end.

End Statistics.

(** ** The two backends and the comparison of two averages *)

Inductive backend : Type := PostgreSQL | Neo4j.

(** The same six lines occur in [compare_benchmarks]
    ([app/api/endpoints/benchmark.py]) and in [_print_benchmark_summary]
    ([app/utils/benchmark.py]):
<<
    if pg_avg and neo4j_avg:
        ratio = pg_avg / neo4j_avg if neo4j_avg > 0 else float('inf')
        faster = "Neo4j" if neo4j_avg < pg_avg else "PostgreSQL"
        factor = ratio if faster == "Neo4j" else (1/ratio)
>> *)
Module Comparator.

Local Open Scope Q_scope.

(** A float that may be [float('inf')]. *)
Inductive ext : Type :=
  | Fin (q : Q)
  | Inf.

Record comparison : Type := mkComparison {
  postgresql_avg : Q;
  neo4j_avg : Q;
  faster_db : backend;
  speedup_factor : ext
}.

(** [1 / ratio] *)
Definition reciprocal (ratio : ext) : result ext :=
  match ratio with
  | Fin r => rbind (Py.truediv 1 r) (fun q => Ok (Fin q))
  | Inf => Ok (Fin 0)
  end.

(** [None] when the [if] is not taken (one of the averages is zero). *)
Definition compare (pg_avg neo4j_avg : Q) : result (option comparison) :=
  if Py.truthy pg_avg && Py.truthy neo4j_avg then
    let ratio := if Py.ltb 0 neo4j_avg then Fin (pg_avg / neo4j_avg) else Inf in
    let faster := if Py.ltb neo4j_avg pg_avg then Neo4j else PostgreSQL in
    rbind (match faster with
           | Neo4j => Ok ratio
           | PostgreSQL => reciprocal ratio
           end)
          (fun factor => Ok (Some (mkComparison pg_avg neo4j_avg faster factor)))
  else Ok None.


End Comparator.

(** ** [app/utils/benchmark.py]: class [DatabaseBenchmark] *)

Module Benchmark.

(** What one query call against a backend does: it completes after [t]
    seconds, or the driver raises. *)
Inductive response : Type :=
  | Returns (t : Q)
  | Fails.

(** The behaviour of both engines during a run, per backend, operation and
    iteration index. *)
Definition world : Type := backend -> string -> nat -> response.

(** One entry of [self.results[backend][operation]]; [minimum] and
    [maximum] are its keys "min" and "max".  [times] is stored by the
    product virality operation only, [errors] by user influence only. *)
Record stats : Type := mkStats {
  avg : Q;
  minimum : Q;
  maximum : Q;
  median : Q;
  times : option (list Q);
  errors : option nat
}.

(** One call received by [progress_callback(current, total, message)].
    Interpolated numbers are left out of the message text. *)
Record progress_call : Type := mkCall {
  pc_current : Z;
  pc_total : Z;
  pc_message : string
}.

(** The fields of a [DatabaseBenchmark] object.  [data_errors] is
    [data_metadata[op]["errors"]], a pair (postgresql, neo4j).
    [callback_set] tells whether [progress_callback] is not [None];
    [calls] are the calls it has received and [warnings] the
    [logger.warning] lines, both oldest first. *)
Record DatabaseBenchmark : Type := mkBench {
  results_postgresql : gmap string stats;
  results_neo4j : gmap string stats;
  data_errors : gmap string (nat * nat);
  current_step : Z;
  total_steps : Z;
  callback_set : bool;
  calls : list progress_call;
  warnings : list string
}.

(** [__init__], with or without a callback attached afterwards. *)
Definition init (cb : bool) : DatabaseBenchmark :=
  {| results_postgresql := ∅; results_neo4j := ∅; data_errors := ∅;
     current_step := 0; total_steps := 0; callback_set := cb;
     calls := []; warnings := [] |}.

(** *** A state-and-exception monad for the methods

    A method mutates [self] in place, so the state reached when an
    exception escapes is part of the outcome. *)
Definition M (A : Type) : Type :=
  DatabaseBenchmark -> DatabaseBenchmark * result A.

Definition ret {A} (a : A) : M A := fun b => (b, Ok a).

Definition bind {A B} (c : M A) (k : A -> M B) : M B :=
  fun b => match c b with
           | (b', Ok a) => k a b'
           | (b', Raise e) => (b', Raise e)
           end.

Notation "'let*' x ':=' c 'in' k" := (bind c (fun x => k))
  (at level 10, x name, c at level 100, k at level 200).
Notation "c '>>' k" := (bind c (fun _ => k))
  (at level 90, right associativity).

Definition raise {A} (e : exn) : M A := fun b => (b, Raise e).

Definition lift {A} (r : result A) : M A := fun b => (b, r).

(** [try: c  except Exception as e: h e] *)
Definition try_except {A} (c : M A) (h : exn -> M A) : M A :=
  fun b => match c b with
           | (b', Ok a) => (b', Ok a)
           | (b', Raise e) => h e b'
           end.

(** [try: c  except asyncio.TimeoutError: h] *)
Definition try_except_timeout {A} (c : M A) (h : M A) : M A :=
  fun b => match c b with
           | (b', Raise TimeoutError) => h b'
           | other => other
           end.

Definition modify (f : DatabaseBenchmark -> DatabaseBenchmark) : M unit :=
  fun b => (f b, Ok tt).

(** [if self.progress_callback:
       self.progress_callback(self.current_step, self.total_steps, msg)] *)
Definition notify (msg : string) : M unit :=
  modify (fun b =>
    if callback_set b then
      {| results_postgresql := results_postgresql b;
         results_neo4j := results_neo4j b;
         data_errors := data_errors b;
         current_step := current_step b;
         total_steps := total_steps b;
         callback_set := callback_set b;
         calls := calls b ++ [mkCall (current_step b) (total_steps b) msg];
         warnings := warnings b |}
    else b).

(** The last call of [run_benchmark] passes [total_steps] twice. *)
Definition notify_done (msg : string) : M unit :=
  modify (fun b =>
    if callback_set b then
      {| results_postgresql := results_postgresql b;
         results_neo4j := results_neo4j b;
         data_errors := data_errors b;
         current_step := current_step b;
         total_steps := total_steps b;
         callback_set := callback_set b;
         calls := calls b ++ [mkCall (total_steps b) (total_steps b) msg];
         warnings := warnings b |}
    else b).

Definition warning (msg : string) : M unit :=
  modify (fun b =>
    {| results_postgresql := results_postgresql b;
       results_neo4j := results_neo4j b;
       data_errors := data_errors b;
       current_step := current_step b;
       total_steps := total_steps b;
       callback_set := callback_set b;
       calls := calls b;
       warnings := warnings b ++ [msg] |}).

Definition set_steps (cur tot : Z) : M unit :=
  modify (fun b =>
    {| results_postgresql := results_postgresql b;
       results_neo4j := results_neo4j b;
       data_errors := data_errors b;
       current_step := cur;
       total_steps := tot;
       callback_set := callback_set b;
       calls := calls b;
       warnings := warnings b |}).

(** [self.current_step += 1] *)
Definition next_step : M unit :=
  fun b => set_steps (current_step b + 1) (total_steps b) b.

(** [self.total_steps = n] *)
Definition set_total (n : Z) : M unit :=
  fun b => set_steps (current_step b) n b.

(** [self.results[backend][op] = s] *)
Definition store (be : backend) (op : string) (s : stats) : M unit :=
  modify (fun b =>
    {| results_postgresql :=
         match be with
         | PostgreSQL => <[op := s]> (results_postgresql b)
         | Neo4j => results_postgresql b
         end;
       results_neo4j :=
         match be with
         | PostgreSQL => results_neo4j b
         | Neo4j => <[op := s]> (results_neo4j b)
         end;
       data_errors := data_errors b;
       current_step := current_step b;
       total_steps := total_steps b;
       callback_set := callback_set b;
       calls := calls b;
       warnings := warnings b |}).

(** [self.data_metadata[op]["errors"] = {"postgresql": pg, "neo4j": neo}] *)
Definition store_errors (op : string) (pg neo : nat) : M unit :=
  modify (fun b =>
    {| results_postgresql := results_postgresql b;
       results_neo4j := results_neo4j b;
       data_errors := <[op := (pg, neo)]> (data_errors b);
       current_step := current_step b;
       total_steps := total_steps b;
       callback_set := callback_set b;
       calls := calls b;
       warnings := warnings b |}).

(** [for i in range(...): acc = body i acc] *)
Fixpoint for_each {S} (ixs : list nat) (body : nat -> S -> M S) (acc : S)
  : M S :=
  match ixs with
  | [] => ret acc
  | i :: rest => let* acc' := body i acc in for_each rest body acc'
  end.

(** The sentinel latency recorded for a failed or timed-out query. *)
Definition sentinel : Q := 60.

(** [await asyncio.wait_for(call, timeout=timeout_seconds)] *)
Definition wait_for (r : response) (timeout_seconds : Q) : result Q :=
  match r with
  | Returns t => if Qle_bool t timeout_seconds then Ok t else Raise TimeoutError
  | Fails => Raise BackendError
  end.

(** A call that no timeout guards. *)
Definition await (r : response) : result Q :=
  match r with
  | Returns t => Ok t
  | Fails => Raise BackendError
  end.

(** *** Summary statistics of one sample list *)

(** The unguarded form of the baseline operations:
    [{"avg": statistics.mean(ts), "min": min(ts), "max": max(ts),
      "median": statistics.median(ts)}]. *)
Definition summary (ts : list Q) (tm : option (list Q)) (er : option nat)
  : result stats :=
  rbind (Statistics.mean ts) (fun a =>
  rbind (Statistics.min ts) (fun mn =>
  rbind (Statistics.max ts) (fun mx =>
  rbind (Statistics.median ts) (fun md =>
  Ok (mkStats a mn mx md tm er))))).

(** [f(ts) if ts else 0] *)
Definition or_zero (f : list Q -> result Q) (ts : list Q) : result Q :=
  match ts with
  | [] => Ok 0%Q
  | _ => f ts
  end.

(** The guarded form of product virality and viral products. *)
Definition summary_or_zero (ts : list Q) (tm : option (list Q))
  : result stats :=
  rbind (or_zero Statistics.mean ts) (fun a =>
  rbind (or_zero Statistics.min ts) (fun mn =>
  rbind (or_zero Statistics.max ts) (fun mx =>
  rbind (or_zero Statistics.median ts) (fun md =>
  Ok (mkStats a mn mx md tm None))))).

(** User influence: [if not ts: ts = [60.0]] before the unguarded form. *)
Definition summary_or_sentinel (ts : list Q) (er : nat) : result stats :=
  let ts' := match ts with [] => [sentinel] | _ => ts end in
  summary ts' None (Some er).

(** *** The benchmark methods *)

Section Methods.

Variable w : world.

(** The five operations without error handling
    ([_benchmark_user_retrieval], [_benchmark_product_retrieval],
    [_benchmark_user_follows], [_benchmark_product_purchases],
    [_benchmark_recommendation_queries]) share one shape: a PostgreSQL
    loop, a Neo4j loop, then the unguarded statistics.  Any exception
    escapes. *)
Definition plain_loop (be : backend) (op : string) (iterations : Z)
  : M (list Q) :=
  for_each (Py.range iterations)
    (fun i ts => let* t := lift (await (w be op i)) in ret (ts ++ [t]))
    [].

Definition benchmark_plain (op : string) (iterations : Z) : M unit :=
  let* pg_times := plain_loop PostgreSQL op iterations in
  let* neo4j_times := plain_loop Neo4j op iterations in
  let* pg := lift (summary pg_times None None) in
  store PostgreSQL op pg >>
  let* neo := lift (summary neo4j_times None None) in
  store Neo4j op neo.

Definition _benchmark_user_retrieval := benchmark_plain "user_retrieval".
Definition _benchmark_product_retrieval := benchmark_plain "product_retrieval".
Definition _benchmark_user_follows := benchmark_plain "user_follows".
Definition _benchmark_product_purchases := benchmark_plain "product_purchases".
Definition _benchmark_recommendation_queries :=
  benchmark_plain "recommendation_queries".

(** The body repeated by every guarded loop:
    [try: t = call; times.append(t)
     except Exception: errors += 1; times.append(60.0); callback(...)].
    The accumulator is the pair (times, errors). *)
Definition guarded_iteration (start : string) (failed : string)
    (call : M Q) (acc : list Q * nat) : M (list Q * nat) :=
  notify start >>
  try_except
    (let* t := call in ret (fst acc ++ [t], snd acc))
    (fun _ => notify failed >> ret (fst acc ++ [sentinel], S (snd acc))).

(** [if max_level > 3: logger.warning(...); callback(...)] *)
Definition high_level_warning (max_level : Z) (msg : string) : M unit :=
  if (3 <? max_level)%Z then warning msg >> notify msg else ret tt.

(** [_benchmark_product_virality_neo4j]: the query under a 30 s timeout.
    The inner handler reports the timeout and re-raises; the outer
    [except Exception] reports the error and returns 60.0. *)
Definition _benchmark_product_virality_neo4j (i : nat) : M Q :=
  try_except
    (try_except_timeout
       (lift (wait_for (w Neo4j "product_virality" i) 30))
       (notify "Neo4j product virality query timed out" >>
        raise TimeoutError))
    (fun _ => notify "Error in Neo4j product virality query" >>
              ret sentinel).

Definition product_virality_pg_loop (iterations : Z) : M (list Q * nat) :=
  for_each (Py.range iterations)
    (fun i => guarded_iteration
       "Running PostgreSQL product virality query"
       "Error in PostgreSQL product virality query"
       (lift (await (w PostgreSQL "product_virality" i))))
    ([], O).

Definition product_virality_neo4j_loop (iterations : Z)
  : M (list Q * nat) :=
  for_each (Py.range iterations)
    (fun i => guarded_iteration
       "Running Neo4j product virality query"
       "Error in Neo4j product virality query"
       (_benchmark_product_virality_neo4j i))
    ([], O).

Definition _benchmark_product_virality (iterations max_level : Z)
  : M unit :=
  high_level_warning max_level
    "High max_level may cause this query to take several minutes" >>
  let* pg := product_virality_pg_loop iterations in
  let* neo := product_virality_neo4j_loop iterations in
  store_errors "product_virality" (snd pg) (snd neo) >>
  let* pg_stats := lift (summary_or_zero (fst pg) (Some (fst pg))) in
  store PostgreSQL "product_virality" pg_stats >>
  let* neo_stats := lift (summary_or_zero (fst neo) (Some (fst neo))) in
  store Neo4j "product_virality" neo_stats >>
  notify "Completed product virality benchmark".

(** [_benchmark_user_influence_neo4j]: same shape as the product
    virality helper. *)
Definition _benchmark_user_influence_neo4j (i : nat) : M Q :=
  try_except
    (try_except_timeout
       (lift (wait_for (w Neo4j "user_influence" i) 30))
       (notify "Neo4j user influence query timed out" >>
        raise TimeoutError))
    (fun _ => notify "Error in Neo4j user influence query" >>
              ret sentinel).

Definition user_influence_pg_loop (iterations : Z) : M (list Q * nat) :=
  for_each (Py.range iterations)
    (fun i => guarded_iteration
       "Running PostgreSQL user influence query"
       "Error in PostgreSQL user influence query"
       (lift (await (w PostgreSQL "user_influence" i))))
    ([], O).

Definition user_influence_neo4j_loop (iterations : Z) : M (list Q * nat) :=
  for_each (Py.range iterations)
    (fun i => guarded_iteration
       "Running Neo4j user influence query"
       "Error in Neo4j user influence query"
       (_benchmark_user_influence_neo4j i))
    ([], O).

Definition _benchmark_user_influence (iterations max_level : Z) : M unit :=
  high_level_warning max_level
    "High max_level may cause this query to take several minutes" >>
  let* pg := user_influence_pg_loop iterations in
  let* neo := user_influence_neo4j_loop iterations in
  store_errors "user_influence" (snd pg) (snd neo) >>
  notify "Completed user influence benchmark" >>
  let* pg_stats := lift (summary_or_sentinel (fst pg) (snd pg)) in
  store PostgreSQL "user_influence" pg_stats >>
  let* neo_stats := lift (summary_or_sentinel (fst neo) (snd neo)) in
  store Neo4j "user_influence" neo_stats.

(** Viral products: the Neo4j query runs inline under a 60 s timeout, so
    the re-raised [TimeoutError] reaches the loop's own handler. *)
Definition viral_products_neo4j_call (i : nat) : M Q :=
  try_except_timeout
    (lift (wait_for (w Neo4j "viral_products" i) 60))
    (notify "Neo4j viral products query timed out" >>
     raise TimeoutError).

Definition viral_products_pg_loop (iterations : Z) : M (list Q * nat) :=
  for_each (Py.range iterations)
    (fun i => guarded_iteration
       "Running PostgreSQL viral products query"
       "Error in PostgreSQL viral products query"
       (lift (await (w PostgreSQL "viral_products" i))))
    ([], O).

Definition viral_products_neo4j_loop (iterations : Z) : M (list Q * nat) :=
  for_each (Py.range iterations)
    (fun i => guarded_iteration
       "Running Neo4j viral products query"
       "Error in Neo4j viral products query"
       (viral_products_neo4j_call i))
    ([], O).

Definition _benchmark_viral_products (iterations max_level : Z) : M unit :=
  high_level_warning max_level
    "High max_level may cause this query to take several minutes" >>
  let* pg := viral_products_pg_loop iterations in
  let* neo := viral_products_neo4j_loop iterations in
  store_errors "viral_products" (snd pg) (snd neo) >>
  notify "Completed viral products benchmark" >>
  let* pg_stats := lift (summary_or_zero (fst pg) None) in
  store PostgreSQL "viral_products" pg_stats >>
  let* neo_stats := lift (summary_or_zero (fst neo) None) in
  store Neo4j "viral_products" neo_stats.

(** [_print_benchmark_summary]: one comparison per operation found in
    [self.results["postgresql"]]; the lines are only logged.  The
    lookup in [self.results["neo4j"]] raises [KeyError] on a missing
    operation.  (The order of the lines is that of the map.) *)
Definition summary_line (neo : gmap string stats) (entry : string * stats)
  : result (option Comparator.comparison) :=
  match neo !! fst entry with
  | None => Raise KeyError
  | Some n => Comparator.compare (avg (snd entry)) (avg n)
  end.

Fixpoint summary_lines (neo : gmap string stats)
    (entries : list (string * stats))
  : result (list (option Comparator.comparison)) :=
  match entries with
  | [] => Ok []
  | e :: rest =>
      rbind (summary_line neo e) (fun l =>
      rbind (summary_lines neo rest) (fun ls => Ok (l :: ls)))
  end.

Definition _print_benchmark_summary
  : M (list (option Comparator.comparison)) :=
  fun b => (b, summary_lines (results_neo4j b)
                 (map_to_list (results_postgresql b))).

Definition when (c : bool) (body : M unit) : M unit :=
  if c then body else ret tt.

Definition is_all (test_type : string) : bool := String.eqb test_type "all".

(** [run_benchmark].  [users] and [products] are what
    [_get_sample_users(100)] and [_get_sample_products(100)] fetch.
    [product_id] and [user_id] only select which entity is queried.
    The value returned is [self.results], as the pair of its two maps. *)
Definition run_benchmark (test_type : string) (max_level : Z)
    (product_id user_id : option string) (iterations : Z)
    (users products : list Z)
  : M (gmap string stats * gmap string stats) :=
  let return_results : M (gmap string stats * gmap string stats) :=
    fun b => (b, Ok (results_postgresql b, results_neo4j b)) in
  set_steps 0 0 >>
  (if String.eqb test_type "all" then
     set_total 6 >>
     when (3 <? max_level)%Z
       (warning "High max_level may cause longer execution times")
   else if String.eqb test_type "basic" then
     set_total 4
   else if existsb (String.eqb test_type)
             ["product_virality"; "user_influence"; "viral_products";
              "recommendation_queries"]
   then set_total 1
   else ret tt) >>
  notify "Starting benchmarks" >>
  match users, products with
  | [], _ | _, [] => return_results
  | _ :: _, _ :: _ =>
      when (is_all test_type || String.eqb test_type "basic")
        (next_step >>
         notify "Running user retrieval benchmark" >>
         _benchmark_user_retrieval iterations >>
         next_step >>
         notify "Running product retrieval benchmark" >>
         _benchmark_product_retrieval iterations >>
         next_step >>
         notify "Running user follows benchmark" >>
         _benchmark_user_follows iterations >>
         next_step >>
         notify "Running product purchases benchmark" >>
         _benchmark_product_purchases iterations) >>
      when (is_all test_type || String.eqb test_type "product_virality")
        (next_step >>
         notify "Running product virality benchmark" >>
         _benchmark_product_virality iterations max_level) >>
      when (is_all test_type || String.eqb test_type "user_influence")
        (next_step >>
         notify "Running user influence benchmark" >>
         _benchmark_user_influence iterations max_level) >>
      when (is_all test_type || String.eqb test_type "viral_products")
        (next_step >>
         notify "Running viral products benchmark" >>
         _benchmark_viral_products iterations max_level) >>
      when (is_all test_type || String.eqb test_type "recommendation_queries")
        (next_step >>
         notify "Running recommendation queries benchmark" >>
         _benchmark_recommendation_queries iterations) >>
      notify_done "All benchmarks completed, generating summary" >>
      _print_benchmark_summary >>
      return_results
  end.

End Methods.

End Benchmark.

(** ** [app/api/endpoints/benchmark.py]: the task registry *)

Module Registry.

Import Benchmark.

(** The values found in a task document.  [start_time] is an ISO string in
    the source; it is kept as the instant it denotes, in seconds. *)
Inductive value : Type :=
  | VStr (s : string)
  | VInt (n : Z)
  | VFloat (q : Q)
  | VBool (b : bool)
  | VTime (t : Q)
  | VResults (pg neo : gmap string stats).

(** [v == s] for a string literal [s]. *)
Definition is_str (v : value) (s : string) : bool :=
  match v with
  | VStr s' => String.eqb s' s
  | _ => false
  end.

(** The numbers the arithmetic of the status poll accepts; a [bool] is an
    [int]. *)
Definition number (v : value) : result Q :=
  match v with
  | VInt n => Ok (inject_Z n)
  | VFloat q => Ok q
  | VBool b => Ok (if b then 1 else 0)%Q
  | _ => Raise TypeError
  end.

(** [datetime.fromisoformat(v)] *)
Definition fromisoformat (v : value) : result Q :=
  match v with
  | VTime t => Ok t
  | _ => Raise TypeError
  end.

(** [d[k]] *)
Definition getitem {V} (d : gmap string V) (k : string) : result V :=
  match d !! k with
  | Some v => Ok v
  | None => Raise KeyError
  end.

(** [min(int(x * 100), 99)] for the quotient [x]. *)
Definition percent_capped (x : Q) : Z := Z.min (Py.int (x * 100)%Q) 99.

(** [get_task_status]; [now] is what [datetime.now()] reads. *)
Definition get_task_status
    (benchmark_results : gmap string (gmap string value))
    (now : Q) (task_id : string)
  : result (gmap string value) :=
  match benchmark_results !! task_id with
  | Some task =>
      rbind (getitem task "status") (fun status =>
      let result := task in
      if is_str status "completed" then
        Ok (<["progress" := VInt 100]> result)
      else if is_str status "failed" then
        Ok (<["progress" := VInt 0]> result)
      else
        match result !! "current_step", result !! "total_steps" with
        | Some cur, Some tot =>
            rbind (number tot) (fun total_steps =>
            if Py.ltb 0 total_steps then
              rbind (number cur) (fun current_step =>
              Ok (<["progress" :=
                      VInt (percent_capped (current_step / total_steps)%Q)]>
                    result))
            else Ok (<["progress" := VInt 50]> result))
        | _, _ =>
            rbind (getitem result "start_time") (fun st =>
            rbind (fromisoformat st) (fun start_time =>
            let elapsed_seconds := (now - start_time)%Q in
            Ok (<["progress" := VInt (percent_capped (elapsed_seconds / 30)%Q)]>
                  result)))
        end)
  | None =>
      Ok (<["task_id" := VStr task_id]>
          (<["status" := VStr "not_found"]>
          (<["message" := VStr "Task not found or not started yet"]>
          (<["progress" := VInt 0]> ∅))))
  end.

(** [get_generation_metrics] *)
Definition get_generation_metrics
    (generation_metrics : gmap string (gmap string value))
    (task_id : string)
  : result (gmap string value) :=
  match generation_metrics !! task_id with
  | None => Raise (HTTPException 404)
  | Some m => Ok m
  end.

(** [compare_benchmarks]: the ["operations"] part of the answer. *)
Definition results_of (task : gmap string value)
  : result (gmap string stats * gmap string stats) :=
  rbind (getitem task "results") (fun v =>
  match v with
  | VResults pg neo => Ok (pg, neo)
  | _ => Raise TypeError
  end).

Fixpoint compare_operations (neo : gmap string stats)
    (entries : list (string * stats))
  : result (gmap string Comparator.comparison) :=
  match entries with
  | [] => Ok ∅
  | (operation, pg) :: rest =>
      rbind (compare_operations neo rest) (fun acc =>
      match neo !! operation with
      | None => Ok acc
      | Some n =>
          rbind (Comparator.compare (avg pg) (avg n)) (fun c =>
          match c with
          | Some line => Ok (<[operation := line]> acc)
          | None => Ok acc
          end)
      end)
  end.

Definition completed (task : gmap string value) : result bool :=
  rbind (getitem task "status") (fun s => Ok (is_str s "completed")).

Definition compare_benchmarks
    (benchmark_results : gmap string (gmap string value))
    (pg_task_id neo4j_task_id : string)
  : result (gmap string Comparator.comparison) :=
  match benchmark_results !! pg_task_id, benchmark_results !! neo4j_task_id with
  | Some pg_task, Some neo4j_task =>
      rbind (completed pg_task) (fun c1 =>
      if negb c1 then Raise (HTTPException 400) else
      rbind (completed neo4j_task) (fun c2 =>
      if negb c2 then Raise (HTTPException 400) else
      rbind (results_of pg_task) (fun pg_results =>
      rbind (results_of neo4j_task) (fun neo4j_results =>
      compare_operations (snd neo4j_results)
        (map_to_list (fst pg_results))))))
  | _, _ => Raise (HTTPException 404)
  end.

(** [update_progress], the callback [_run_benchmark_task] attaches. *)
Definition update_progress (task : gmap string value) (c : progress_call)
  : gmap string value :=
  <["current_step" := VInt (pc_current c)]>
  (<["total_steps" := VInt (pc_total c)]>
  (<["current_operation" := VStr (pc_message c)]>
  (<["message" := VStr (pc_message c)]> task))).

(** The document [_run_benchmark_task] creates before the run. *)
Definition new_benchmark_task (task_id : string) (start : Q)
  : gmap string value :=
  <["task_id" := VStr task_id]>
  (<["status" := VStr "running"]>
  (<["message" := VStr "Benchmark in progress"]>
  (<["start_time" := VTime start]>
  (<["progress" := VInt 0]>
  (<["current_step" := VInt 0]>
  (<["total_steps" := VInt 1]>
  (<["current_operation" := VStr "Initializing benchmark"]> ∅))))))).

(** The documents a poll can find while the run is under way: the new
    document, then one per callback call. *)
Fixpoint documents_seen (task : gmap string value) (cs : list progress_call)
  : list (gmap string value) :=
  match cs with
  | [] => [task]
  | c :: rest => task :: documents_seen (update_progress task c) rest
  end.

(** [_run_benchmark_task]: the documents seen during the run and the
    registry it leaves. *)
Definition _run_benchmark_task (w : world)
    (benchmark_results : gmap string (gmap string value))
    (task_id : string) (start finish : Q)
    (test_type : string) (max_level : Z) (product_id user_id : option string)
    (iterations : Z) (users products : list Z)
  : list (gmap string value) * gmap string (gmap string value) :=
  let task0 := new_benchmark_task task_id start in
  let '(b, r) :=
    run_benchmark w test_type max_level product_id user_id iterations
      users products (init true) in
  let seen := documents_seen task0 (calls b) in
  let task := List.last seen task0 in
  let final :=
    match r with
    | Ok (pg, neo) =>
        <["status" := VStr "completed"]>
        (<["message" := VStr "Benchmark completed successfully"]>
        (<["results" := VResults pg neo]>
        (<["end_time" := VTime finish]>
        (<["has_results" := VBool true]>
        (<["progress" := VInt 100]> task)))))
    | Raise _ =>
        <["status" := VStr "failed"]>
        (<["message" := VStr "Benchmark failed"]>
        (<["end_time" := VTime finish]>
        (<["has_results" := VBool false]>
        (<["progress" := VInt 0]> task))))
    end in
  (seen, <[task_id := final]> benchmark_results).

End Registry.

(** ** [app/services/user_service.py] and [app/utils/data_generator.py]:
       follow edges written to both stores *)

Module Generator.

(** The content of the two stores that [follow_user] reads and writes.
    The [follows] table is a list of rows; the graph holds at most one
    [FOLLOWS] relationship per ordered pair ([MERGE]).  The graph keeps
    the identifier as a string; it is kept here as the integer it prints. *)
Record stores : Type := mkStores {
  pg_users : gset Z;
  pg_follows : list (Z * Z);
  neo4j_users : gset Z;
  neo4j_follows : gset (Z * Z)
}.

(** Which driver calls raise during one [follow_user] call. *)
Record faults : Type := mkFaults {
  pg_read_fails : bool;      (* a SELECT raises *)
  pg_commit_fails : bool;    (* [db.commit()] raises *)
  neo4j_fails : bool         (* the graph session or [session.run] raises *)
}.

Definition no_faults : faults := mkFaults false false false.

(** The relational half of [follow_user], up to the commit.  [Ok false] is
    an early [return False]. *)
Definition follow_user_pg (f : faults) (user_id target_user_id : Z)
    (st : stores) : stores * result bool :=
  if pg_read_fails f then (st, Raise BackendError)
  else if negb (bool_decide (user_id ∈ pg_users st)) then (st, Ok false)
  else if negb (bool_decide (target_user_id ∈ pg_users st)) then (st, Ok false)
  else if bool_decide ((user_id, target_user_id) ∈ pg_follows st) then
    (st, Ok true)
  else if pg_commit_fails f then (st, Raise BackendError)
  else
    ({| pg_users := pg_users st;
        pg_follows := pg_follows st ++ [(user_id, target_user_id)];
        neo4j_users := neo4j_users st;
        neo4j_follows := neo4j_follows st |}, Ok true).

(** The graph half: [MATCH (u1), (u2) MERGE (u1)-[r:FOLLOWS]->(u2) RETURN r]
    and [record is not None]. *)
Definition follow_user_neo4j (f : faults) (user_id target_user_id : Z)
    (st : stores) : stores * result bool :=
  if neo4j_fails f then (st, Raise BackendError)
  else if bool_decide (user_id ∈ neo4j_users st)
          && bool_decide (target_user_id ∈ neo4j_users st) then
    ({| pg_users := pg_users st;
        pg_follows := pg_follows st;
        neo4j_users := neo4j_users st;
        neo4j_follows := {[ (user_id, target_user_id) ]} ∪ neo4j_follows st |},
     Ok true)
  else (st, Ok false).

(** [follow_user]: every exception ends in [return False]. *)
Definition follow_user (f : faults) (user_id target_user_id : Z)
    (st : stores) : stores * bool :=
  match follow_user_pg f user_id target_user_id st with
  | (st1, Raise _) => (st1, false)
  | (st1, Ok false) => (st1, false)
  | (st1, Ok true) =>
      match follow_user_neo4j f user_id target_user_id st1 with
      | (st2, Raise _) => (st2, false)
      | (st2, Ok success) => (st2, success)
      end
  end.

(** [DataGenerator._create_follow]; the identifiers are integers, so the
    conversions are the identity. *)
Definition _create_follow (f : faults) (follower_id followed_id : Z)
    (st : stores) : stores * bool :=
  if (follower_id =? followed_id)%Z then (st, false)
  else follow_user f follower_id followed_id st.

(** *** The random source *)

(** The numbers [random] draws, as an explicit input. *)
Definition rng : Type := list nat.

Definition draw (r : rng) : nat * rng :=
  match r with
  | [] => (O, [])
  | x :: r' => (x, r')
  end.

(** [random.randint(a, b)] *)
Definition randint (a b : Z) (r : rng) : result Z * rng :=
  if (b <? a)%Z then (Raise ValueError, r)
  else let '(x, r') := draw r in
       (Ok (a + Z.of_nat x mod (b - a + 1))%Z, r').

(** [random.sample(population, k)] for [k <= len(population)]: [k] picks
    without replacement. *)
Fixpoint sample {A} (population : list A) (k : nat) (r : rng)
  : list A * rng :=
  match k with
  | O => ([], r)
  | S k' =>
      let '(x, r') := draw r in
      let i := (x mod length population)%nat in
      match population !! i with
      | None => ([], r')
      | Some a =>
          let '(rest, r'') := sample (delete i population) k' r' in
          (a :: rest, r'')
      end
  end.

(** *** [generate_follows] *)

Record DataGenerator : Type := mkGen {
  user_ids : list Z;
  follow_count : Z;
  db : stores;
  random : rng
}.

(** [l[i:i+size] for i in range(0, len(l), size)] *)
Definition slices {A} (size : nat) (l : list A) : list (list A) :=
  List.map (fun j => take size (drop (j * size) l))
    (seq 0 ((length l + size - 1) / size)).

(** [potential_follows = [u for u in self.user_ids if u != user_id]] *)
Definition potential_follows (ids : list Z) (user_id : Z) : list Z :=
  List.filter (fun u => negb (u =? user_id)%Z) ids.

(** The pairs one user adds to [batch_follows]. *)
Definition follows_of_user (ids : list Z) (max_follows_per_user : Z)
    (user_id : Z) (r : rng) : result (list (Z * Z)) * rng :=
  match randint 1 (Z.min max_follows_per_user (Z.of_nat (length ids) - 1)) r with
  | (Raise e, r1) => (Raise e, r1)
  | (Ok num_follows, r1) =>
      let pool := potential_follows ids user_id in
      let '(pool, r2) :=
        if (100 <? length pool)%nat then sample pool 100 r1 else (pool, r1) in
      match pool with
      | [] => (Ok [], r2)
      | _ :: _ =>
          if (0 <? num_follows)%Z then
            let '(follows, r3) :=
              sample pool (Nat.min (Z.to_nat num_follows) (length pool)) r2 in
            (Ok (List.map (fun follow => (user_id, follow)) follows), r3)
          else (Ok [], r2)
      end
  end.

Fixpoint batch_follows_of (ids : list Z) (max_follows_per_user : Z)
    (batch_users : list Z) (r : rng) : result (list (Z * Z)) * rng :=
  match batch_users with
  | [] => (Ok [], r)
  | user_id :: rest =>
      match follows_of_user ids max_follows_per_user user_id r with
      | (Raise e, r1) => (Raise e, r1)
      | (Ok mine, r1) =>
          match batch_follows_of ids max_follows_per_user rest r1 with
          | (Raise e, r2) => (Raise e, r2)
          | (Ok others, r2) => (Ok (mine ++ others), r2)
          end
      end
  end.

(** [results = await asyncio.gather] over the tasks, the calls taken in order. *)
Fixpoint gather (fault_of : Z -> Z -> faults) (sub_batch : list (Z * Z))
    (st : stores) : stores * list bool :=
  match sub_batch with
  | [] => (st, [])
  | (follower_id, followed_id) :: rest =>
      let '(st1, r) :=
        _create_follow (fault_of follower_id followed_id)
          follower_id followed_id st in
      let '(st2, rs) := gather fault_of rest st1 in
      (st2, r :: rs)
  end.

(** [sum(1 for r in results if r is True)] *)
Definition success_count (results : list bool) : Z :=
  Z.of_nat (length (List.filter (fun r => r) results)).

Fixpoint run_sub_batches (fault_of : Z -> Z -> faults)
    (sub_batches : list (list (Z * Z))) (st : stores) (total : Z)
  : stores * Z :=
  match sub_batches with
  | [] => (st, total)
  | sub_batch :: rest =>
      let '(st1, results) := gather fault_of sub_batch st in
      run_sub_batches fault_of rest st1 (total + success_count results)
  end.

(** The batches of users in turn.  The value returned carries the count of
    successes so far, also when [random.randint] raises. *)
Fixpoint run_batches (fault_of : Z -> Z -> faults) (ids : list Z)
    (max_follows_per_user : Z) (batches : list (list Z))
    (st : stores) (r : rng) (total : Z)
  : stores * rng * Z * option exn :=
  match batches with
  | [] => (st, r, total, None)
  | batch_users :: rest =>
      match batch_follows_of ids max_follows_per_user batch_users r with
      | (Raise e, r1) => (st, r1, total, Some e)
      | (Ok batch_follows, r1) =>
          let '(st1, total1) :=
            run_sub_batches fault_of (slices 100 batch_follows) st total in
          run_batches fault_of ids max_follows_per_user rest st1 r1 total1
      end
  end.

(** [generate_follows]: [self.follow_count] is reset, then follows the
    total; the value returned is the total. *)
Definition generate_follows (fault_of : Z -> Z -> faults)
    (max_follows_per_user : Z) (g : DataGenerator)
  : DataGenerator * result Z :=
  if (length (user_ids g) <? 2)%nat then (g, Ok 0%Z)
  else
    let '(st, r, total, raised) :=
      run_batches fault_of (user_ids g) max_follows_per_user
        (slices 1000 (user_ids g)) (db g) (random g) 0%Z in
    (mkGen (user_ids g) total st r,
     match raised with
     | None => Ok total
     | Some e => Raise e
     end).

End Generator.

(** ** [app/services/comparative_service.py]: product virality *)

Module Comparative.

Local Open Scope Q_scope.

(** A row of [products] (a [Product] node carries the same properties). *)
Record product : Type := mkProduct {
  id : Z;
  name : string;
  category : string;
  price : Q
}.

(** The dictionary both functions return. *)
Record virality : Type := mkVirality {
  v_id : Z;
  v_name : string;
  v_category : string;
  v_price : Q;
  purchase_count : Z;
  viral_score : Q
}.

(** The answer when the query yields no row. *)
Definition not_found (product_id : Z) : virality :=
  mkVirality product_id "" "" 0 0 0.

(** SQL [a / b] on [double precision]: PostgreSQL raises
    [division by zero]; the driver passes the error on. *)
Definition sql_div (a b : Q) : result Q :=
  if Qeq_bool b 0 then Raise BackendError else Ok (a / b).

(** [pg_get_product_virality].  The joins and the [GROUP BY] are evaluated
    by the engine: [row] is the one group they leave, if any, as the
    product and [COUNT(DISTINCT u.id)].  The select list is the source's:
    [COUNT(DISTINCT u.id) * 1.0 / p.price AS viral_score]. *)
Definition pg_get_product_virality (product_id : Z)
    (row : option (product * Z)) : result virality :=
  match row with
  | None => Ok (not_found product_id)
  | Some (p, n) =>
      rbind (sql_div (inject_Z n * 1) (price p)) (fun score =>
      Ok (mkVirality (id p) (name p) (category p) (price p) n score))
  end.

(** [neo4j_get_product_virality].  [record] is the product matched and
    [COUNT(DISTINCT u1)], if the product exists.  The returned score is the
    source's
    [CASE WHEN p.price > 0 THEN purchase_count * 1.0 / p.price ELSE 0 END]. *)
Definition neo4j_get_product_virality (product_id : Z)
    (record : option (product * Z)) : result virality :=
  match record with
  | None => Ok (not_found product_id)
  | Some (p, n) =>
      let score :=
        if Py.ltb 0 (price p) then inject_Z n * 1 / price p else 0 in
      Ok (mkVirality (id p) (name p) (category p) (price p) n score)
  end.

(** The formula of the specification:
    distinct_buyers / price when price > 0, else 0. *)
Definition spec_viral_score (distinct_buyers : Z) (price : Q) : Q :=
  if Py.ltb 0 price then inject_Z distinct_buyers / price else 0.

End Comparative.

(** ** IEEE 754 binary64, for the step percentage of the status poll

    [min(int((current_step / total_steps) * 100), 99)] evaluated with the
    Standard Library's specification of floating-point operations. *)

Module Binary64.

Definition prec : Z := 53.
Definition emax : Z := 1024.

(** The float nearest to an integer. *)
Definition of_int (n : Z) : spec_float :=
  binary_normalize prec emax n 0 false.

Definition div : spec_float -> spec_float -> spec_float := SFdiv prec emax.
Definition mul : spec_float -> spec_float -> spec_float := SFmul prec emax.

(** [int(x)]: truncation toward zero; no value for an infinity or a NaN. *)
Definition int (x : spec_float) : option Z :=
  match x with
  | S754_zero _ => Some 0
  | S754_finite s m e =>
      let v := if 0 <=? e then Zpos m * 2 ^ e else Zpos m / 2 ^ (- e) in
      Some (if s then - v else v)
  | S754_infinity _ | S754_nan => None
  end.

Definition step_percent (current_step total_steps : Z) : option Z :=
  option_map (fun p => Z.min p 99)
    (int (mul (div (of_int current_step) (of_int total_steps)) (of_int 100))).

End Binary64.

(** * Specification vocabulary *)

Module Spec.

Import Benchmark.

(** ** A Hoare-style predicate for the benchmark methods

    [wpe c Q E b]: run from [b], the method [c] either returns [a] in a
    state [b'] with [Q a b'], or raises [e] in a state [b'] with [E e b']. *)
Definition wpe {A} (c : M A) (Q : A -> DatabaseBenchmark -> Prop)
    (E : exn -> DatabaseBenchmark -> Prop) (b : DatabaseBenchmark) : Prop :=
  match c b with
  | (b', Ok a) => Q a b'
  | (b', Raise e) => E e b'
  end.

Definition never {A} : A -> DatabaseBenchmark -> Prop := fun _ _ => False.

(** What a method that only reports progress and stores statistics leaves
    alone: both step counters, and the calls already received.  Every new
    call carries the total of [b0]. *)
Definition extends (b0 b : DatabaseBenchmark) : Prop :=
  current_step b = current_step b0 /\
  total_steps b = total_steps b0 /\
  callback_set b = callback_set b0 /\
  exists extra,
    calls b = calls b0 ++ extra /\
    Forall (fun c => pc_total c = total_steps b0) extra.

(** [extends], with the two maps of results known. *)
Definition tracks (b0 : DatabaseBenchmark) (pg neo : gmap string stats)
    (b : DatabaseBenchmark) : Prop :=
  extends b0 b /\ results_postgresql b = pg /\ results_neo4j b = neo.

(** A method that writes nothing but progress calls, warnings and error
    counts, whether it returns or raises. *)
Definition quiet {A} (c : M A) : Prop :=
  forall b0 pg neo b,
    tracks b0 pg neo b ->
    wpe c (fun _ b1 => tracks b0 pg neo b1) (fun _ b1 => tracks b0 pg neo b1) b.

(** A method that never raises. *)
Definition safe {A} (c : M A) : Prop :=
  forall b, wpe c (fun _ _ => True) never b.

(** The effect of one operation: as [extends], and one entry written under
    [op] for each backend. *)
Definition records (op : string) (b0 b : DatabaseBenchmark) : Prop :=
  exists s1 s2,
    tracks b0 (<[op := s1]> (results_postgresql b0))
              (<[op := s2]> (results_neo4j b0)) b.

(** Where a run stands: the step counters, the total carried by every
    call so far, and the operations that have an entry. *)
Definition stage (step total : Z) (ops : list string)
    (b : DatabaseBenchmark) : Prop :=
  current_step b = step /\
  total_steps b = total /\
  Forall (fun c => pc_total c = total) (calls b) /\
  dom (results_postgresql b) = list_to_set ops /\
  dom (results_neo4j b) = list_to_set ops.

(** The total is [t], and every progress call so far has carried [t]. *)
Definition total_fixed (t : Z) (b : DatabaseBenchmark) : Prop :=
  total_steps b = t /\ Forall (fun c => pc_total c = t) (calls b).

(** A method that keeps [total_fixed], whether it returns or raises. *)
Definition keeps_total {A} (c : M A) : Prop :=
  forall t b, total_fixed t b ->
    wpe c (fun _ b' => total_fixed t b') (fun _ b' => total_fixed t b') b.


(** The operations without error handling. *)
Definition plain_operations : list string :=
  ["user_retrieval"; "product_retrieval"; "user_follows";
   "product_purchases"; "recommendation_queries"].

(** The eight operations of a run of type "all". *)
Definition all_operations : list string :=
  ["user_retrieval"; "product_retrieval"; "user_follows";
   "product_purchases"; "product_virality"; "user_influence";
   "viral_products"; "recommendation_queries"].

(** No call of an operation without error handling raises. *)
Definition plain_calls_return (w : world) : Prop :=
  forall be op i, In op plain_operations -> exists t, w be op i = Returns t.

(** The time a completed call took. *)
Definition time_of (r : response) : Q :=
  match r with Returns t => t | Fails => 0%Q end.

(** All four statistics equal to [q]. *)
Definition all_equal (q : Q) (s : stats) : Prop :=
  (avg s == q)%Q /\ (minimum s == q)%Q /\ (maximum s == q)%Q /\
  (median s == q)%Q.

(** The sample a loop records for a call made through one of the two
    30-second helpers: the time taken, or the sentinel. *)
Definition helper_sample (r : response) : Q :=
  match wait_for r 30 with
  | Ok t => t
  | Raise _ => sentinel
  end.

(** A query call takes longer than the timeout of its wrapper. *)
Definition exceeds (r : response) (timeout_seconds : Q) : Prop :=
  exists t, r = Returns t /\ (timeout_seconds < t)%Q.

(** ** Status poll *)


(** The [progress] entry of an answer of the status poll. *)
Definition progress_of (r : result (gmap string Registry.value))
  : option Registry.value :=
  match r with
  | Ok doc => doc !! "progress"
  | Raise _ => None
  end.

(** The step percentage of the status poll on exact rationals. *)
Definition exact_step_percent (current_step total_steps : Z) : Z :=
  Registry.percent_capped (inject_Z current_step / inject_Z total_steps)%Q.

(** The totals [run_benchmark] sets besides zero, and the steps a run can
    report under them; the document of a new task starts at 0 of 1. *)
Definition reported_steps : list (Z * Z) :=
  list_prod [0; 1; 2; 3; 4; 5; 6; 7; 8] [1; 4; 6].

(** ** Follow edges *)

Import Generator.

(** No row and no relationship joins a user to itself. *)
Definition no_self_follow (st : stores) : Prop :=
  (forall a b, (a, b) ∈ pg_follows st -> a <> b) /\
  (forall a b, (a, b) ∈ neo4j_follows st -> a <> b).

(** The edge is held by both stores. *)
Definition committed (follower_id followed_id : Z) (st : stores) : Prop :=
  (follower_id, followed_id) ∈ pg_follows st /\
  (follower_id, followed_id) ∈ neo4j_follows st.

(** What one call of [follow_user] can do to the stores, with the value it
    returns. *)
Inductive follow_effect (a b : Z) (st : stores) : stores -> bool -> Prop :=
  | nothing_written :
      follow_effect a b st st false
  | relational_only :
      (a, b) ∉ pg_follows st ->
      follow_effect a b st
        (mkStores (pg_users st) (pg_follows st ++ [(a, b)])
                  (neo4j_users st) (neo4j_follows st)) false
  | graph_joins_existing_row :
      (a, b) ∈ pg_follows st ->
      follow_effect a b st
        (mkStores (pg_users st) (pg_follows st)
                  (neo4j_users st) ({[ (a, b) ]} ∪ neo4j_follows st)) true
  | both_written :
      (a, b) ∉ pg_follows st ->
      follow_effect a b st
        (mkStores (pg_users st) (pg_follows st ++ [(a, b)])
                  (neo4j_users st) ({[ (a, b) ]} ∪ neo4j_follows st)) true.

(** ** Concrete inputs used by the examples *)

(** Every call returns after a tenth of a second. *)
Definition steady : world := fun _ _ _ => Returns (1 # 10).

(** As [steady], but the first Neo4j call of an operation takes [t]
    seconds. *)
Definition slow_graph (t : Q) : world :=
  fun be _ i =>
    match be, i with
    | Neo4j, O => Returns t
    | _, _ => Returns (1 # 10)
    end.

(** Users 1 and 2 exist in both stores; nobody follows anybody. *)
Definition two_users : stores :=
  mkStores {[ 1; 2 ]} [] {[ 1; 2 ]} ∅.

Definition graph_down : faults := mkFaults false false true.

Definition three_users : DataGenerator :=
  mkGen [1; 2; 3]
    0 (mkStores {[ 1; 2; 3 ]} [] {[ 1; 2; 3 ]} ∅)
    [3; 1; 4; 1; 5; 9; 2; 6; 5; 3; 5]%nat.


(** A product given away for free, with one buyer counted. *)
Definition free_product : Comparative.product :=
  Comparative.mkProduct 7 "sample" "Books" 0.

End Spec.

(** * Further vocabulary for the benchmark runner *)

Module Conduct.

Import Benchmark Spec.

(** A method that keeps the property [P] of the object, whether it returns
    or raises. *)
Definition preserves {A} (P : DatabaseBenchmark -> Prop) (c : M A) : Prop :=
  forall b, P b ->
    wpe c (fun _ b' => P b') (fun _ b' => P b') b.

(** Neither step counter is negative, nor was one in any progress call. *)
Definition steps_nonneg (b : DatabaseBenchmark) : Prop :=
  (0 <= current_step b)%Z /\ (0 <= total_steps b)%Z /\
  Forall (fun c => (0 <= pc_current c)%Z /\ (0 <= pc_total c)%Z) (calls b).

(** The four statistics of an entry are in order. *)
Definition ordered (s : stats) : Prop :=
  (minimum s <= avg s)%Q /\ (avg s <= maximum s)%Q /\
  (minimum s <= median s)%Q /\ (median s <= maximum s)%Q.

(** Every entry of both maps of results is in order. *)
Definition ordered_results (b : DatabaseBenchmark) : Prop :=
  map_Forall (fun _ s => ordered s) (results_postgresql b) /\
  map_Forall (fun _ s => ordered s) (results_neo4j b).

(** The four baseline operations of the types "all" and "basic". *)
Definition baseline_operations : list string :=
  ["user_retrieval"; "product_retrieval"; "user_follows";
   "product_purchases"].






(** Some call of a baseline operation raises during the iterations of a
    run. *)
Definition baseline_call_fails (w : world) (iterations : Z) : Prop :=
  exists be op i,
    In op baseline_operations /\ (i < Z.to_nat iterations)%nat /\
    w be op i = Fails.

(** The first PostgreSQL call of user retrieval raises. *)
Definition first_call_down : world :=
  fun be op i =>
    match be, i with
    | PostgreSQL, O => if String.eqb op "user_retrieval" then Fails
                       else Returns (1 # 10)
    | _, _ => Returns (1 # 10)
    end.

End Conduct.

(** * More of [app/api/endpoints/benchmark.py]: results and listings *)

Module Endpoints.

Import Benchmark Registry.

(** [get_benchmark_results] *)
Definition get_benchmark_results
    (benchmark_results : gmap string (gmap string value))
    (task_id : string)
  : result (gmap string value) :=
  match benchmark_results !! task_id with
  | Some task =>
      rbind (getitem task "status") (fun status =>
      if is_str status "completed" then Ok task
      else
        Ok (<["task_id" := VStr task_id]>
            (<["status" := status]>
            (<["message" := VStr "Benchmark is still running or failed"]>
               ∅))))
  | None =>
      Ok (<["task_id" := VStr task_id]>
          (<["status" := VStr "not_found"]>
          (<["message" := VStr "Benchmark task not found"]> ∅)))
  end.

(** One entry of the answer of [list_benchmarks]. *)
Record listing : Type := mkListing {
  l_id : string;
  l_status : value;
  l_message : value;
  l_has_results : bool;
  l_progress : value
}.

(** [d.get(k) == s] *)
Definition get_is_str (d : gmap string value) (k s : string) : bool :=
  match d !! k with
  | Some v => is_str v s
  | None => false
  end.

(** The body of the loop of [list_benchmarks]. *)
Definition list_entry (benchmark_id : string) (task : gmap string value)
  : listing :=
  let has_results :=
    if get_is_str task "status" "completed"
    then bool_decide (is_Some (task !! "results"))
    else false in
  mkListing benchmark_id
    (default (VStr "unknown") (task !! "status"))
    (default (VStr "") (task !! "message"))
    has_results
    (default (VInt 0) (task !! "progress")).

(** [list_benchmarks]; the entries come in the order of the map. *)
Definition list_benchmarks
    (benchmark_results : gmap string (gmap string value))
  : list listing :=
  List.map (fun entry => list_entry (fst entry) (snd entry))
    (map_to_list benchmark_results).

End Endpoints.

(** * [app/main.py] and the routers: which endpoint answers a request

    The routes are those the decorators and [include_router] declare, in
    the order of declaration.  A request is answered by the first route
    whose path and method match; when only paths match, the answer is 405,
    and 404 when nothing matches.  A path is the list of its segments: the
    path "/users/" is [["users"; ""]].  The redirection of a trailing slash
    is left out. *)

Module Routing.

Inductive method : Type :=
  GET | HEAD | POST | PUT | PATCH | DELETE | OPTIONS.

(** A segment of a route: a literal, or a path parameter, which matches
    any non-empty segment. *)
Inductive segment : Type :=
  | Lit (s : string)
  | Param (name : string).

(** The functions behind the routes, by module. *)
Inductive endpoint : Type :=
  | openapi | swagger_ui | swagger_ui_redirect | redoc
  | users_create_user | users_get_user | users_follow_user
  | users_get_followers
  | products_create_product | products_get_products | products_get_product
  | products_get_product_virality
  | purchases_create_purchase | purchases_get_user_purchases
  | social_get_user_influence | social_get_viral_products
  | benchmark_get_random_ids | benchmark_get_generation_metrics
  | benchmark_get_latest_generation_metrics | benchmark_generate_data
  | benchmark_get_task_status | benchmark_run_benchmark
  | benchmark_get_benchmark_results | benchmark_compare_benchmarks
  | benchmark_list_benchmarks | benchmark_get_benchmark_tasks
  | static_files
  | root.

#[global] Instance endpoint_eq_dec : EqDecision endpoint.
Proof. solve_decision. Defined.

(** A route with the methods it answers, or a mounted application, which
    takes every path below its prefix whatever the method. *)
Inductive route : Type :=
  | Route (methods : list method) (path : list segment) (e : endpoint)
  | Mount (prefix : list string) (e : endpoint).

(** [@router.get(path)] and [@router.post(path)]: a route of the API
    answers the one method of its decorator. *)
Definition get (path : list segment) (e : endpoint) : route :=
  Route [GET] path e.
Definition post (path : list segment) (e : endpoint) : route :=
  Route [POST] path e.

(** A route the framework adds for the documentation: a plain route for
    GET, which also answers HEAD. *)
Definition add_route (path : list segment) (e : endpoint) : route :=
  Route [GET; HEAD] path e.

(** [include_router(router, prefix=...)] *)
Definition include_router (prefix : list string) (router : list route)
  : list route :=
  List.map (fun r =>
              match r with
              | Route ms path e => Route ms (List.map Lit prefix ++ path) e
              | Mount p e => Mount (prefix ++ p) e
              end) router.

(** [app/api/endpoints/users.py] *)
Definition users_router : list route :=
  [ post [Lit ""] users_create_user;
    get [Param "user_id"] users_get_user;
    post [Param "user_id"; Lit "follow"] users_follow_user;
    get [Param "user_id"; Lit "followers"] users_get_followers ].

(** [app/api/endpoints/products.py] *)
Definition products_router : list route :=
  [ post [Lit ""] products_create_product;
    get [Lit ""] products_get_products;
    get [Param "product_id"] products_get_product;
    get [Param "product_id"; Lit "viral"] products_get_product_virality ].

(** [app/api/endpoints/purchases.py] *)
Definition purchases_router : list route :=
  [ post [Lit "users"; Param "user_id"; Lit "purchases"]
      purchases_create_purchase;
    get [Lit "users"; Param "user_id"; Lit "purchases"]
      purchases_get_user_purchases ].

(** [app/api/endpoints/social.py] *)
Definition social_router : list route :=
  [ get [Lit "users"; Param "user_id"; Lit "influence"]
      social_get_user_influence;
    get [Lit "products"; Lit "viral"] social_get_viral_products ].

(** [app/api/endpoints/benchmark.py] *)
Definition benchmark_router : list route :=
  [ get [Lit "random-ids"] benchmark_get_random_ids;
    get [Lit "metrics"; Lit "generation"; Param "task_id"]
      benchmark_get_generation_metrics;
    get [Lit "metrics"; Lit "generation"; Lit "latest"]
      benchmark_get_latest_generation_metrics;
    post [Lit "generate"] benchmark_generate_data;
    get [Lit "status"; Param "task_id"] benchmark_get_task_status;
    post [Lit "run"] benchmark_run_benchmark;
    get [Lit "results"; Param "task_id"] benchmark_get_benchmark_results;
    get [Lit "compare"] benchmark_compare_benchmarks;
    get [Lit "list"] benchmark_list_benchmarks;
    get [Lit "tasks"] benchmark_get_benchmark_tasks ].

(** [app/main.py]: the routes of the documentation, which the framework
    adds when the application is created, then the routers, the static
    files and the root. *)
Definition app : list route :=
  [ add_route [Lit "openapi.json"] openapi;
    add_route [Lit "docs"] swagger_ui;
    add_route [Lit "docs"; Lit "oauth2-redirect"] swagger_ui_redirect;
    add_route [Lit "redoc"] redoc ]
  ++ include_router ["users"] users_router
  ++ include_router ["products"] products_router
  ++ include_router [] purchases_router
  ++ include_router [] social_router
  ++ include_router ["benchmark"] benchmark_router
  ++ [ Mount ["static"] static_files;
       get [Lit ""] root ].

(** The path parameters when the path matches the pattern. *)
Fixpoint match_path (pattern : list segment) (path : list string)
  : option (list (string * string)) :=
  match pattern, path with
  | [], [] => Some []
  | Lit s :: pattern', x :: path' =>
      if String.eqb s x then match_path pattern' path' else None
  | Param name :: pattern', x :: path' =>
      if String.eqb x "" then None
      else option_map (cons (name, x)) (match_path pattern' path')
  | _, _ => None
  end.

Definition method_eqb (a b : method) : bool :=
  match a, b with
  | GET, GET | HEAD, HEAD | POST, POST | PUT, PUT | PATCH, PATCH
  | DELETE, DELETE | OPTIONS, OPTIONS => true
  | _, _ => false
  end.

Definition allows (methods : list method) (m : method) : bool :=
  existsb (method_eqb m) methods.

Fixpoint is_prefix (prefix path : list string) : bool :=
  match prefix, path with
  | [], _ :: _ => true
  | p :: prefix', x :: path' => String.eqb p x && is_prefix prefix' path'
  | _, _ => false
  end.

Inductive matched : Type :=
  | Full (e : endpoint) (params : list (string * string))
  | Partial
  | NoMatch.

Definition matches (r : route) (m : method) (path : list string) : matched :=
  match r with
  | Route methods pattern e =>
      match match_path pattern path with
      | Some params => if allows methods m then Full e params else Partial
      | None => NoMatch
      end
  | Mount prefix e => if is_prefix prefix path then Full e [] else NoMatch
  end.

Inductive answer : Type :=
  | Handled (e : endpoint) (params : list (string * string))
  | MethodNotAllowed
  | NotFound.

(** The first full match wins; failing that, a partial match gives 405. *)
Fixpoint dispatch_from (routes : list route) (partial : bool) (m : method)
    (path : list string) : answer :=
  match routes with
  | [] => if partial then MethodNotAllowed else NotFound
  | r :: rest =>
      match matches r m path with
      | Full e params => Handled e params
      | Partial => dispatch_from rest true m path
      | NoMatch => dispatch_from rest partial m path
      end
  end.

Definition dispatch (routes : list route) (m : method) (path : list string)
  : answer :=
  dispatch_from routes false m path.

(** The endpoints of the repository's own modules. *)
Definition declared_endpoints : list endpoint :=
  [ users_create_user; users_get_user; users_follow_user;
    users_get_followers;
    products_create_product; products_get_products; products_get_product;
    products_get_product_virality;
    purchases_create_purchase; purchases_get_user_purchases;
    social_get_user_influence; social_get_viral_products;
    benchmark_get_random_ids; benchmark_get_generation_metrics;
    benchmark_get_latest_generation_metrics; benchmark_generate_data;
    benchmark_get_task_status; benchmark_run_benchmark;
    benchmark_get_benchmark_results; benchmark_compare_benchmarks;
    benchmark_list_benchmarks; benchmark_get_benchmark_tasks;
    root ].

Definition route_endpoint (r : route) : endpoint :=
  match r with
  | Route _ _ e => e
  | Mount _ e => e
  end.

(** The routes declared for an endpoint. *)
Definition routes_of (routes : list route) (e : endpoint) : list route :=
  List.filter (fun r => bool_decide (route_endpoint r = e)) routes.

(** A request for each endpoint of the repository: the method of its
    decorator and a path of the declared shape. *)
Definition request_for (e : endpoint) : method * list string :=
  match e with
  | openapi => (GET, ["openapi.json"])
  | swagger_ui => (GET, ["docs"])
  | swagger_ui_redirect => (GET, ["docs"; "oauth2-redirect"])
  | redoc => (GET, ["redoc"])
  | users_create_user => (POST, ["users"; ""])
  | users_get_user => (GET, ["users"; "1"])
  | users_follow_user => (POST, ["users"; "1"; "follow"])
  | users_get_followers => (GET, ["users"; "1"; "followers"])
  | products_create_product => (POST, ["products"; ""])
  | products_get_products => (GET, ["products"; ""])
  | products_get_product => (GET, ["products"; "1"])
  | products_get_product_virality => (GET, ["products"; "1"; "viral"])
  | purchases_create_purchase => (POST, ["users"; "1"; "purchases"])
  | purchases_get_user_purchases => (GET, ["users"; "1"; "purchases"])
  | social_get_user_influence => (GET, ["users"; "1"; "influence"])
  | social_get_viral_products => (GET, ["products"; "viral"])
  | benchmark_get_random_ids => (GET, ["benchmark"; "random-ids"])
  | benchmark_get_generation_metrics =>
      (GET, ["benchmark"; "metrics"; "generation"; "generate_1"])
  | benchmark_get_latest_generation_metrics =>
      (GET, ["benchmark"; "metrics"; "generation"; "latest"])
  | benchmark_generate_data => (POST, ["benchmark"; "generate"])
  | benchmark_get_task_status => (GET, ["benchmark"; "status"; "benchmark_1"])
  | benchmark_run_benchmark => (POST, ["benchmark"; "run"])
  | benchmark_get_benchmark_results =>
      (GET, ["benchmark"; "results"; "benchmark_1"])
  | benchmark_compare_benchmarks => (GET, ["benchmark"; "compare"])
  | benchmark_list_benchmarks => (GET, ["benchmark"; "list"])
  | benchmark_get_benchmark_tasks => (GET, ["benchmark"; "tasks"])
  | static_files => (GET, ["static"; "index.html"])
  | root => (GET, [""])
  end.

(** The answer to the request made for an endpoint. *)
Definition answer_for (routes : list route) (e : endpoint) : answer :=
  dispatch routes (fst (request_for e)) (snd (request_for e)).

(** Some request is answered by the endpoint. *)
Definition reachable (routes : list route) (e : endpoint) : Prop :=
  exists m path params, dispatch routes m path = Handled e params.

(** [task_id = f"generate_{int(time.time())}"], as [generate_data] makes
    the identifier of a generation task; [seconds] is the number
    printed. *)
Definition generation_task_id (seconds : string) : string :=
  "generate_" +:+ seconds.

End Routing.

(** * [app/api/endpoints/users.py]: the follow endpoint *)

Module UsersApi.

Import Generator.

(** [follow_user] of the users router: the body [follow_data] carries
    [target_user_id].  The answer is the success message, or an HTTP
    error. *)
Definition follow_user (f : faults) (user_id target_user_id : Z)
    (st : stores) : stores * result unit :=
  if (user_id =? target_user_id)%Z then (st, Raise (HTTPException 400))
  else
    let '(st', success) :=
      Generator.follow_user f user_id target_user_id st in
    if success then (st', Ok tt) else (st', Raise (HTTPException 404)).

End UsersApi.

(** Vocabulary for the follow relation in the two stores. *)

Module Pairs.

Import Generator.

(** Both users exist in both stores. *)
Definition both_known (a b : Z) (st : stores) : Prop :=
  a ∈ pg_users st /\ b ∈ pg_users st /\
  a ∈ neo4j_users st /\ b ∈ neo4j_users st.

(** The number of rows of the relational table for one pair. *)
Definition rows (a b : Z) (st : stores) : nat :=
  length (List.filter (fun e => bool_decide (e = (a, b))) (pg_follows st)).

(** Every user of the list is a row of [users] and a [User] node. *)
Definition users_known (ids : list Z) (st : stores) : Prop :=
  forall u, In u ids -> u ∈ pg_users st /\ u ∈ neo4j_users st.

(** No driver call raises. *)
Definition healthy : Z -> Z -> faults := fun _ _ => no_faults.

(** The second store has the users of the first and all its edges. *)
Definition grown (st st' : stores) : Prop :=
  pg_users st' = pg_users st /\ neo4j_users st' = neo4j_users st /\
  (forall e, e ∈ pg_follows st -> e ∈ pg_follows st') /\
  (forall e, e ∈ neo4j_follows st -> e ∈ neo4j_follows st').

(** A pair of two different users of the list. *)
Definition proper (ids : list Z) (e : Z * Z) : Prop :=
  e.1 <> e.2 /\ In e.1 ids /\ In e.2 ids.

End Pairs.

(** * Purchases: [app/services/purchase_service.py],
      [app/api/endpoints/purchases.py] and
      [DataGenerator.generate_purchases] *)

Module Purchases.

(** A row of [purchases]; [created_at] is filled by the server and read
    by nothing here. *)
Record Purchase : Type := mkPurchase {
  id : Z;
  user_id : Z;
  product_id : Z
}.

(** The content of the two stores that a purchase reads and writes.  The
    graph holds one [BOUGHT] relationship per [CREATE], with the
    [purchase_id] it was given. *)
Record stores : Type := mkStores {
  pg_users : gset Z;
  pg_products : gset Z;
  pg_purchases : list Purchase;
  neo4j_users : gset Z;
  neo4j_products : gset Z;
  neo4j_bought : list (Z * Z * Z)
}.

(** What the backends do during one [create_purchase] call. *)
Record conditions : Type := mkConditions {
  select_fails : bool;       (* a SELECT raises *)
  commit_fails : bool;       (* [db.commit()] raises *)
  refresh_fails : bool;      (* [db.refresh(db_purchase)] raises *)
  graph_fails : bool;        (* the graph session or [session.run] raises *)
  assigned_id : Z            (* the [id] the database gives the new row *)
}.

Definition healthy (new_id : Z) : conditions :=
  mkConditions false false false false new_id.

Definition with_purchase (row : Purchase) (st : stores) : stores :=
  mkStores (pg_users st) (pg_products st) (pg_purchases st ++ [row])
    (neo4j_users st) (neo4j_products st) (neo4j_bought st).

(** [MATCH (u:User {id}), (p:Product {id}) CREATE (u)-[:BOUGHT {...}]->(p)]:
    nothing is created when either node is missing. *)
Definition match_create_bought (row : Purchase) (st : stores) : stores :=
  if bool_decide (user_id row ∈ neo4j_users st)
     && bool_decide (product_id row ∈ neo4j_products st)
  then mkStores (pg_users st) (pg_products st) (pg_purchases st)
         (neo4j_users st) (neo4j_products st)
         (neo4j_bought st ++ [(user_id row, product_id row, id row)])
  else st.

(** [purchase_service.create_purchase]; [Ok None] is [return None]. *)
Definition create_purchase (c : conditions) (user_id product_id : Z)
    (st : stores) : stores * result (option Purchase) :=
  if select_fails c then (st, Raise BackendError)
  else if negb (bool_decide (user_id ∈ pg_users st))
          || negb (bool_decide (product_id ∈ pg_products st)) then
    (st, Ok None)
  else if commit_fails c then (st, Raise BackendError)
  else
    let db_purchase := mkPurchase (assigned_id c) user_id product_id in
    let st1 := with_purchase db_purchase st in
    if refresh_fails c then (st1, Raise BackendError)
    else if graph_fails c then (st1, Raise BackendError)
    else (match_create_bought db_purchase st1, Ok (Some db_purchase)).

(** [DataGenerator._create_purchase]: every exception ends in
    [return None]. *)
Definition _create_purchase (c : conditions) (user_id product_id : Z)
    (st : stores) : stores * option Purchase :=
  match create_purchase c user_id product_id st with
  | (st', Ok purchase) => (st', purchase)
  | (st', Raise _) => (st', None)
  end.

(** The endpoint [create_purchase] of the purchases router: 404 for an
    unknown user or product, else the value of the service; an exception
    of the service is not caught. *)
Definition create_purchase_endpoint (c : conditions)
    (user_id product_id : Z) (st : stores)
  : stores * result (option Purchase) :=
  if select_fails c then (st, Raise BackendError)
  else if negb (bool_decide (user_id ∈ pg_users st)) then
    (st, Raise (HTTPException 404))
  else if negb (bool_decide (product_id ∈ pg_products st)) then
    (st, Raise (HTTPException 404))
  else create_purchase c user_id product_id st.

(** *** Calling a function with keyword arguments *)

(** A call binds every keyword to a parameter of that name, or raises
    [TypeError]. *)
Definition call_with_keywords {A} (parameters keywords : list string)
    (body : result A) : result A :=
  if forallb (fun k => existsb (String.eqb k) parameters) keywords
  then body else Raise TypeError.

(** [purchase_service.get_user_purchases(db, user_id)] *)
Definition get_user_purchases_parameters : list string := ["db"; "user_id"].

Definition get_user_purchases (user : Z) (st : stores) : list Purchase :=
  List.filter (fun row => (user_id row =? user)%Z) (pg_purchases st).

(** The endpoint [get_user_purchases]: it calls the service with the
    keywords [user_id], [skip] and [limit]. *)
Definition get_user_purchases_endpoint (c : conditions) (user : Z)
    (skip limit : Z) (st : stores) : result (list Purchase) :=
  if select_fails c then Raise BackendError
  else if negb (bool_decide (user ∈ pg_users st)) then
    Raise (HTTPException 404)
  else
    call_with_keywords get_user_purchases_parameters
      ["user_id"; "skip"; "limit"]
      (Ok (get_user_purchases user st)).

(** *** [generate_purchases] *)

Import Generator (rng, randint, sample, slices).

Record DataGenerator : Type := mkGen {
  user_ids : list Z;
  product_ids : list Z;
  purchase_count : Z;
  db : stores;
  random : rng
}.

(** The pairs one user adds to [batch_purchases]. *)
Definition purchases_of_user (product_sample : list Z)
    (max_purchases_per_user : Z) (user : Z) (r : rng)
  : result (list (Z * Z)) * rng :=
  match randint 0 max_purchases_per_user r with
  | (Raise e, r1) => (Raise e, r1)
  | (Ok num_purchases, r1) =>
      if (num_purchases =? 0)%Z then (Ok [], r1)
      else if (0 <? length product_sample)%nat then
        let '(purchases, r2) :=
          sample product_sample
            (Nat.min (Z.to_nat num_purchases) (length product_sample)) r1 in
        (Ok (List.map (fun product => (user, product)) purchases), r2)
      else (Ok [], r1)
  end.

Fixpoint batch_purchases_of (product_sample : list Z)
    (max_purchases_per_user : Z) (batch_users : list Z) (r : rng)
  : result (list (Z * Z)) * rng :=
  match batch_users with
  | [] => (Ok [], r)
  | user :: rest =>
      match purchases_of_user product_sample max_purchases_per_user user r
      with
      | (Raise e, r1) => (Raise e, r1)
      | (Ok mine, r1) =>
          match batch_purchases_of product_sample max_purchases_per_user
                  rest r1 with
          | (Raise e, r2) => (Raise e, r2)
          | (Ok others, r2) => (Ok (mine ++ others), r2)
          end
      end
  end.

(** [results = await asyncio.gather] over the tasks, the calls taken in
    order. *)
Fixpoint gather (conditions_of : Z -> Z -> conditions)
    (sub_batch : list (Z * Z)) (st : stores)
  : stores * list (option Purchase) :=
  match sub_batch with
  | [] => (st, [])
  | (user, product) :: rest =>
      let '(st1, r) :=
        _create_purchase (conditions_of user product) user product st in
      let '(st2, rs) := gather conditions_of rest st1 in
      (st2, r :: rs)
  end.

(** [sum(1 for r in results if r is not None and not isinstance(r, Exception))] *)
Definition success_count (results : list (option Purchase)) : Z :=
  Z.of_nat (length (List.filter (fun r => bool_decide (is_Some r)) results)).

Fixpoint run_sub_batches (conditions_of : Z -> Z -> conditions)
    (sub_batches : list (list (Z * Z))) (st : stores) (total : Z)
  : stores * Z :=
  match sub_batches with
  | [] => (st, total)
  | sub_batch :: rest =>
      let '(st1, results) := gather conditions_of sub_batch st in
      run_sub_batches conditions_of rest st1
        (total + success_count results)
  end.

(** The batches of users in turn.  The value returned carries the count
    so far, also when [random.randint] raises. *)
Fixpoint run_batches (conditions_of : Z -> Z -> conditions)
    (product_sample : list Z) (max_purchases_per_user : Z)
    (batches : list (list Z)) (st : stores) (r : rng) (total : Z)
  : stores * rng * Z * option exn :=
  match batches with
  | [] => (st, r, total, None)
  | batch_users :: rest =>
      match batch_purchases_of product_sample max_purchases_per_user
              batch_users r with
      | (Raise e, r1) => (st, r1, total, Some e)
      | (Ok batch_purchases, r1) =>
          let '(st1, total1) :=
            run_sub_batches conditions_of (slices 100 batch_purchases)
              st total in
          run_batches conditions_of product_sample max_purchases_per_user
            rest st1 r1 total1
      end
  end.

(** [user_sample] and [product_sample] *)
Definition sample_above (limit : Z) (ids : list Z) (r : rng)
  : list Z * rng :=
  if (limit <? Z.of_nat (length ids))%Z then sample ids (Z.to_nat limit) r
  else (ids, r).

(** [generate_purchases]: [self.purchase_count] is reset, then follows the
    total; the value returned is the total. *)
Definition generate_purchases (conditions_of : Z -> Z -> conditions)
    (max_purchases_per_user : Z) (g : DataGenerator)
  : DataGenerator * result Z :=
  let '(user_sample, r1) := sample_above 100000 (user_ids g) (random g) in
  let '(product_sample, r2) := sample_above 10000 (product_ids g) r1 in
  let '(st, r, total, raised) :=
    run_batches conditions_of product_sample max_purchases_per_user
      (slices 1000 user_sample) (db g) r2 0%Z in
  (mkGen (user_ids g) (product_ids g) total st r,
   match raised with
   | None => Ok total
   | Some e => Raise e
   end).

(** *** Vocabulary *)

(** The purchase is a row, and an edge carrying the row's [id]. *)
Definition in_both (row : Purchase) (st : stores) : Prop :=
  row ∈ pg_purchases st /\
  (user_id row, product_id row, id row) ∈ neo4j_bought st.

(** The measure of a run: [count] is at least the number of new edges
    and at most the number of new rows. *)
Definition between (st st' : stores) (count : Z) : Prop :=
  (Z.of_nat (length (neo4j_bought st')) - Z.of_nat (length (neo4j_bought st))
   <= count
   <= Z.of_nat (length (pg_purchases st'))
      - Z.of_nat (length (pg_purchases st)))%Z.

(** Users 1 and 2 and product 7 exist in both stores; product 8 only in
    the relational one.  Nothing was bought. *)
Definition small_shop : stores :=
  mkStores {[ 1; 2 ]} {[ 7; 8 ]} [] {[ 1; 2 ]} {[ 7 ]} [].

Definition shoppers : DataGenerator :=
  mkGen [1; 2] [7; 8] 0 small_shop [3; 1; 4; 1; 5; 9; 2; 6]%nat.

End Purchases.

(** * [app/utils/performance_tester.py]: class [PerformanceTester] *)

Module Tester.

Import Benchmark.

Local Open Scope Q_scope.

(** The timings of one backend in a test result.  The key "result", the
    value of the last call, is left out: the calls are given by the time
    they take. *)
Record timing : Type := mkTiming {
  avg_time : Q;
  median_time : Q;
  min_time : Q;
  max_time : Q;
  times : list Q
}.

Record test_result : Type := mkTest {
  name : string;
  iterations : Z;
  postgresql : timing;
  neo4j : timing;
  faster : backend;
  speedup : Q
}.

(** The loop of [run_comparative_test]: in each iteration the PostgreSQL
    call, then the Neo4j call; an exception of either ends the test. *)
Fixpoint measure (postgres_func neo4j_func : nat -> response)
    (indices : list nat) (postgres_times neo4j_times : list Q)
  : result (list Q * list Q) :=
  match indices with
  | [] => Ok (postgres_times, neo4j_times)
  | i :: rest =>
      match postgres_func i with
      | Fails => Raise BackendError
      | Returns postgres_time =>
          match neo4j_func i with
          | Fails => Raise BackendError
          | Returns neo4j_time =>
              measure postgres_func neo4j_func rest
                (postgres_times ++ [postgres_time])
                (neo4j_times ++ [neo4j_time])
          end
      end
  end.

(** "Determine which is faster" *)
Definition verdict (postgres_avg neo4j_avg : Q) : result (backend * Q) :=
  if Py.ltb postgres_avg neo4j_avg then
    rbind (Py.truediv neo4j_avg postgres_avg) (fun speedup =>
    Ok (PostgreSQL, speedup))
  else
    rbind (Py.truediv postgres_avg neo4j_avg) (fun speedup =>
    Ok (Neo4j, speedup)).

(** [run_comparative_test]; the state is [self.results]. *)
Definition run_comparative_test (name : string)
    (postgres_func neo4j_func : nat -> response) (iterations : Z)
    (results : gmap string test_result)
  : gmap string test_result * result test_result :=
  match
    rbind (measure postgres_func neo4j_func (Py.range iterations) [] [])
      (fun '(postgres_times, neo4j_times) =>
    rbind (Statistics.mean postgres_times) (fun postgres_avg =>
    rbind (Statistics.mean neo4j_times) (fun neo4j_avg =>
    rbind (Statistics.median postgres_times) (fun postgres_median =>
    rbind (Statistics.median neo4j_times) (fun neo4j_median =>
    rbind (Statistics.min postgres_times) (fun postgres_min =>
    rbind (Statistics.min neo4j_times) (fun neo4j_min =>
    rbind (Statistics.max postgres_times) (fun postgres_max =>
    rbind (Statistics.max neo4j_times) (fun neo4j_max =>
    rbind (verdict postgres_avg neo4j_avg) (fun '(faster, speedup) =>
    Ok (mkTest name iterations
          (mkTiming postgres_avg postgres_median postgres_min postgres_max
             postgres_times)
          (mkTiming neo4j_avg neo4j_median neo4j_min neo4j_max neo4j_times)
          faster speedup)))))))))))
  with
  | Ok test_result => (<[name := test_result]> results, Ok test_result)
  | Raise e => (results, Raise e)
  end.

(** Every call returns, after a positive time. *)
Definition responsive (f : nat -> response) : Prop :=
  forall i, exists t, f i = Returns t /\ 0 < t.

(** The average of the backend named as the faster one, and of the other. *)
Definition faster_avg (t : test_result) : Q :=
  match faster t with
  | PostgreSQL => avg_time (postgresql t)
  | Neo4j => avg_time (neo4j t)
  end.

Definition slower_avg (t : test_result) : Q :=
  match faster t with
  | PostgreSQL => avg_time (neo4j t)
  | Neo4j => avg_time (postgresql t)
  end.

End Tester.

(** * Data generation: [generate_users], [generate_products] and the
      background task [_generate_data_task] *)

Module Generation.

Import Registry.

Local Open Scope Q_scope.

(** ** [_create_users_batch] and [_create_products_batch]

    The two methods are the same code, with [product] for [user].  The
    rows to create are given by their number: their names and prices are
    random text that nothing reads back. *)

(** What one individual creation of the fallback loop does: it returns
    the new identifier, or raises an exception whose text has the word
    "duplicate", or raises another exception. *)
Inductive attempt : Type :=
  | Created (id : Z)
  | RaisesDuplicate
  | RaisesOther.

(** What the services do for one batch.  [batch_call] is the value of
    [create_users_batch], as the identifiers of the rows it returns, or
    [None] when it raises; [attempt_of] is then what the individual
    creations do.  [elapsed] is the wall time read around the batch call,
    or around the fallback loop. *)
Record batch_run : Type := mkBatchRun {
  batch_call : option (list Z);
  attempt_of : nat -> attempt;
  elapsed : Q
}.

(** [self.metrics["errors"]] *)
Record errors : Type := mkErrors {
  postgresql_errors : Z;
  neo4j_errors : Z
}.

Definition no_errors : errors := mkErrors 0 0.

Fixpoint fallback (attempt_of : nat -> attempt) (indices : list nat)
    (created : list Z) (e : errors) : list Z * errors :=
  match indices with
  | [] => (created, e)
  | j :: rest =>
      match attempt_of j with
      | Created id => fallback attempt_of rest (created ++ [id]) e
      | RaisesDuplicate =>
          fallback attempt_of rest created
            (mkErrors (postgresql_errors e + 1) (neo4j_errors e))
      | RaisesOther =>
          fallback attempt_of rest created
            (mkErrors (postgresql_errors e + 1) (neo4j_errors e + 1))
      end
  end.

(** The value is [(created, pg_time, neo4j_time)], with the error
    counters. *)
Definition _create_batch (size : nat) (run : batch_run) (e : errors)
  : list Z * Q * Q * errors :=
  match batch_call run with
  | Some created =>
      (created, elapsed run * (6 # 10), elapsed run * (4 # 10), e)
  | None =>
      let '(created, e') :=
        fallback (attempt_of run) (seq 0 size) []
          (mkErrors (postgresql_errors e + 1) (neo4j_errors e + 1)) in
      (created, elapsed run * (6 # 10), elapsed run * (4 # 10), e')
  end.

Definition _create_users_batch := _create_batch.
Definition _create_products_batch := _create_batch.

(** ** [generate_users] and [generate_products] *)

(** One entry of [self.metrics[backend][operation]]. *)
Record op_metrics : Type := mkOp {
  count : Z;
  total_time : Q;
  avg_time : Q;
  rate : Q
}.

(** The accumulators of the loop: [self.user_ids], [self.user_count],
    [pg_total_time], [neo4j_total_time] and the error counters. *)
Record progress : Type := mkProgress {
  ids : list Z;
  created_count : Z;
  pg_total_time : Q;
  neo4j_total_time : Q;
  errs : errors
}.

Definition after_batch (size : nat) (run : batch_run) (p : progress)
  : progress :=
  let '(created, pg_time, neo4j_time, e) := _create_batch size run (errs p) in
  mkProgress (ids p ++ created)
    (created_count p + Z.of_nat (length created))
    (pg_total_time p + pg_time) (neo4j_total_time p + neo4j_time) e.

(** [for i in range(batches)]: batch [i] of the run has 1000 rows. *)
Fixpoint full_batches (service : nat -> batch_run) (indices : list nat)
    (p : progress) : progress :=
  match indices with
  | [] => p
  | i :: rest => full_batches service rest (after_batch 1000 (service i) p)
  end.

(** ["avg_time"] and ["rate"] of the metrics *)
Definition metrics_of (n : Z) (total : Q) : op_metrics :=
  mkOp n total
    (if (0 <? n)%Z then total / inject_Z n else 0)
    (if Py.ltb 0 total then inject_Z n / total else 0).

(** The state a generation leaves: the identifiers, the count, the two
    metrics entries and the error counters. *)
Record generated : Type := mkGenerated {
  g_ids : list Z;
  g_count : Z;
  g_postgresql : op_metrics;
  g_neo4j : op_metrics;
  g_errors : errors
}.

(** [generate_users(count)]; [service i] is what the services do for the
    [i]-th batch of the run.  The identifiers and the count are cleared
    first; the error counters are not. *)
Definition generate (service : nat -> batch_run) (count : Z) (e : errors)
  : generated :=
  let batches := (count / 1000)%Z in
  let remainder := (count mod 1000)%Z in
  let p := full_batches service (Py.range batches) (mkProgress [] 0 0 0 e) in
  let p :=
    if (0 <? remainder)%Z then
      after_batch (Z.to_nat remainder) (service (length (Py.range batches))) p
    else p in
  mkGenerated (ids p) (created_count p)
    (metrics_of (created_count p) (pg_total_time p))
    (metrics_of (created_count p) (neo4j_total_time p))
    (errs p).

Definition generate_users := generate.
Definition generate_products := generate.

(** ** The comparison of [_generate_data_task] *)

(** [max(a, b)] *)
Definition max (a b : Q) : Q := if Py.ltb a b then b else a.

(** ["faster"] and ["speedup"] of one operation. *)
Definition faster_and_speedup (pg neo : op_metrics)
  : result (string * Q) :=
  let faster :=
    if Py.ltb (total_time pg) (total_time neo) then "postgresql"
    else "neo4j" in
  rbind (Py.truediv (total_time pg) (total_time neo)) (fun a =>
  rbind (Py.truediv (total_time neo) (total_time pg)) (fun b =>
  Ok (faster, max a b))).

(** The keys of [comparison["comparison"]]: ["faster_db"] and
    ["overall_speedup"] are computed from the users, as the entry of the
    users is. *)
Record comparison : Type := mkComparison {
  faster_db : string;
  overall_speedup : Q;
  users_faster : string;
  users_speedup : Q;
  products_faster : string;
  products_speedup : Q
}.

Definition compare (users products : generated) : result comparison :=
  rbind (faster_and_speedup (g_postgresql users) (g_neo4j users))
    (fun '(faster_db, overall_speedup) =>
  rbind (faster_and_speedup (g_postgresql users) (g_neo4j users))
    (fun '(users_faster, users_speedup) =>
  rbind (faster_and_speedup (g_postgresql products) (g_neo4j products))
    (fun '(products_faster, products_speedup) =>
  Ok (mkComparison faster_db overall_speedup users_faster users_speedup
        products_faster products_speedup)))).

(** ** [_generate_data_task] *)

(** An entry of [generation_metrics].  Of a completed report the counts,
    the comparison and the error counters are kept; the times, the
    message and the copies of the generator's metrics are left out. *)
Inductive report : Type :=
  | Completed (users products follows purchases : Z)
      (c : comparison) (e : errors)
  | Errored.

Definition report_status (r : report) : string :=
  match r with
  | Completed _ _ _ _ _ _ => "completed"
  | Errored => "error"
  end.

(** The document [_generate_data_task] creates first.  A message is
    kept as the text of its f-string. *)
Definition new_generation_task (task_id : string) (start : Q)
  : gmap string value :=
  <["task_id" := VStr task_id]>
  (<["status" := VStr "running"]>
  (<["message" := VStr "Data generation in progress"]>
  (<["start_time" := VTime start]>
  (<["progress" := VInt 0]> ∅)))).

Definition set_message (m : string) (task : gmap string value)
  : gmap string value := <["message" := VStr m]> task.

Definition set_progress (n : Z) (task : gmap string value)
  : gmap string value := <["progress" := VInt n]> task.

(** The [except] branch. *)
Definition on_exception (task : gmap string value) : gmap string value :=
  <["message" := VStr "Error: {str(e)}"]>
  (<["status" := VStr "error"]> task).

(** What the run of a task meets besides the two services: the value of
    [generate_follows] and of [generate_purchases], or the exception
    they raise, and whether writing the metrics file raises. *)
Record surroundings : Type := mkSurroundings {
  follows_call : result Z;
  purchases_call : result Z;
  save_raises : bool
}.

(** [_generate_data_task]: the documents a poll can find while the task
    runs, one for each generator call it awaits, the document it leaves,
    and its entry of [generation_metrics].  [finish] is the reading of
    the clock at the end and [duration] the measured
    [overall_duration]. *)
Definition _generate_data_task (task_id : string) (start finish duration : Q)
    (users products : Z)
    (user_service product_service : nat -> batch_run) (s : surroundings)
  : list (gmap string value) * gmap string value * report :=
  let d0 := new_generation_task task_id start in
  let d1 := set_progress 0 (set_message "Generating {users} users..." d0) in
  let generated_users := generate_users user_service users no_errors in
  let d2 :=
    set_message "Generated {len(generated_users)} users in {users_time:.2f} seconds"
      (set_progress 40 d1) in
  let d3 := set_message "Generating {products} products..." d2 in
  let generated_products :=
    generate_products product_service products (g_errors generated_users) in
  let d4 :=
    set_message "Generated {len(generated_products)} products in {products_time:.2f} seconds"
      (set_progress 60 d3) in
  let d5 := set_message "Generating follow relationships..." d4 in
  match follows_call s with
  | Raise _ => ([d1; d3; d5], on_exception d5, Errored)
  | Ok generated_follows =>
      let d6 :=
        set_message "Generated {generated_follows} follow relationships in {follows_time:.2f} seconds"
          (set_progress 80 d5) in
      let d7 := set_message "Generating purchases..." d6 in
      match purchases_call s with
      | Raise _ => ([d1; d3; d5; d7], on_exception d7, Errored)
      | Ok generated_purchases =>
          let d8 :=
            <["duration" := VFloat duration]>
            (<["has_results" := VBool true]>
            (<["end_time" := VTime finish]>
            (<["status" := VStr "completed"]>
            (set_message "Generated {generated_purchases} purchases in {purchases_time:.2f} seconds"
               (set_progress 100 d7))))) in
          match compare generated_users generated_products with
          | Raise _ => ([d1; d3; d5; d7], on_exception d8, Errored)
          | Ok c =>
              if save_raises s then
                ([d1; d3; d5; d7], on_exception d8, Errored)
              else
                ([d1; d3; d5; d7], d8,
                 Completed (Z.of_nat (length (g_ids generated_users)))
                   (Z.of_nat (length (g_ids generated_products)))
                   generated_follows generated_purchases c
                   (g_errors generated_products))
          end
      end
  end.

(** ** Vocabulary *)

(** The sizes of the batches [generate] asks for, in order. *)
Definition batch_sizes (count : Z) : list nat :=
  List.map (fun _ => 1000%nat) (Py.range (count / 1000))
  ++ (if (0 <? count mod 1000)%Z then [Z.to_nat (count mod 1000)] else []).

(** The service creates every row of every batch it is asked for. *)
Definition obliging (service : nat -> batch_run) (count : Z) : Prop :=
  forall i size, batch_sizes count !! i = Some size ->
    exists created,
      batch_call (service i) = Some created /\ length created = size.

(** Every batch takes some time. *)
Definition takes_time (service : nat -> batch_run) : Prop :=
  forall i, 0 < elapsed (service i).

(** The wall time of the batches of a run. *)
Definition wall_time (service : nat -> batch_run) (count : Z) : Q :=
  Statistics.fsum
    (List.map (fun i => elapsed (service i))
       (seq 0 (length (batch_sizes count)))).

(** What a run of batches keeps whatever the services do: the count is
    the number of identifiers, the two times are six and four tenths of
    the wall times, and the graph's error counter grows by at most what
    the relational one grows by. *)
Definition kept (p0 p : progress) (times : list Q) : Prop :=
  (created_count p - created_count p0
   = Z.of_nat (length (ids p)) - Z.of_nat (length (ids p0)))%Z /\
  pg_total_time p == pg_total_time p0 + Statistics.fsum times * (6 # 10) /\
  neo4j_total_time p
  == neo4j_total_time p0 + Statistics.fsum times * (4 # 10) /\
  (0 <= neo4j_errors (errs p) - neo4j_errors (errs p0)
   <= postgresql_errors (errs p) - postgresql_errors (errs p0))%Z.

(** A service that creates the rows [1000 i + 1 ..] of batch [i] in a
    second. *)
Definition prompt (count : Z) : nat -> batch_run :=
  fun i =>
    mkBatchRun
      (Some (List.map (fun j => Z.of_nat (1000 * i + j + 1))
               (seq 0 (nth i (batch_sizes count) O))))
      (fun _ => RaisesOther) 1.


End Generation.

(** * Theorems *)

Import Benchmark Spec.
Local Close Scope Z_scope.

(** ** Numbers *)

Section Numbers.
Local Open Scope Q_scope.

Lemma ltb_true (a b : Q) : Py.ltb a b = true <-> a < b.
Proof.
  unfold Py.ltb. rewrite negb_true_iff.
  split; intros H.
  - apply Qnot_le_lt. intros Hle. apply Qle_bool_iff in Hle. congruence.
  - destruct (Qle_bool b a) eqn:E; [|reflexivity].
    apply Qle_bool_iff in E. lra.
Qed.

Lemma ltb_false (a b : Q) : Py.ltb a b = false <-> b <= a.
Proof.
  unfold Py.ltb. rewrite negb_false_iff. apply Qle_bool_iff.
Qed.

Lemma truthy_nonzero (q : Q) : ~ q == 0 -> Py.truthy q = true.
Proof.
  intros H. unfold Py.truthy. rewrite negb_true_iff.
  destruct (Qeq_bool q 0) eqn:E; [|reflexivity].
  apply Qeq_bool_iff in E. contradiction.
Qed.

Lemma truediv_nonzero (a b : Q) : ~ b == 0 -> Py.truediv a b = Ok (a / b).
Proof.
  intros H. unfold Py.truediv.
  destruct (Qeq_bool b 0) eqn:E; [|reflexivity].
  apply Qeq_bool_iff in E. contradiction.
Qed.

Lemma ratio_nonzero (a b : Q) : 0 < a -> 0 < b -> ~ a / b == 0.
Proof.
  intros Ha Hb H.
  assert (0 < a / b) by (apply Qlt_shift_div_l; lra).
  lra.
Qed.

Lemma ratio_ge_1 (a b : Q) : 0 < b -> b <= a -> 1 <= a / b.
Proof. intros Hb Hle. apply Qle_shift_div_l; lra. Qed.

Lemma reciprocal_ratio (a b : Q) : 0 < a -> 0 < b -> 1 / (a / b) == b / a.
Proof. intros Ha Hb. field. split; lra. Qed.

(** The comparison of two positive averages, one order. *)
Lemma compare_positive (pg neo : Q) :
  0 < pg -> 0 < neo ->
  exists f,
    Comparator.compare pg neo =
      Ok (Some (Comparator.mkComparison pg neo
                  (if Py.ltb neo pg then Neo4j else PostgreSQL)
                  (Comparator.Fin f))) /\
    1 <= f /\
    (neo < pg -> f == pg / neo) /\
    (pg <= neo -> f == neo / pg).
Proof.
  intros Hpg Hneo. unfold Comparator.compare.
  rewrite !truthy_nonzero by lra. cbn [andb].
  assert (Hpos : Py.ltb 0 neo = true) by (apply ltb_true; lra).
  rewrite Hpos.
  destruct (Py.ltb neo pg) eqn:Hlt.
  - apply ltb_true in Hlt. exists (pg / neo). cbn [rbind].
    split; [reflexivity|]. split; [apply ratio_ge_1; lra|].
    split; [reflexivity | intros; lra].
  - apply ltb_false in Hlt. exists (1 / (pg / neo)).
    unfold Comparator.reciprocal.
    rewrite truediv_nonzero by (apply ratio_nonzero; lra). cbn [rbind].
    split; [reflexivity|]. split; [|split].
    + rewrite reciprocal_ratio by lra. apply ratio_ge_1; lra.
    + intros; lra.
    + intros _. apply reciprocal_ratio; lra.
Qed.

End Numbers.

(** ** The comparison of two averages *)

Section ComparatorFacts.
Import Comparator.
Local Open Scope Q_scope.




End ComparatorFacts.

(** ** Rules for the benchmark methods *)

Section Rules.
Context {A B : Type}.
Implicit Types (Q : A -> DatabaseBenchmark -> Prop)
               (E : exn -> DatabaseBenchmark -> Prop).

Lemma wpe_ret (a : A) Q E b : Q a b -> wpe (ret a) Q E b.
Proof. intros H. exact H. Qed.

Lemma wpe_raise (e : exn) Q E b : E e b -> wpe (@raise A e) Q E b.
Proof. intros H. exact H. Qed.

Lemma wpe_lift_ok (a : A) Q E b : Q a b -> wpe (lift (Ok a)) Q E b.
Proof. intros H. exact H. Qed.

Lemma wpe_lift (r : result A) Q E b :
  match r with Ok a => Q a b | Raise e => E e b end -> wpe (lift r) Q E b.
Proof. intros H. exact H. Qed.

Lemma wpe_bind (c : M A) (k : A -> M B) (Q' : B -> DatabaseBenchmark -> Prop)
    E b :
  wpe c (fun a b1 => wpe (k a) Q' E b1) E b -> wpe (bind c k) Q' E b.
Proof.
  unfold wpe, bind. destruct (c b) as [b1 [a|e]]; intros H; exact H.
Qed.

Lemma wpe_try_except (c : M A) (h : exn -> M A) Q E b :
  wpe c Q (fun e b1 => wpe (h e) Q E b1) b -> wpe (try_except c h) Q E b.
Proof.
  unfold wpe, try_except. destruct (c b) as [b1 [a|e]]; intros H; exact H.
Qed.

Lemma wpe_try_except_timeout (c h : M A) Q E b :
  wpe c Q (fun e b1 => match e with
                       | TimeoutError => wpe h Q E b1
                       | _ => E e b1
                       end) b ->
  wpe (try_except_timeout c h) Q E b.
Proof.
  unfold wpe, try_except_timeout.
  destruct (c b) as [b1 [a|[]]]; intros H; exact H.
Qed.

Lemma wpe_mono (c : M A) Q Q' E E' b :
  wpe c Q E b ->
  (forall a b1, Q a b1 -> Q' a b1) ->
  (forall e b1, E e b1 -> E' e b1) ->
  wpe c Q' E' b.
Proof.
  unfold wpe. destruct (c b) as [b1 [a|e]]; intros H HQ HE; auto.
Qed.

End Rules.

Lemma wpe_modify (f : DatabaseBenchmark -> DatabaseBenchmark) Q E b :
  Q tt (f b) -> wpe (modify f) Q E b.
Proof. intros H. exact H. Qed.

(** A loop keeps an invariant the body keeps. *)
Lemma wpe_for_each {S} (I : S -> DatabaseBenchmark -> Prop) E
    (body : nat -> S -> M S) (ixs : list nat) :
  (forall i acc b, I acc b -> wpe (body i acc) I E b) ->
  forall acc b, I acc b -> wpe (for_each ixs body acc) I E b.
Proof.
  intros Hbody. induction ixs as [|i rest IH]; intros acc b HI; cbn [for_each].
  - apply wpe_ret, HI.
  - apply wpe_bind. eapply wpe_mono; [apply Hbody, HI | | auto].
    intros acc' b1 HI'. apply IH, HI'.
Qed.

(** ** [extends] is a preorder, and the primitives respect it *)

Lemma extends_refl b : extends b b.
Proof.
  repeat split. exists []. split; [by rewrite app_nil_r | constructor].
Qed.

Lemma extends_trans b0 b1 b2 : extends b0 b1 -> extends b1 b2 -> extends b0 b2.
Proof.
  intros (Hc1 & Ht1 & Hs1 & x1 & Hx1 & HF1) (Hc2 & Ht2 & Hs2 & x2 & Hx2 & HF2).
  split; [congruence|]. split; [congruence|]. split; [congruence|].
  exists (x1 ++ x2). split.
  - rewrite Hx2, Hx1. by rewrite app_assoc.
  - apply Forall_app. split; [exact HF1|].
    rewrite Ht1 in HF2. exact HF2.
Qed.

Lemma extends_notify b msg : extends b (fst (notify msg b)).
Proof.
  unfold notify, modify; cbn [fst]. destruct (callback_set b) eqn:Hcb.
  - split; [reflexivity|]. split; [reflexivity|]. split; [by cbn|].
    eexists. split; [reflexivity|]. by repeat constructor.
  - apply extends_refl.
Qed.

Lemma extends_warning b msg : extends b (fst (warning msg b)).
Proof.
  repeat split. exists []. split; [by rewrite app_nil_r | constructor].
Qed.

Lemma extends_store b be op s : extends b (fst (store be op s b)).
Proof.
  repeat split. exists []. split; [by rewrite app_nil_r | constructor].
Qed.

Lemma extends_store_errors b op pg neo :
  extends b (fst (store_errors op pg neo b)).
Proof.
  repeat split. exists []. split; [by rewrite app_nil_r | constructor].
Qed.


(** ** [tracks] *)

Lemma tracks_start b : tracks b (results_postgresql b) (results_neo4j b) b.
Proof. split; [apply extends_refl | done]. Qed.

Lemma tracks_step b0 pg neo b b' :
  tracks b0 pg neo b -> extends b b' ->
  results_postgresql b' = results_postgresql b ->
  results_neo4j b' = results_neo4j b ->
  tracks b0 pg neo b'.
Proof.
  intros (H & Hp & Hn) H' Hp' Hn'.
  split; [eapply extends_trans; eassumption|]. split; congruence.
Qed.

Lemma tracks_notify b0 pg neo b msg :
  tracks b0 pg neo b -> tracks b0 pg neo (fst (notify msg b)).
Proof.
  intros H. eapply tracks_step; [exact H | apply extends_notify | |];
    unfold notify, modify; cbn [fst]; by destruct (callback_set b).
Qed.

Lemma tracks_warning b0 pg neo b msg :
  tracks b0 pg neo b -> tracks b0 pg neo (fst (warning msg b)).
Proof.
  intros H. eapply tracks_step; [exact H | apply extends_warning | done | done].
Qed.

Lemma tracks_store_errors b0 pg neo b op n1 n2 :
  tracks b0 pg neo b -> tracks b0 pg neo (fst (store_errors op n1 n2 b)).
Proof.
  intros H.
  eapply tracks_step; [exact H | apply extends_store_errors | done | done].
Qed.

Lemma tracks_store_pg b0 pg neo b op s :
  tracks b0 pg neo b ->
  tracks b0 (<[op := s]> pg) neo (fst (store PostgreSQL op s b)).
Proof.
  intros (H & Hp & Hn).
  split; [eapply extends_trans; [exact H | apply extends_store]|].
  cbn. split; congruence.
Qed.

Lemma tracks_store_neo4j b0 pg neo b op s :
  tracks b0 pg neo b ->
  tracks b0 pg (<[op := s]> neo) (fst (store Neo4j op s b)).
Proof.
  intros (H & Hp & Hn).
  split; [eapply extends_trans; [exact H | apply extends_store]|].
  cbn. split; congruence.
Qed.

(** ** [quiet] methods *)

Lemma quiet_ret {A} (a : A) : quiet (ret a).
Proof. intros b0 pg neo b H. exact H. Qed.

Lemma quiet_raise {A} (e : exn) : quiet (@raise A e).
Proof. intros b0 pg neo b H. exact H. Qed.

Lemma quiet_lift {A} (r : result A) : quiet (lift r).
Proof. intros b0 pg neo b H. apply wpe_lift. by destruct r. Qed.

Lemma quiet_notify msg : quiet (notify msg).
Proof. intros b0 pg neo b H. apply wpe_modify. by apply tracks_notify. Qed.

Lemma quiet_warning msg : quiet (warning msg).
Proof. intros b0 pg neo b H. apply wpe_modify. by apply tracks_warning. Qed.

Lemma quiet_store_errors op n1 n2 : quiet (store_errors op n1 n2).
Proof.
  intros b0 pg neo b H. apply wpe_modify. by apply tracks_store_errors.
Qed.

Lemma quiet_bind {A B} (c : M A) (k : A -> M B) :
  quiet c -> (forall a, quiet (k a)) -> quiet (bind c k).
Proof.
  intros Hc Hk b0 pg neo b H. apply wpe_bind.
  eapply wpe_mono; [apply Hc, H | | auto].
  intros a b1 H1. by apply Hk.
Qed.

Lemma quiet_try_except {A} (c : M A) (h : exn -> M A) :
  quiet c -> (forall e, quiet (h e)) -> quiet (try_except c h).
Proof.
  intros Hc Hh b0 pg neo b H. apply wpe_try_except.
  eapply wpe_mono; [apply Hc, H | auto |].
  intros e b1 H1. by apply Hh.
Qed.

Lemma quiet_try_except_timeout {A} (c h : M A) :
  quiet c -> quiet h -> quiet (try_except_timeout c h).
Proof.
  intros Hc Hh b0 pg neo b H. apply wpe_try_except_timeout.
  eapply wpe_mono; [apply Hc, H | auto |].
  intros e b1 H1. destruct e; try exact H1. by apply Hh.
Qed.

Lemma quiet_for_each {S} (body : nat -> S -> M S) ixs acc :
  (forall i a, quiet (body i a)) -> quiet (for_each ixs body acc).
Proof.
  intros Hbody. revert acc.
  induction ixs as [|i rest IH]; intros acc; cbn [for_each].
  - apply quiet_ret.
  - apply quiet_bind; [apply Hbody | apply IH].
Qed.

(** ** [safe] methods *)

Lemma safe_ret {A} (a : A) : safe (ret a).
Proof. intros b. exact I. Qed.

Lemma safe_lift_ok {A} (a : A) : safe (lift (Ok a)).
Proof. intros b. exact I. Qed.

Lemma safe_modify f : safe (modify f).
Proof. intros b. exact I. Qed.

Lemma safe_bind {A B} (c : M A) (k : A -> M B) :
  safe c -> (forall a, safe (k a)) -> safe (bind c k).
Proof.
  intros Hc Hk b. apply wpe_bind.
  eapply wpe_mono; [apply Hc | | auto].
  intros a b1 _. apply Hk.
Qed.

Lemma safe_try_except {A} (c : M A) (h : exn -> M A) :
  (forall e, safe (h e)) -> safe (try_except c h).
Proof.
  intros Hh b. apply wpe_try_except.
  unfold wpe at 1. destruct (c b) as [b1 [a|e]]; [exact I | apply Hh].
Qed.

Lemma safe_for_each {S} (body : nat -> S -> M S) ixs acc :
  (forall i a, safe (body i a)) -> safe (for_each ixs body acc).
Proof.
  intros Hbody. revert acc.
  induction ixs as [|i rest IH]; intros acc; cbn [for_each].
  - apply safe_ret.
  - apply safe_bind; [apply Hbody | apply IH].
Qed.

(** A quiet and safe method, used as a step of a larger one. *)
Lemma wpe_quiet_safe {A} (c : M A) b0 pg neo
    (Q : A -> DatabaseBenchmark -> Prop) E b :
  quiet c -> safe c -> tracks b0 pg neo b ->
  (forall a b1, tracks b0 pg neo b1 -> Q a b1) ->
  wpe c Q E b.
Proof.
  intros Hq Hs H HQ. specialize (Hq b0 pg neo b H). specialize (Hs b).
  unfold wpe in *. destruct (c b) as [b1 [a|e]]; [by apply HQ | contradiction].
Qed.

(** As above when the method may raise. *)
Lemma wpe_quiet {A} (c : M A) b0 pg neo
    (Q : A -> DatabaseBenchmark -> Prop) (E : exn -> DatabaseBenchmark -> Prop) b :
  quiet c -> tracks b0 pg neo b ->
  (forall a b1, tracks b0 pg neo b1 -> Q a b1) ->
  (forall e b1, tracks b0 pg neo b1 -> E e b1) ->
  wpe c Q E b.
Proof.
  intros Hq H HQ HE. eapply wpe_mono; [apply Hq, H | auto | auto].
Qed.

Create HintDb bench.
#[local] Hint Resolve quiet_ret quiet_raise quiet_lift quiet_notify quiet_warning
  quiet_store_errors quiet_bind quiet_try_except quiet_try_except_timeout
  quiet_for_each : bench.
#[local] Hint Resolve safe_ret safe_lift_ok safe_modify safe_bind safe_try_except
  safe_for_each : bench.

Section MethodFacts.
Variable w : world.

Lemma quiet_high_level_warning lvl msg : quiet (high_level_warning lvl msg).
Proof. unfold high_level_warning. destruct (3 <? lvl)%Z; auto with bench. Qed.

Lemma safe_notify msg : safe (notify msg).
Proof. apply safe_modify. Qed.

Lemma safe_warning msg : safe (warning msg).
Proof. apply safe_modify. Qed.

Lemma safe_store_errors op a b : safe (store_errors op a b).
Proof. apply safe_modify. Qed.

Lemma safe_high_level_warning lvl msg : safe (high_level_warning lvl msg).
Proof.
  unfold high_level_warning.
  destruct (3 <? lvl)%Z; auto using safe_warning, safe_notify with bench.
Qed.

Lemma quiet_guarded_iteration s f (call : M Q) acc :
  quiet call -> quiet (guarded_iteration s f call acc).
Proof. intros H. unfold guarded_iteration. auto 10 with bench. Qed.

Lemma safe_guarded_iteration s f (call : M Q) acc :
  safe (guarded_iteration s f call acc).
Proof.
  unfold guarded_iteration.
  apply safe_bind; [apply safe_notify|]. intros _.
  apply safe_try_except. intros e.
  apply safe_bind; [apply safe_notify|]. intros _. apply safe_ret.
Qed.

Lemma quiet_product_virality_neo4j i :
  quiet (_benchmark_product_virality_neo4j w i).
Proof. unfold _benchmark_product_virality_neo4j. auto 10 with bench. Qed.

Lemma quiet_user_influence_neo4j i :
  quiet (_benchmark_user_influence_neo4j w i).
Proof. unfold _benchmark_user_influence_neo4j. auto 10 with bench. Qed.

Lemma quiet_viral_products_neo4j_call i :
  quiet (viral_products_neo4j_call w i).
Proof. unfold viral_products_neo4j_call. auto 10 with bench. Qed.

End MethodFacts.

(** ** Statistics never fail on data *)

Lemma length_insert_sorted x xs :
  length (Statistics.insert_sorted x xs) = S (length xs).
Proof.
  induction xs as [|y ys IH]; cbn; [reflexivity|].
  destruct (Qle_bool x y); cbn; [reflexivity | by rewrite IH].
Qed.

Lemma length_sorted xs : length (Statistics.sorted xs) = length xs.
Proof.
  induction xs as [|x xs IH]; cbn; [reflexivity|].
  unfold Statistics.sorted in IH. by rewrite length_insert_sorted, IH.
Qed.

Lemma mean_nonempty x xs : exists a, Statistics.mean (x :: xs) = Ok a.
Proof. eexists. reflexivity. Qed.

Lemma median_nonempty x xs : exists a, Statistics.median (x :: xs) = Ok a.
Proof.
  unfold Statistics.median.
  rewrite length_sorted. cbn [length].
  destruct (Nat.odd (S (length xs))); eexists; reflexivity.
Qed.

Lemma summary_nonempty x xs tm er : exists s, summary (x :: xs) tm er = Ok s.
Proof.
  unfold summary.
  destruct (median_nonempty x xs) as [md Hmd]. rewrite Hmd.
  cbn. eexists. reflexivity.
Qed.

Lemma summary_or_zero_ok ts tm : exists s, summary_or_zero ts tm = Ok s.
Proof.
  destruct ts as [|x xs]; [eexists; reflexivity|].
  unfold summary_or_zero, or_zero.
  destruct (median_nonempty x xs) as [md Hmd]. rewrite Hmd.
  cbn. eexists. reflexivity.
Qed.

Lemma summary_or_sentinel_ok ts er : exists s, summary_or_sentinel ts er = Ok s.
Proof.
  unfold summary_or_sentinel.
  destruct ts as [|x xs]; apply summary_nonempty.
Qed.

Section Operations.
Variable w : world.

(** ** The three operations with error handling never raise *)

Lemma guarded_loop_step start failed (call : nat -> M Q) ixs b0 pg neo
    (K : list Q * nat -> DatabaseBenchmark -> Prop) E b :
  (forall i, quiet (call i)) ->
  tracks b0 pg neo b ->
  (forall acc b1, tracks b0 pg neo b1 -> K acc b1) ->
  wpe (for_each ixs (fun i => guarded_iteration start failed (call i)) ([], O))
      K E b.
Proof.
  intros Hcall H HK.
  eapply wpe_quiet_safe; [ | | exact H | exact HK].
  - apply quiet_for_each. intros i a. by apply quiet_guarded_iteration.
  - apply safe_for_each. intros i a. apply safe_guarded_iteration.
Qed.

Lemma product_virality_records iterations max_level b :
  wpe (_benchmark_product_virality w iterations max_level)
      (fun _ b' => records "product_virality" b b') never b.
Proof.
  unfold _benchmark_product_virality.
  apply wpe_bind.
  eapply wpe_quiet_safe;
    [apply quiet_high_level_warning | apply safe_high_level_warning
    | apply tracks_start |].
  intros _ b1 H1. apply wpe_bind.
  eapply guarded_loop_step; [intros; apply quiet_lift | exact H1 |].
  intros pg b2 H2. apply wpe_bind.
  eapply guarded_loop_step;
    [intros; apply quiet_product_virality_neo4j | exact H2 |].
  intros neo b3 H3. apply wpe_bind, wpe_modify.
  apply (tracks_store_errors _ _ _ _ "product_virality" (snd pg) (snd neo)) in H3.
  apply wpe_bind.
  destruct (summary_or_zero_ok (fst pg) (Some (fst pg))) as [s1 ->].
  apply wpe_lift_ok, wpe_bind, wpe_modify.
  apply (tracks_store_pg _ _ _ _ "product_virality" s1) in H3.
  apply wpe_bind.
  destruct (summary_or_zero_ok (fst neo) (Some (fst neo))) as [s2 ->].
  apply wpe_lift_ok, wpe_bind, wpe_modify.
  apply (tracks_store_neo4j _ _ _ _ "product_virality" s2) in H3.
  apply wpe_modify.
  exists s1, s2. by apply tracks_notify.
Qed.

Lemma user_influence_records iterations max_level b :
  wpe (_benchmark_user_influence w iterations max_level)
      (fun _ b' => records "user_influence" b b') never b.
Proof.
  unfold _benchmark_user_influence.
  apply wpe_bind.
  eapply wpe_quiet_safe;
    [apply quiet_high_level_warning | apply safe_high_level_warning
    | apply tracks_start |].
  intros _ b1 H1. apply wpe_bind.
  eapply guarded_loop_step; [intros; apply quiet_lift | exact H1 |].
  intros pg b2 H2. apply wpe_bind.
  eapply guarded_loop_step;
    [intros; apply quiet_user_influence_neo4j | exact H2 |].
  intros neo b3 H3. apply wpe_bind, wpe_modify.
  apply (tracks_store_errors _ _ _ _ "user_influence" (snd pg) (snd neo)) in H3.
  apply wpe_bind, wpe_modify.
  apply (tracks_notify _ _ _ _ "Completed user influence benchmark") in H3.
  apply wpe_bind.
  destruct (summary_or_sentinel_ok (fst pg) (snd pg)) as [s1 ->].
  apply wpe_lift_ok, wpe_bind, wpe_modify.
  apply (tracks_store_pg _ _ _ _ "user_influence" s1) in H3.
  apply wpe_bind.
  destruct (summary_or_sentinel_ok (fst neo) (snd neo)) as [s2 ->].
  apply wpe_lift_ok, wpe_modify.
  apply (tracks_store_neo4j _ _ _ _ "user_influence" s2) in H3.
  by exists s1, s2.
Qed.

Lemma viral_products_records iterations max_level b :
  wpe (_benchmark_viral_products w iterations max_level)
      (fun _ b' => records "viral_products" b b') never b.
Proof.
  unfold _benchmark_viral_products.
  apply wpe_bind.
  eapply wpe_quiet_safe;
    [apply quiet_high_level_warning | apply safe_high_level_warning
    | apply tracks_start |].
  intros _ b1 H1. apply wpe_bind.
  eapply guarded_loop_step; [intros; apply quiet_lift | exact H1 |].
  intros pg b2 H2. apply wpe_bind.
  eapply guarded_loop_step;
    [intros; apply quiet_viral_products_neo4j_call | exact H2 |].
  intros neo b3 H3. apply wpe_bind, wpe_modify.
  apply (tracks_store_errors _ _ _ _ "viral_products" (snd pg) (snd neo)) in H3.
  apply wpe_bind, wpe_modify.
  apply (tracks_notify _ _ _ _ "Completed viral products benchmark") in H3.
  apply wpe_bind.
  destruct (summary_or_zero_ok (fst pg) None) as [s1 ->].
  apply wpe_lift_ok, wpe_bind, wpe_modify.
  apply (tracks_store_pg _ _ _ _ "viral_products" s1) in H3.
  apply wpe_bind.
  destruct (summary_or_zero_ok (fst neo) None) as [s2 ->].
  apply wpe_lift_ok, wpe_modify.
  apply (tracks_store_neo4j _ _ _ _ "viral_products" s2) in H3.
  by exists s1, s2.
Qed.

(** ** The operations without error handling *)

Lemma plain_loop_from be op ixs acc b :
  (forall i, exists t, w be op i = Returns t) ->
  for_each ixs
    (fun i ts => let* t := lift (await (w be op i)) in ret (ts ++ [t]))
    acc b
  = (b, Ok (acc ++ List.map (fun i => time_of (w be op i)) ixs)).
Proof.
  intros Hw. revert acc.
  induction ixs as [|i rest IH]; intros acc; cbn [for_each List.map].
  - unfold ret. by rewrite app_nil_r.
  - unfold bind at 1. destruct (Hw i) as [t Ht].
    unfold bind at 1. rewrite Ht. cbn.
    rewrite IH. by rewrite <- app_assoc.
Qed.

Lemma plain_loop_returns be op iterations b :
  (forall i, exists t, w be op i = Returns t) ->
  plain_loop w be op iterations b =
    (b, Ok (List.map (fun i => time_of (w be op i)) (Py.range iterations))).
Proof. intros Hw. unfold plain_loop. by rewrite plain_loop_from. Qed.

Lemma range_nonempty iterations :
  (1 <= iterations)%Z -> exists i rest, Py.range iterations = i :: rest.
Proof.
  intros H. unfold Py.range.
  destruct (Z.to_nat iterations) as [|n] eqn:E; [lia|].
  cbn. eauto.
Qed.

Lemma benchmark_plain_records op iterations b :
  (forall be i, exists t, w be op i = Returns t) ->
  (1 <= iterations)%Z ->
  wpe (benchmark_plain w op iterations)
      (fun _ b' => records op b b') never b.
Proof.
  intros Hw Hit. unfold benchmark_plain.
  pose proof (tracks_start b) as H.
  apply wpe_bind. unfold wpe at 1. rewrite plain_loop_returns by apply Hw.
  apply wpe_bind. unfold wpe at 1. rewrite plain_loop_returns by apply Hw.
  destruct (range_nonempty iterations Hit) as (i & rest & ->).
  cbn [List.map].
  apply wpe_bind.
  match goal with |- context [summary (?x :: ?xs) None None] =>
    destruct (summary_nonempty x xs None None) as [s1 ->] end.
  apply wpe_lift_ok, wpe_bind, wpe_modify.
  apply (tracks_store_pg _ _ _ _ op s1) in H.
  apply wpe_bind.
  match goal with |- context [summary (?x :: ?xs) None None] =>
    destruct (summary_nonempty x xs None None) as [s2 ->] end.
  apply wpe_lift_ok, wpe_modify.
  apply (tracks_store_neo4j _ _ _ _ op s2) in H.
  by exists s1, s2.
Qed.

End Operations.

(** ** The summary never raises on balanced results *)

Lemma compare_never_raises (pg neo : Q) :
  exists c, Comparator.compare pg neo = Ok c.
Proof.
  unfold Comparator.compare.
  destruct (Py.truthy pg) eqn:Hpg; [|eexists; reflexivity].
  destruct (Py.truthy neo) eqn:Hneo; [|eexists; reflexivity].
  cbn [andb].
  destruct (Py.ltb neo pg); [eexists; reflexivity|].
  destruct (Py.ltb 0 neo) eqn:Hpos; [|eexists; reflexivity].
  apply ltb_true in Hpos.
  unfold Comparator.reciprocal. rewrite truediv_nonzero; [eexists; reflexivity|].
  intros Hz. unfold Py.truthy in Hpg. apply negb_true_iff in Hpg.
  assert (Hpg' : ~ pg == 0).
  { intros Heq. apply Qeq_bool_iff in Heq. congruence. }
  apply Hpg'. unfold Qdiv in Hz. apply Qmult_integral in Hz.
  destruct Hz as [Hz|Hz]; [exact Hz|].
  exfalso. assert (0 < / neo)%Q by (apply Qinv_lt_0_compat; exact Hpos). lra.
Qed.

Lemma summary_lines_ok (neo : gmap string stats) entries :
  (forall e, In e entries -> is_Some (neo !! fst e)) ->
  exists ls, summary_lines neo entries = Ok ls.
Proof.
  induction entries as [|e rest IH]; intros H; cbn [summary_lines].
  - eexists. reflexivity.
  - destruct IH as [ls Hls]; [intros e' He'; apply H; by right|].
    unfold summary_line. destruct (H e) as [n Hn]; [by left|].
    rewrite Hn. destruct (compare_never_raises (avg (snd e)) (avg n)) as [c ->].
    cbn [rbind]. rewrite Hls. eexists. reflexivity.
Qed.

Lemma print_summary_safe b (Q : _ -> DatabaseBenchmark -> Prop) E :
  dom (results_postgresql b) = dom (results_neo4j b) ->
  (forall ls, Q ls b) ->
  wpe _print_benchmark_summary Q E b.
Proof.
  intros Hdom HQ. unfold wpe, _print_benchmark_summary.
  destruct (summary_lines_ok (results_neo4j b) (map_to_list (results_postgresql b)))
    as [ls ->]; [|apply HQ].
  intros [op s] Hin. cbn [fst].
  apply list_elem_of_In, elem_of_map_to_list in Hin.
  apply elem_of_dom. rewrite <- Hdom. apply elem_of_dom. eauto.
Qed.

(** ** Stages of a run *)

Lemma stage_notify n t ops b msg :
  stage n t ops b -> stage n t ops (fst (notify msg b)).
Proof.
  intros (Hc & Ht & HF & Hp & Hn). unfold notify, modify; cbn [fst].
  destruct (callback_set b); [|by repeat split].
  split; [done|]. split; [done|]. split; [|done].
  cbn. apply Forall_app. split; [done|]. by repeat constructor.
Qed.

Lemma stage_notify_done n t ops b msg :
  stage n t ops b -> stage n t ops (fst (notify_done msg b)).
Proof.
  intros (Hc & Ht & HF & Hp & Hn). unfold notify_done, modify; cbn [fst].
  destruct (callback_set b); [|by repeat split].
  split; [done|]. split; [done|]. split; [|done].
  cbn. apply Forall_app. split; [done|]. by repeat constructor.
Qed.

Lemma stage_next_step n t ops b :
  stage n t ops b -> stage (n + 1) t ops (fst (next_step b)).
Proof.
  intros (Hc & Ht & HF & Hp & Hn).
  split; [cbn; by rewrite Hc|]. by repeat split.
Qed.

Lemma stage_records n t ops op b b' :
  stage n t ops b -> records op b b' -> stage n t (op :: ops) b'.
Proof.
  intros (Hc & Ht & HF & Hp & Hn)
         (s1 & s2 & (Hc' & Ht' & _ & extra & Hx & HFx) & Hp' & Hn').
  split; [congruence|]. split; [congruence|]. split.
  - rewrite Hx. apply Forall_app. split; [done|]. by rewrite Ht in HFx.
  - rewrite Hp', Hn', !dom_insert_L, Hp, Hn. done.
Qed.

(** One operation of a run: announced, then run. *)
Lemma wpe_operation (c : M unit) op msg n t ops
    (Q : unit -> DatabaseBenchmark -> Prop) E b :
  (forall b1, wpe c (fun _ b' => records op b1 b') never b1) ->
  stage n t ops b ->
  (forall b', stage (n + 1) t (op :: ops) b' -> Q tt b') ->
  wpe (next_step >> notify msg >> c) Q E b.
Proof.
  intros Hc Hst HQ.
  apply wpe_bind. unfold wpe at 1. cbn [next_step set_steps modify].
  apply wpe_bind, wpe_modify.
  apply stage_next_step, (stage_notify _ _ _ _ msg) in Hst.
  eapply wpe_mono; [apply Hc | | intros ? ? []].
  intros [] b' Hrec. apply HQ. eapply stage_records; eassumption.
Qed.

Lemma stage_all_operations ops (m : gmap string stats) :
  ops ≡ₚ all_operations ->
  dom m = list_to_set ops -> dom m = list_to_set all_operations.
Proof. intros Hperm ->. by rewrite Hperm. Qed.

(** ** A run of type "all" *)

Lemma plain_operation_returns w op :
  plain_calls_return w -> In op plain_operations ->
  forall be i, exists t, w be op i = Returns t.
Proof. intros Hw Hin be i. by apply Hw. Qed.

Lemma stage_init cb : stage 0 0 [] (init cb).
Proof.
  split; [reflexivity|]. split; [reflexivity|]. split; [constructor|].
  split; apply dom_empty_L.
Qed.

Lemma wpe_notify msg (Q : unit -> DatabaseBenchmark -> Prop) E b :
  Q tt (fst (notify msg b)) -> wpe (notify msg) Q E b.
Proof. intros H. exact H. Qed.

Lemma wpe_notify_done msg (Q : unit -> DatabaseBenchmark -> Prop) E b :
  Q tt (fst (notify_done msg b)) -> wpe (notify_done msg) Q E b.
Proof. intros H. exact H. Qed.

(** Name the state a [stage] hypothesis speaks of. *)
Ltac forget_state H :=
  match type of H with
  | stage _ _ _ ?b => let b' := fresh "b" in set (b' := b) in *; clearbody b'
  end.

(** A run of type "all" that meets no obstacle goes through its eight
    operations. *)
Lemma all_run_completes (w : world) (max_level : Z)
    (product_id user_id : option string) (iterations : Z)
    (users products : list Z) (cb : bool) :
  users <> [] -> products <> [] -> (1 <= iterations)%Z ->
  plain_calls_return w ->
  exists b' pg neo,
    run_benchmark w "all" max_level product_id user_id iterations
      users products (init cb) = (b', Ok (pg, neo)) /\
    current_step b' = 8%Z /\
    total_steps b' = 6%Z /\
    (total_steps b' < current_step b')%Z /\
    Forall (fun c => pc_total c = 6%Z) (calls b') /\
    dom pg = list_to_set all_operations /\
    dom neo = list_to_set all_operations.
Proof.
  intros Hu Hp Hit Hw.
  destruct users as [|u users]; [done|]. destruct products as [|p products]; [done|].
  assert (Hgoal :
    wpe (run_benchmark w "all" max_level product_id user_id iterations
           (u :: users) (p :: products))
        (fun res b' =>
           stage 8 6
             ["recommendation_queries"; "viral_products"; "user_influence";
              "product_virality"; "product_purchases"; "user_follows";
              "product_retrieval"; "user_retrieval"] b' /\
           res = (results_postgresql b', results_neo4j b'))
        never (init cb)).
  { unfold run_benchmark. cbn [String.eqb Ascii.eqb Bool.eqb is_all orb when].
    apply wpe_bind, wpe_modify.
    apply wpe_bind, wpe_bind. unfold wpe at 1. cbn [set_total set_steps modify].
    assert (Hst : stage 0 6 []
              (fst (set_total 6 (fst (set_steps 0 0 (init cb)))))).
    { split; [reflexivity|]. split; [reflexivity|]. split; [constructor|].
      split; apply dom_empty_L. }
    cbn [set_total set_steps modify fst] in Hst.
    forget_state Hst.
    assert (Hwarn : forall x, stage 0 6 [] x ->
              wpe (when (3 <? max_level)%Z
                     (warning "High max_level may cause longer execution times"))
                  (fun _ b' => stage 0 6 [] b') never x).
    { intros x Hb. unfold when. destruct (3 <? max_level)%Z; [|exact Hb].
      apply wpe_modify. destruct Hb as (?&?&?&?&?). by repeat split. }
    eapply wpe_mono; [apply Hwarn, Hst | | intros ? ? []].
    clear Hwarn Hst. intros [] b2 Hst. cbn beta in Hst.
    apply wpe_bind, wpe_notify.
    apply (stage_notify _ _ _ _ "Starting benchmarks") in Hst.
    forget_state Hst.
    apply wpe_bind.
    (* the four baseline operations *)
    apply wpe_bind with
      (c := next_step >> notify "Running user retrieval benchmark" >>
            _benchmark_user_retrieval w iterations).
    eapply wpe_operation;
      [ intros; apply benchmark_plain_records;
          [apply plain_operation_returns; [exact Hw | cbn; tauto] | exact Hit]
      | exact Hst |].
    clear Hst. intros ? Hst.
    apply wpe_bind with
      (c := next_step >> notify "Running product retrieval benchmark" >>
            _benchmark_product_retrieval w iterations).
    eapply wpe_operation;
      [ intros; apply benchmark_plain_records;
          [apply plain_operation_returns; [exact Hw | cbn; tauto] | exact Hit]
      | exact Hst |].
    clear Hst. intros ? Hst.
    apply wpe_bind with
      (c := next_step >> notify "Running user follows benchmark" >>
            _benchmark_user_follows w iterations).
    eapply wpe_operation;
      [ intros; apply benchmark_plain_records;
          [apply plain_operation_returns; [exact Hw | cbn; tauto] | exact Hit]
      | exact Hst |].
    clear Hst. intros ? Hst.
    eapply wpe_operation;
      [ intros; apply benchmark_plain_records;
          [apply plain_operation_returns; [exact Hw | cbn; tauto] | exact Hit]
      | exact Hst |].
    clear Hst. intros ? Hst.
    (* the three operations with error handling *)
    apply wpe_bind.
    eapply wpe_operation;
      [intros; apply product_virality_records | exact Hst |].
    clear Hst. intros ? Hst.
    apply wpe_bind.
    eapply wpe_operation;
      [intros; apply user_influence_records | exact Hst |].
    clear Hst. intros ? Hst.
    apply wpe_bind.
    eapply wpe_operation;
      [intros; apply viral_products_records | exact Hst |].
    clear Hst. intros ? Hst.
    apply wpe_bind.
    eapply wpe_operation;
      [ intros; apply benchmark_plain_records;
          [apply plain_operation_returns; [exact Hw | cbn; tauto] | exact Hit]
      | exact Hst |].
    clear Hst. intros ? Hst.
    apply wpe_bind, wpe_notify_done.
    apply (stage_notify_done _ _ _ _
             "All benchmarks completed, generating summary") in Hst.
    forget_state Hst.
    apply wpe_bind, print_summary_safe.
    - destruct Hst as (_ & _ & _ & -> & ->). reflexivity.
    - intros _. split; [exact Hst | reflexivity]. }
  unfold wpe in Hgoal.
  destruct (run_benchmark w "all" max_level product_id user_id iterations
              (u :: users) (p :: products) (init cb)) as [b' [[pg neo]|e]];
    [|contradiction].
  destruct Hgoal as ((Hc & Ht & HF & Hdp & Hdn) & Hres).
  injection Hres as -> ->.
  exists b', (results_postgresql b'), (results_neo4j b').
  split; [reflexivity|]. split; [exact Hc|]. split; [exact Ht|].
  split; [lia|]. split; [exact HF|].
  split; eapply stage_all_operations; try eassumption;
    unfold all_operations; solve_Permutation.
Qed.

(** ** The total of a run *)

Lemma keeps_total_ret {A} (a : A) : keeps_total (ret a).
Proof. intros t b H. exact H. Qed.

Lemma keeps_total_raise {A} (e : exn) : keeps_total (@raise A e).
Proof. intros t b H. exact H. Qed.

Lemma keeps_total_lift {A} (r : result A) : keeps_total (lift r).
Proof. intros t b H. apply wpe_lift. by destruct r. Qed.

Lemma keeps_total_notify msg : keeps_total (notify msg).
Proof.
  intros t b [Ht HF]. apply wpe_modify. destruct (callback_set b); [|done].
  split; [done|]. cbn. apply Forall_app. split; [done|]. by repeat constructor.
Qed.

Lemma keeps_total_notify_done msg : keeps_total (notify_done msg).
Proof.
  intros t b [Ht HF]. apply wpe_modify. destruct (callback_set b); [|done].
  split; [done|]. cbn. apply Forall_app. split; [done|]. by repeat constructor.
Qed.

Lemma keeps_total_warning msg : keeps_total (warning msg).
Proof. intros t b H. apply wpe_modify. exact H. Qed.

Lemma keeps_total_store be op s : keeps_total (store be op s).
Proof. intros t b H. apply wpe_modify. exact H. Qed.

Lemma keeps_total_store_errors op n1 n2 : keeps_total (store_errors op n1 n2).
Proof. intros t b H. apply wpe_modify. exact H. Qed.

Lemma keeps_total_next_step : keeps_total next_step.
Proof. intros t b H. exact H. Qed.

Lemma keeps_total_bind {A B} (c : M A) (k : A -> M B) :
  keeps_total c -> (forall a, keeps_total (k a)) -> keeps_total (bind c k).
Proof.
  intros Hc Hk t b H. apply wpe_bind.
  eapply wpe_mono; [apply Hc, H | | auto].
  intros a b1 H1. by apply Hk.
Qed.

Lemma keeps_total_try_except {A} (c : M A) (h : exn -> M A) :
  keeps_total c -> (forall e, keeps_total (h e)) -> keeps_total (try_except c h).
Proof.
  intros Hc Hh t b H. apply wpe_try_except.
  eapply wpe_mono; [apply Hc, H | auto |].
  intros e b1 H1. by apply Hh.
Qed.

Lemma keeps_total_try_except_timeout {A} (c h : M A) :
  keeps_total c -> keeps_total h -> keeps_total (try_except_timeout c h).
Proof.
  intros Hc Hh t b H. apply wpe_try_except_timeout.
  eapply wpe_mono; [apply Hc, H | auto |].
  intros e b1 H1. destruct e; try exact H1. by apply Hh.
Qed.

Lemma keeps_total_for_each {S} (body : nat -> S -> M S) ixs acc :
  (forall i a, keeps_total (body i a)) -> keeps_total (for_each ixs body acc).
Proof.
  intros Hbody. revert acc.
  induction ixs as [|i rest IH]; intros acc; cbn [for_each].
  - apply keeps_total_ret.
  - apply keeps_total_bind; [apply Hbody | apply IH].
Qed.

Lemma keeps_total_when (c : bool) (body : M unit) :
  keeps_total body -> keeps_total (when c body).
Proof. intros H. destruct c; [exact H | apply keeps_total_ret]. Qed.

Lemma keeps_total_print_summary : keeps_total _print_benchmark_summary.
Proof.
  intros t b H. unfold wpe, _print_benchmark_summary.
  by destruct (summary_lines _ _).
Qed.

Create HintDb total.
#[local] Hint Resolve keeps_total_ret keeps_total_raise keeps_total_lift
  keeps_total_notify keeps_total_notify_done keeps_total_warning
  keeps_total_store keeps_total_store_errors keeps_total_next_step
  keeps_total_bind keeps_total_try_except keeps_total_try_except_timeout
  keeps_total_for_each keeps_total_when keeps_total_print_summary : total.

Section KeepsTotal.
Variable w : world.

Lemma keeps_total_benchmark_plain op iterations :
  keeps_total (benchmark_plain w op iterations).
Proof. unfold benchmark_plain, plain_loop. auto 20 with total. Qed.

Lemma keeps_total_high_level_warning lvl msg :
  keeps_total (high_level_warning lvl msg).
Proof. unfold high_level_warning. destruct (3 <? lvl)%Z; auto with total. Qed.

Lemma keeps_total_guarded_iteration s f (call : M Q) acc :
  keeps_total call -> keeps_total (guarded_iteration s f call acc).
Proof. intros H. unfold guarded_iteration. auto 10 with total. Qed.

#[local] Hint Resolve keeps_total_high_level_warning keeps_total_guarded_iteration
  keeps_total_benchmark_plain : total.

Lemma keeps_total_product_virality iterations max_level :
  keeps_total (_benchmark_product_virality w iterations max_level).
Proof.
  unfold _benchmark_product_virality, product_virality_pg_loop,
    product_virality_neo4j_loop, _benchmark_product_virality_neo4j.
  auto 30 with total.
Qed.

Lemma keeps_total_user_influence iterations max_level :
  keeps_total (_benchmark_user_influence w iterations max_level).
Proof.
  unfold _benchmark_user_influence, user_influence_pg_loop,
    user_influence_neo4j_loop, _benchmark_user_influence_neo4j.
  auto 30 with total.
Qed.

Lemma keeps_total_viral_products iterations max_level :
  keeps_total (_benchmark_viral_products w iterations max_level).
Proof.
  unfold _benchmark_viral_products, viral_products_pg_loop,
    viral_products_neo4j_loop, viral_products_neo4j_call.
  auto 30 with total.
Qed.

#[local] Hint Resolve keeps_total_product_virality keeps_total_user_influence
  keeps_total_viral_products : total.

Lemma wpe_fst {A} (c : M A) (P : DatabaseBenchmark -> Prop) b :
  wpe c (fun _ b' => P b') (fun _ b' => P b') b -> P (fst (c b)).
Proof. unfold wpe. by destruct (c b) as [b' [a|e]]. Qed.

Lemma keeps_total_return_results :
  keeps_total (fun b : DatabaseBenchmark =>
                 (b, Ok (results_postgresql b, results_neo4j b))).
Proof. intros t b H. exact H. Qed.

(** Once set, the total of a run of type "all" stays: at the end of the
    run, or where an exception stops it, the total is 6 and every progress
    call has carried 6. *)
Lemma all_run_total_is_fixed max_level product_id user_id iterations
    users products cb :
  total_fixed 6
    (fst (run_benchmark w "all" max_level product_id user_id iterations
            users products (init cb))).
Proof.
  apply wpe_fst.
  unfold run_benchmark. cbn [String.eqb Ascii.eqb Bool.eqb is_all orb].
  apply wpe_bind, wpe_modify. apply wpe_bind, wpe_bind.
  unfold wpe at 1. cbn [set_total set_steps modify].
  match goal with |- wpe _ _ _ ?b =>
    assert (H : total_fixed 6 b) by (split; [reflexivity | constructor]);
    generalize dependent b
  end.
  intros b H.
  eapply wpe_mono;
    [apply keeps_total_when; [apply keeps_total_warning | exact H]
    | | auto].
  clear b H. intros [] b H. cbn beta in H.
  assert (Hrest : forall (c : M (gmap string stats * gmap string stats)),
            keeps_total c -> wpe c (fun _ b' => total_fixed 6 b')
                                   (fun _ b' => total_fixed 6 b') b).
  { intros c Hc. by apply Hc. }
  apply Hrest. clear Hrest.
  apply keeps_total_bind; [apply keeps_total_notify|]. intros _.
  pose proof keeps_total_return_results as Hret.
  destruct users as [|u us], products as [|p ps]; try exact Hret.
  cbn [when].
  unfold _benchmark_user_retrieval, _benchmark_product_retrieval,
    _benchmark_user_follows, _benchmark_product_purchases,
    _benchmark_recommendation_queries.
  auto 60 with total.
Qed.

End KeepsTotal.

(** Claim C10.  In a run of type "all" on a fresh object the total is 6 from
    the first progress call on and never changes: where the run ends, by
    return or by an exception, [total_steps] is 6 and every progress call
    has carried 6.  When the eight operations are executed (non-empty
    samples, at least one iteration, no failing call in the operations
    without error handling) the run returns with [current_step] = 8, above
    [total_steps], and with one entry per backend for each of the eight
    operations. *)
Theorem C10_all_runs_eight_steps_of_six (w : world) (max_level : Z)
    (product_id user_id : option string) (iterations : Z)
    (users products : list Z) (cb : bool) :
  let run :=
    run_benchmark w "all" max_level product_id user_id iterations
      users products (init cb) in
  total_fixed 6 (fst run) /\
  (users <> [] -> products <> [] -> (1 <= iterations)%Z ->
   plain_calls_return w ->
   exists pg neo,
     snd run = Ok (pg, neo) /\
     current_step (fst run) = 8%Z /\
     (total_steps (fst run) < current_step (fst run))%Z /\
     dom pg = list_to_set all_operations /\
     dom neo = list_to_set all_operations).
Proof.
  cbv zeta. split; [apply all_run_total_is_fixed|].
  intros Hu Hp Hit Hw.
  destruct (all_run_completes w max_level product_id user_id iterations
              users products cb Hu Hp Hit Hw)
    as (b' & pg & neo & -> & Hc & Ht & Hlt & _ & Hpg & Hneo).
  exists pg, neo. cbn [fst snd]. auto.
Qed.

(** C10 on one user, one product, two iterations and a steady world. *)
Lemma C10_witness :
  let run :=
    run_benchmark steady "all" 3 None None 2 [1%Z] [1%Z] (init true) in
  exists pg neo,
    snd run = Ok (pg, neo) /\
    current_step (fst run) = 8%Z /\
    (total_steps (fst run) < current_step (fst run))%Z /\
    dom pg = list_to_set all_operations /\
    dom neo = list_to_set all_operations.
Proof.
  apply (C10_all_runs_eight_steps_of_six steady 3 None None 2 [1%Z] [1%Z] true).
  - discriminate.
  - discriminate.
  - lia.
  - intros be op i _. exists (1 # 10)%Q. reflexivity.
Defined.

(** ** Unknown test types *)






(** ** Empty sample lists *)

Lemma range_nonpos (n : Z) : (n <= 0)%Z -> Py.range n = [].
Proof.
  intros H. unfold Py.range.
  replace (Z.to_nat n) with O by lia. reflexivity.
Qed.

Lemma all_equal_zero tm er : all_equal 0 (mkStats 0 0 0 0 tm er).
Proof. repeat split. Qed.

(** An iteration of a guarded loop records exactly one sample, whatever the
    call does. *)
Lemma guarded_iteration_one_sample start failed (call : M Q) acc b :
  exists b' x n,
    guarded_iteration start failed call acc b = (b', Ok (fst acc ++ [x], n)).
Proof.
  unfold guarded_iteration. unfold bind at 1. cbn [notify modify].
  unfold try_except, bind.
  match goal with |- context [call ?s] => destruct (call s) as [b1 [t|e]] end;
    cbn; eauto.
Qed.

(** A guarded loop records one sample per iteration. *)
Lemma guarded_loop_length start failed (call : nat -> M Q) ixs acc b :
  exists b' ts n,
    for_each ixs (fun i => guarded_iteration start failed (call i)) acc b
    = (b', Ok (ts, n)) /\
    length ts = (length (fst acc) + length ixs)%nat.
Proof.
  revert acc b. induction ixs as [|i rest IH]; intros acc b; cbn [for_each].
  - exists b, (fst acc), (snd acc). destruct acc. cbn. split; [done | lia].
  - unfold bind at 1.
    destruct (guarded_iteration_one_sample start failed (call i) acc b)
      as (b1 & x & n & ->).
    destruct (IH (fst acc ++ [x], n) b1) as (b' & ts & m & -> & Hlen).
    exists b', ts, m. split; [done|].
    rewrite Hlen. cbn [fst length]. rewrite length_app. cbn. lia.
Qed.

(** The samples of a guarded loop are empty exactly when there is no
    iteration. *)
Lemma guarded_loop_empty_iff start failed (call : nat -> M Q) iterations b :
  exists b' ts n,
    for_each (Py.range iterations)
      (fun i => guarded_iteration start failed (call i)) ([], O) b
    = (b', Ok (ts, n)) /\
    (ts = [] <-> (iterations <= 0)%Z).
Proof.
  destruct (guarded_loop_length start failed call (Py.range iterations) ([], O) b)
    as (b' & ts & n & Hrun & Hlen).
  exists b', ts, n. split; [exact Hrun|].
  unfold Py.range in Hlen. rewrite length_seq in Hlen. cbn in Hlen.
  split.
  - intros ->. cbn in Hlen. lia.
  - intros Hle. apply length_zero_iff_nil. lia.
Qed.

Section EmptySamples.
Variable w : world.
Variables iterations max_level : Z.
Hypothesis no_iteration : (iterations <= 0)%Z.

Lemma product_virality_empty b :
  wpe (_benchmark_product_virality w iterations max_level)
      (fun _ b' =>
         tracks b
           (<["product_virality" := mkStats 0 0 0 0 (Some []) None]>
              (results_postgresql b))
           (<["product_virality" := mkStats 0 0 0 0 (Some []) None]>
              (results_neo4j b)) b')
      never b.
Proof.
  unfold _benchmark_product_virality, product_virality_pg_loop,
    product_virality_neo4j_loop.
  rewrite (range_nonpos _ no_iteration). cbn [for_each].
  apply wpe_bind.
  eapply wpe_quiet_safe;
    [apply quiet_high_level_warning | apply safe_high_level_warning
    | apply tracks_start |].
  intros _ b1 H. apply wpe_bind, wpe_ret, wpe_bind, wpe_ret.
  cbn [fst snd]. apply wpe_bind, wpe_modify.
  apply (tracks_store_errors _ _ _ _ "product_virality" O O) in H.
  apply wpe_bind, wpe_lift_ok, wpe_bind, wpe_modify.
  apply (tracks_store_pg _ _ _ _ "product_virality"
           (mkStats 0 0 0 0 (Some []) None)) in H.
  apply wpe_bind, wpe_lift_ok, wpe_bind, wpe_modify.
  apply (tracks_store_neo4j _ _ _ _ "product_virality"
           (mkStats 0 0 0 0 (Some []) None)) in H.
  apply wpe_modify. by apply tracks_notify.
Qed.

Lemma viral_products_empty b :
  wpe (_benchmark_viral_products w iterations max_level)
      (fun _ b' =>
         tracks b
           (<["viral_products" := mkStats 0 0 0 0 None None]>
              (results_postgresql b))
           (<["viral_products" := mkStats 0 0 0 0 None None]>
              (results_neo4j b)) b')
      never b.
Proof.
  unfold _benchmark_viral_products, viral_products_pg_loop,
    viral_products_neo4j_loop.
  rewrite (range_nonpos _ no_iteration). cbn [for_each].
  apply wpe_bind.
  eapply wpe_quiet_safe;
    [apply quiet_high_level_warning | apply safe_high_level_warning
    | apply tracks_start |].
  intros _ b1 H. apply wpe_bind, wpe_ret, wpe_bind, wpe_ret.
  cbn [fst snd]. apply wpe_bind, wpe_modify.
  apply (tracks_store_errors _ _ _ _ "viral_products" O O) in H.
  apply wpe_bind, wpe_modify.
  apply (tracks_notify _ _ _ _ "Completed viral products benchmark") in H.
  apply wpe_bind, wpe_lift_ok, wpe_bind, wpe_modify.
  apply (tracks_store_pg _ _ _ _ "viral_products"
           (mkStats 0 0 0 0 None None)) in H.
  apply wpe_bind, wpe_lift_ok, wpe_modify.
  by apply (tracks_store_neo4j _ _ _ _ "viral_products"
              (mkStats 0 0 0 0 None None)) in H.
Qed.

Lemma user_influence_empty b :
  wpe (_benchmark_user_influence w iterations max_level)
      (fun _ b' =>
         exists s, all_equal sentinel s /\
           tracks b (<["user_influence" := s]> (results_postgresql b))
                    (<["user_influence" := s]> (results_neo4j b)) b')
      never b.
Proof.
  unfold _benchmark_user_influence, user_influence_pg_loop,
    user_influence_neo4j_loop.
  rewrite (range_nonpos _ no_iteration). cbn [for_each].
  apply wpe_bind.
  eapply wpe_quiet_safe;
    [apply quiet_high_level_warning | apply safe_high_level_warning
    | apply tracks_start |].
  intros _ b1 H. apply wpe_bind, wpe_ret, wpe_bind, wpe_ret.
  cbn [fst snd]. apply wpe_bind, wpe_modify.
  apply (tracks_store_errors _ _ _ _ "user_influence" O O) in H.
  apply wpe_bind, wpe_modify.
  apply (tracks_notify _ _ _ _ "Completed user influence benchmark") in H.
  destruct (summary_or_sentinel_ok [] O) as [s Hs].
  assert (Heq : all_equal sentinel s).
  { vm_compute in Hs. injection Hs as <-. by repeat split. }
  rewrite Hs.
  apply wpe_bind, wpe_lift_ok, wpe_bind, wpe_modify.
  apply (tracks_store_pg _ _ _ _ "user_influence" s) in H.
  apply wpe_bind, wpe_lift_ok, wpe_modify.
  apply (tracks_store_neo4j _ _ _ _ "user_influence" s) in H.
  by exists s.
Qed.

End EmptySamples.

(** From a [wpe] fact with no exceptional outcome to the run itself. *)
Lemma wpe_never_run {A} (c : M A) (Q : A -> DatabaseBenchmark -> Prop) b :
  wpe c Q never b -> exists b' a, c b = (b', Ok a) /\ Q a b'.
Proof.
  unfold wpe. destruct (c b) as [b' [a|e]]; [eauto | contradiction].
Qed.

(** Claim C6, as the code has it.  With no iteration, product virality and
    viral products store all-zero statistics for both backends (product
    virality with an empty list of times), and user influence stores the
    sentinel 60 as mean, minimum, maximum and median; none of the three
    raises. *)
Theorem C6_empty_samples (w : world) (iterations max_level : Z)
    (b : DatabaseBenchmark) :
  (iterations <= 0)%Z ->
  (exists b' s1 s2,
     _benchmark_product_virality w iterations max_level b = (b', Ok tt) /\
     results_postgresql b' !! "product_virality" = Some s1 /\
     results_neo4j b' !! "product_virality" = Some s2 /\
     times s1 = Some [] /\ times s2 = Some [] /\
     all_equal 0 s1 /\ all_equal 0 s2) /\
  (exists b' s1 s2,
     _benchmark_viral_products w iterations max_level b = (b', Ok tt) /\
     results_postgresql b' !! "viral_products" = Some s1 /\
     results_neo4j b' !! "viral_products" = Some s2 /\
     all_equal 0 s1 /\ all_equal 0 s2) /\
  (exists b' s1 s2,
     _benchmark_user_influence w iterations max_level b = (b', Ok tt) /\
     results_postgresql b' !! "user_influence" = Some s1 /\
     results_neo4j b' !! "user_influence" = Some s2 /\
     all_equal sentinel s1 /\ all_equal sentinel s2).
Proof.
  intros Hit. split; [|split].
  - destruct (wpe_never_run _ _ _ (product_virality_empty w _ max_level Hit b))
      as (b' & [] & Hrun & _ & Hpg & Hneo).
    exists b', (mkStats 0 0 0 0 (Some []) None), (mkStats 0 0 0 0 (Some []) None).
    rewrite Hpg, Hneo, !lookup_insert_eq.
    repeat (split; [done|]). split; apply all_equal_zero.
  - destruct (wpe_never_run _ _ _ (viral_products_empty w _ max_level Hit b))
      as (b' & [] & Hrun & _ & Hpg & Hneo).
    exists b', (mkStats 0 0 0 0 None None), (mkStats 0 0 0 0 None None).
    rewrite Hpg, Hneo, !lookup_insert_eq.
    repeat (split; [done|]). split; apply all_equal_zero.
  - destruct (wpe_never_run _ _ _ (user_influence_empty w _ max_level Hit b))
      as (b' & [] & Hrun & s & Heq & _ & Hpg & Hneo).
    exists b', s, s.
    rewrite Hpg, Hneo, !lookup_insert_eq. by repeat (split; [done|]).
Qed.

(** C6 at zero iterations. *)
Lemma C6_witness :
  (exists b' s1 s2,
     _benchmark_product_virality steady 0 3 (init true) = (b', Ok tt) /\
     results_postgresql b' !! "product_virality" = Some s1 /\
     results_neo4j b' !! "product_virality" = Some s2 /\
     times s1 = Some [] /\ times s2 = Some [] /\
     all_equal 0 s1 /\ all_equal 0 s2) /\
  (exists b' s1 s2,
     _benchmark_viral_products steady 0 3 (init true) = (b', Ok tt) /\
     results_postgresql b' !! "viral_products" = Some s1 /\
     results_neo4j b' !! "viral_products" = Some s2 /\
     all_equal 0 s1 /\ all_equal 0 s2) /\
  (exists b' s1 s2,
     _benchmark_user_influence steady 0 3 (init true) = (b', Ok tt) /\
     results_postgresql b' !! "user_influence" = Some s1 /\
     results_neo4j b' !! "user_influence" = Some s2 /\
     all_equal sentinel s1 /\ all_equal sentinel s2).
Proof. apply (C6_empty_samples steady 0 3 (init true)). lia. Defined.

(** C6 as stated fails: with no sample collected, no statistic of user
    influence is zero, and user retrieval raises [StatisticsError]. *)
Lemma C6_empty_is_not_always_zero :
  snd (user_influence_neo4j_loop steady 0 (init true)) = Ok ([], O) /\
  (exists s,
     results_neo4j (fst (_benchmark_user_influence steady 0 3 (init true)))
       !! "user_influence" = Some s /\
     ~ (avg s == 0)%Q /\ ~ (minimum s == 0)%Q /\
     ~ (maximum s == 0)%Q /\ ~ (median s == 0)%Q) /\
  snd (_benchmark_user_retrieval steady 0 (init true)) = Raise StatisticsError.
Proof.
  split; [reflexivity|]. split; [|reflexivity].
  eexists. split; [vm_compute; reflexivity|].
  cbn [avg minimum maximum median]. repeat split; intros H; discriminate H.
Qed.

(** ** Timeouts in the two 30-second helpers *)

Section Helpers.
Variable w : world.

(** Both helpers swallow every exception: they return the time taken or
    the sentinel, and never raise. *)
Lemma user_influence_neo4j_returns i b :
  exists b', _benchmark_user_influence_neo4j w i b
             = (b', Ok (helper_sample (w Neo4j "user_influence" i))).
Proof.
  unfold _benchmark_user_influence_neo4j, helper_sample,
    try_except, try_except_timeout, lift, bind, raise, ret.
  destruct (wait_for (w Neo4j "user_influence" i) 30) as [t|[]];
    cbn; eexists; reflexivity.
Qed.

Lemma product_virality_neo4j_returns i b :
  exists b', _benchmark_product_virality_neo4j w i b
             = (b', Ok (helper_sample (w Neo4j "product_virality" i))).
Proof.
  unfold _benchmark_product_virality_neo4j, helper_sample,
    try_except, try_except_timeout, lift, bind, raise, ret.
  destruct (wait_for (w Neo4j "product_virality" i) 30) as [t|[]];
    cbn; eexists; reflexivity.
Qed.

(** An iteration over a call that returns records its value and counts
    no error. *)
Lemma guarded_iteration_of_total_call start failed (call : M Q) (v : Q)
    acc b :
  (forall b, exists b', call b = (b', Ok v)) ->
  exists b',
    guarded_iteration start failed call acc b
    = (b', Ok (fst acc ++ [v], snd acc)).
Proof.
  intros Hcall. unfold guarded_iteration.
  unfold bind at 1. cbn [notify modify].
  unfold try_except, bind.
  match goal with |- context [call ?x] => destruct (Hcall x) as [b1 ->] end.
  exists b1. reflexivity.
Qed.

Lemma guarded_loop_of_total_call start failed (call : nat -> M Q)
    (value : nat -> Q) ixs ts n b :
  (forall i b, exists b', call i b = (b', Ok (value i))) ->
  exists b',
    for_each ixs (fun i => guarded_iteration start failed (call i)) (ts, n) b
    = (b', Ok (ts ++ List.map value ixs, n)).
Proof.
  intros Hcall. revert ts b.
  induction ixs as [|i rest IH]; intros ts b; cbn [for_each List.map].
  - eexists. unfold ret. by rewrite app_nil_r.
  - unfold bind at 1.
    destruct (guarded_iteration_of_total_call start failed (call i)
                (value i) (ts, n) b (Hcall i)) as [b1 ->].
    cbn [fst snd].
    destruct (IH (ts ++ [value i]) b1) as [b' Hb'].
    exists b'. rewrite Hb'. by rewrite <- app_assoc.
Qed.

Lemma user_influence_neo4j_loop_samples iterations b :
  exists b',
    user_influence_neo4j_loop w iterations b
    = (b', Ok (List.map (fun i => helper_sample (w Neo4j "user_influence" i))
                 (Py.range iterations), O)).
Proof.
  unfold user_influence_neo4j_loop.
  apply (guarded_loop_of_total_call _ _ _
           (fun i => helper_sample (w Neo4j "user_influence" i)) _ [] O).
  intros i b1. apply user_influence_neo4j_returns.
Qed.

Lemma product_virality_neo4j_loop_samples iterations b :
  exists b',
    product_virality_neo4j_loop w iterations b
    = (b', Ok (List.map (fun i => helper_sample (w Neo4j "product_virality" i))
                 (Py.range iterations), O)).
Proof.
  unfold product_virality_neo4j_loop.
  apply (guarded_loop_of_total_call _ _ _
           (fun i => helper_sample (w Neo4j "product_virality" i)) _ [] O).
  intros i b1. apply product_virality_neo4j_returns.
Qed.

Lemma helper_sample_timeout r : exceeds r 30 -> helper_sample r = sentinel.
Proof.
  intros (t & -> & Ht). unfold helper_sample, wait_for.
  destruct (Qle_bool t 30) eqn:E; [|reflexivity].
  apply Qle_bool_iff in E. lra.
Qed.

End Helpers.

(** Claim C1, evaluated where the code departs from it.  The first Neo4j
    call takes 31 s, beyond the 30 s timeout.  In the user influence and
    product virality loops the sentinel 60 is recorded and the loop goes on
    to the second iteration, but the Neo4j error counter stays at 0, in the
    loop and in the stored metadata.  The viral products loop, whose query
    runs inline under its 60 s timeout, does count the error. *)
Theorem C1_timeout_recorded_but_not_counted :
  let w := slow_graph 31 in
  exceeds (w Neo4j "user_influence" O) 30 /\
  snd (user_influence_neo4j_loop w 2 (init true))
    = Ok ([sentinel; (1 # 10)%Q], O) /\
  data_errors (fst (_benchmark_user_influence w 2 3 (init true)))
    !! "user_influence" = Some (O, O) /\
  snd (product_virality_neo4j_loop w 2 (init true))
    = Ok ([sentinel; (1 # 10)%Q], O) /\
  data_errors (fst (_benchmark_product_virality w 2 3 (init true)))
    !! "product_virality" = Some (O, O) /\
  snd (viral_products_neo4j_loop (slow_graph 61) 2 (init true))
    = Ok ([sentinel; (1 # 10)%Q], 1%nat).
Proof.
  cbv zeta.
  split; [exists 31%Q; split; reflexivity|].
  repeat split; vm_compute; reflexivity.
Qed.

Section StatusPoll.
Import Registry.

(** ** The status poll *)
Lemma int_respects_Qeq (x y : Q) : (x == y)%Q -> Py.int x = Py.int y.
Proof.
  destruct x as [a b], y as [c d]. unfold Qeq, Py.int. cbn. intros H.
  rewrite <- (Z.quot_mul_cancel_r a (Z.pos b) (Z.pos d)) by lia.
  rewrite H.
  rewrite (Z.mul_comm (Z.pos b) (Z.pos d)).
  apply Z.quot_mul_cancel_r; lia.
Qed.

Lemma int_of_step_ratio (cur tot : Z) :
  (0 < tot)%Z ->
  Py.int (inject_Z cur / inject_Z tot * 100)%Q = Z.quot (100 * cur) tot.
Proof.
  intros Htot. destruct tot as [|p|p]; try lia.
  unfold Py.int, Qdiv, Qinv, Qmult, inject_Z. cbn.
  rewrite Pos.mul_1_r. f_equal. lia.
Qed.

Lemma ltb_inject_Z (n : Z) : Py.ltb 0 (inject_Z n) = (0 <? n)%Z.
Proof.
  destruct (0 <? n)%Z eqn:E.
  - apply ltb_true. apply Z.ltb_lt in E.
    unfold Qlt, inject_Z. cbn. lia.
  - apply ltb_false. apply Z.ltb_ge in E.
    unfold Qle, inject_Z. cbn. lia.
Qed.




(** Claim C5.  For a task identifier absent from the registry the status
    poll returns, without raising, a document that carries the identifier,
    the status "not_found", the progress 0 and a message. *)
Theorem C5_unknown_task_is_not_found
    (benchmark_results : gmap string (gmap string value)) (now : Q)
    (task_id : string) :
  benchmark_results !! task_id = None ->
  exists doc,
    get_task_status benchmark_results now task_id = Ok doc /\
    doc !! "task_id" = Some (VStr task_id) /\
    doc !! "status" = Some (VStr "not_found") /\
    doc !! "progress" = Some (VInt 0) /\
    is_Some (doc !! "message").
Proof.
  intros Hnone. unfold get_task_status. rewrite Hnone.
  eexists. split; [reflexivity|].
  split; [by simplify_map_eq|]. split; [by simplify_map_eq|].
  split; [by simplify_map_eq|]. by simplify_map_eq.
Qed.

(** C5 on the empty registry. *)
Lemma C5_witness :
  exists doc,
    get_task_status ∅ 0 "benchmark_404" = Ok doc /\
    doc !! "task_id" = Some (VStr "benchmark_404") /\
    doc !! "status" = Some (VStr "not_found") /\
    doc !! "progress" = Some (VInt 0) /\
    is_Some (doc !! "message").
Proof. apply (C5_unknown_task_is_not_found ∅ 0 "benchmark_404"). reflexivity. Defined.

(** The metrics endpoint is not the status poll: it answers 404. *)
Lemma unknown_generation_metrics_is_404
    (generation_metrics : gmap string (gmap string value)) (task_id : string) :
  generation_metrics !! task_id = None ->
  get_generation_metrics generation_metrics task_id = Raise (HTTPException 404).
Proof. intros H. unfold get_generation_metrics. by rewrite H. Qed.

(** ** The exact model against binary64 *)

(** On every pair of counters a run can report, IEEE 754 arithmetic gives
    the step percentage of the exact model. *)
Lemma binary64_agrees_on_reported_steps :
  Forall (fun '(current_step, total_steps) =>
            Binary64.step_percent current_step total_steps
            = Some (exact_step_percent current_step total_steps))
         reported_steps.
Proof.
  unfold reported_steps. cbn [list_prod List.map app].
  repeat (constructor; [vm_compute; reflexivity|]). constructor.
Qed.

(** Elsewhere the two can differ by one: at 29 of 100 the float product is
    just below 29. *)
Lemma binary64_differs_at_29_of_100 :
  Binary64.step_percent 29 100 = Some 28%Z /\ exact_step_percent 29 100 = 29%Z.
Proof. split; vm_compute; reflexivity. Qed.

(** ** [compare_benchmarks] *)

Lemma compare_fields (pg n : Q) (c : Comparator.comparison) :
  Comparator.compare pg n = Ok (Some c) ->
  Comparator.postgresql_avg c = pg /\ Comparator.neo4j_avg c = n.
Proof.
  unfold Comparator.compare.
  destruct (Py.truthy pg && Py.truthy n); [|discriminate].
  destruct (match (if Py.ltb n pg then Neo4j else PostgreSQL) with
            | Neo4j => _ | PostgreSQL => _ end) as [f|e];
    cbn [rbind]; [|discriminate].
  intros [= <-]. split; reflexivity.
Qed.

(** Every line of the answer is the comparison of the two averages of its
    operation. *)
Lemma compare_operations_lines (neo : gmap string stats) entries acc :
  compare_operations neo entries = Ok acc ->
  forall op line, acc !! op = Some line ->
    exists pg n,
      In (op, pg) entries /\ neo !! op = Some n /\
      Comparator.compare (avg pg) (avg n) = Ok (Some line).
Proof.
  revert acc. induction entries as [|[o p] rest IH]; intros acc H op line Hl.
  - injection H as <-. by rewrite lookup_empty in Hl.
  - cbn [compare_operations] in H.
    destruct (compare_operations neo rest) as [acc'|e]; [|discriminate].
    cbn [rbind] in H.
    assert (Hrest : acc' !! op = Some line ->
              exists pg n, In (op, pg) ((o, p) :: rest) /\ neo !! op = Some n /\
                Comparator.compare (avg pg) (avg n) = Ok (Some line)).
    { intros Hl'. destruct (IH acc' eq_refl op line Hl') as (pg & n & ? & ? & ?).
      exists pg, n. split; [by right | done]. }
    destruct (neo !! o) as [n|] eqn:En; [|injection H as <-; auto].
    destruct (Comparator.compare (avg p) (avg n)) as [[c|]|e] eqn:Ec;
      cbn [rbind] in H; try discriminate; injection H as <-; [|auto].
    destruct (decide (o = op)) as [->|Hne].
    + rewrite lookup_insert_eq in Hl. injection Hl as ->.
      exists p, n. split; [by left | done].
    + rewrite lookup_insert_ne in Hl by done. auto.
Qed.

(** In the answer of [compare_benchmarks], a line with two positive averages
    has a speedup factor of at least 1. *)
Lemma compare_benchmarks_speedup
    (benchmark_results : gmap string (gmap string value))
    (pg_task_id neo4j_task_id : string)
    (operations : gmap string Comparator.comparison)
    (op : string) (line : Comparator.comparison) :
  compare_benchmarks benchmark_results pg_task_id neo4j_task_id = Ok operations ->
  operations !! op = Some line ->
  (0 < Comparator.postgresql_avg line)%Q ->
  (0 < Comparator.neo4j_avg line)%Q ->
  exists f, Comparator.speedup_factor line = Comparator.Fin f /\ (1 <= f)%Q.
Proof.
  unfold compare_benchmarks. intros H Hl Hpg Hneo.
  destruct (benchmark_results !! pg_task_id) as [pg_task|]; [|discriminate].
  destruct (benchmark_results !! neo4j_task_id) as [neo4j_task|]; [|discriminate].
  destruct (completed pg_task) as [[]|]; cbn in H; try discriminate.
  destruct (completed neo4j_task) as [[]|]; cbn in H; try discriminate.
  destruct (results_of pg_task) as [pg_results|]; cbn in H; [|discriminate].
  destruct (results_of neo4j_task) as [neo4j_results|]; cbn in H; [|discriminate].
  destruct (compare_operations_lines _ _ _ H op line Hl) as (pg & n & _ & _ & Hc).
  destruct (compare_fields _ _ _ Hc) as [E1 E2]. rewrite E1 in Hpg. rewrite E2 in Hneo.
  destruct (compare_positive _ _ Hpg Hneo) as (f & Hc' & Hf & _).
  rewrite Hc in Hc'. injection Hc' as ->. exists f. split; [reflexivity | exact Hf].
Qed.

End StatusPoll.

Section FollowEdges.
Import Generator.

(** ** One follow attempt *)

(** The outcomes of the relational half. *)
Lemma follow_user_pg_cases f a b st :
  (follow_user_pg f a b st = (st, Raise BackendError)) \/
  (follow_user_pg f a b st = (st, Ok false)) \/
  (follow_user_pg f a b st = (st, Ok true) /\ (a, b) ∈ pg_follows st) \/
  (follow_user_pg f a b st =
     (mkStores (pg_users st) (pg_follows st ++ [(a, b)])
               (neo4j_users st) (neo4j_follows st), Ok true) /\
   pg_read_fails f = false /\ pg_commit_fails f = false /\
   (a, b) ∉ pg_follows st).
Proof.
  unfold follow_user_pg.
  destruct (pg_read_fails f); [by left|].
  destruct (bool_decide (a ∈ pg_users st)); cbn [negb]; [|by right; left].
  destruct (bool_decide (b ∈ pg_users st)); cbn [negb]; [|by right; left].
  destruct (bool_decide ((a, b) ∈ pg_follows st)) eqn:E.
  - right; right; left. split; [done|]. by apply bool_decide_eq_true in E.
  - destruct (pg_commit_fails f); [by left|].
    right; right; right. apply bool_decide_eq_false in E. done.
Qed.

(** The outcomes of the graph half. *)
Lemma follow_user_neo4j_cases f a b st :
  (snd (follow_user_neo4j f a b st) <> Ok true /\
   fst (follow_user_neo4j f a b st) = st) \/
  (follow_user_neo4j f a b st =
     (mkStores (pg_users st) (pg_follows st) (neo4j_users st)
               ({[ (a, b) ]} ∪ neo4j_follows st), Ok true) /\
   neo4j_fails f = false).
Proof.
  unfold follow_user_neo4j.
  destruct (neo4j_fails f); [by left|].
  destruct (bool_decide (a ∈ neo4j_users st) && bool_decide (b ∈ neo4j_users st));
    [by right | by left].
Qed.

Lemma follow_user_effect f a b st :
  follow_effect a b st (fst (follow_user f a b st)) (snd (follow_user f a b st)).
Proof.
  unfold follow_user.
  destruct (follow_user_pg_cases f a b st)
    as [-> | [-> | [[-> Hin] | (-> & _ & _ & Hnin)]]];
    try apply nothing_written.
  - destruct (follow_user_neo4j_cases f a b st) as [[Hne Hst] | [-> _]].
    + destruct (follow_user_neo4j f a b st) as [st2 [[]|e]];
        cbn [fst snd] in *; subst; try congruence; destruct st; constructor.
    + cbn [fst snd]. by apply graph_joins_existing_row.
  - match goal with |- context [follow_user_neo4j f a b ?s] =>
      destruct (follow_user_neo4j_cases f a b s) as [[Hne Hst] | [-> _]];
      [destruct (follow_user_neo4j f a b s) as [st2 [[]|e]]|]
    end; cbn [fst snd] in *; subst; try congruence;
      try (by apply relational_only); by apply both_written.
Qed.

Lemma create_follow_self f u st : _create_follow f u u st = (st, false).
Proof. unfold _create_follow. by rewrite Z.eqb_refl. Qed.

Lemma create_follow_effect f a b st :
  (a = b /\ _create_follow f a b st = (st, false)) \/
  (a <> b /\
   follow_effect a b st (fst (_create_follow f a b st))
                        (snd (_create_follow f a b st))).
Proof.
  unfold _create_follow. destruct (a =? b)%Z eqn:E.
  - left. by apply Z.eqb_eq in E.
  - right. apply Z.eqb_neq in E. split; [done | apply follow_user_effect].
Qed.

(** A counted attempt leaves the edge in both stores. *)
Lemma follow_effect_committed a b st st' :
  follow_effect a b st st' true -> committed a b st'.
Proof.
  inversion 1; subst; split; cbn; set_solver.
Qed.

(** A failed attempt writes nothing to the graph. *)
Lemma follow_effect_failed a b st st' :
  follow_effect a b st st' false ->
  neo4j_follows st' = neo4j_follows st /\
  (pg_follows st' = pg_follows st \/ pg_follows st' = pg_follows st ++ [(a, b)]).
Proof. inversion 1; subst; cbn; auto. Qed.

(** The stores only grow, and the users are left alone. *)
Lemma follow_effect_grows a b st st' ok :
  follow_effect a b st st' ok ->
  pg_users st' = pg_users st /\ neo4j_users st' = neo4j_users st /\
  (forall e, e ∈ pg_follows st -> e ∈ pg_follows st') /\
  (forall e, e ∈ neo4j_follows st -> e ∈ neo4j_follows st').
Proof.
  inversion 1; subst; cbn; repeat split; try done; set_solver.
Qed.

Lemma follow_effect_no_self a b st st' ok :
  a <> b -> follow_effect a b st st' ok ->
  no_self_follow st -> no_self_follow st'.
Proof.
  intros Hne Heff [Hpg Hneo].
  inversion Heff; subst; split; cbn; intros x y Hin; try (by auto).
  - apply elem_of_app in Hin as [Hin | Hin]; [by auto|].
    apply list_elem_of_singleton in Hin. congruence.
  - apply elem_of_union in Hin as [Hin | Hin]; [|by auto].
    apply elem_of_singleton in Hin. congruence.
  - apply elem_of_app in Hin as [Hin | Hin]; [by auto|].
    apply list_elem_of_singleton in Hin. congruence.
  - apply elem_of_union in Hin as [Hin | Hin]; [|by auto].
    apply elem_of_singleton in Hin. congruence.
Qed.

Lemma create_follow_no_self f a b st :
  no_self_follow st -> no_self_follow (fst (_create_follow f a b st)).
Proof.
  intros H. destruct (create_follow_effect f a b st) as [[_ ->] | [Hne Heff]];
    [exact H | by eapply follow_effect_no_self].
Qed.

Lemma create_follow_counted_distinct f a b st :
  snd (_create_follow f a b st) = true -> a <> b.
Proof.
  intros H. destruct (create_follow_effect f a b st) as [[_ Heq] | [Hne _]];
    [by rewrite Heq in H | done].
Qed.

Lemma create_follow_grows f a b st :
  (forall e, e ∈ pg_follows st -> e ∈ pg_follows (fst (_create_follow f a b st))) /\
  (forall e, e ∈ neo4j_follows st ->
             e ∈ neo4j_follows (fst (_create_follow f a b st))).
Proof.
  destruct (create_follow_effect f a b st) as [[_ ->] | [_ Heff]]; [done|].
  apply follow_effect_grows in Heff. tauto.
Qed.

(** ** A sub-batch *)

Lemma gather_fst_snd fault_of follower_id followed_id rest st :
  gather fault_of ((follower_id, followed_id) :: rest) st =
  (fst (gather fault_of rest
          (fst (_create_follow (fault_of follower_id followed_id)
                  follower_id followed_id st))),
   snd (_create_follow (fault_of follower_id followed_id)
          follower_id followed_id st)
   :: snd (gather fault_of rest
             (fst (_create_follow (fault_of follower_id followed_id)
                     follower_id followed_id st)))).
Proof.
  cbn [gather].
  destruct (_create_follow _ follower_id followed_id st) as [st1 r].
  cbn [fst snd]. by destruct (gather fault_of rest st1).
Qed.

Lemma gather_no_self fault_of sub_batch st :
  no_self_follow st -> no_self_follow (fst (gather fault_of sub_batch st)).
Proof.
  revert st. induction sub_batch as [|[a b] rest IH]; intros st H; [exact H|].
  rewrite gather_fst_snd. cbn [fst]. by apply IH, create_follow_no_self.
Qed.

Lemma gather_grows fault_of sub_batch st :
  (forall e, e ∈ pg_follows st ->
             e ∈ pg_follows (fst (gather fault_of sub_batch st))) /\
  (forall e, e ∈ neo4j_follows st ->
             e ∈ neo4j_follows (fst (gather fault_of sub_batch st))).
Proof.
  revert st. induction sub_batch as [|[a b] rest IH]; intros st; [done|].
  rewrite gather_fst_snd. cbn [fst].
  destruct (create_follow_grows (fault_of a b) a b st) as [H1 H2].
  destruct (IH (fst (_create_follow (fault_of a b) a b st))) as [H3 H4].
  split; auto.
Qed.

(** Every attempt of a sub-batch that reports success is an edge between
    two different users, held by both stores when the sub-batch is done. *)
Lemma gather_counted fault_of sub_batch st i a b :
  sub_batch !! i = Some (a, b) ->
  snd (gather fault_of sub_batch st) !! i = Some true ->
  a <> b /\ committed a b (fst (gather fault_of sub_batch st)).
Proof.
  revert st i. induction sub_batch as [|[x y] rest IH]; intros st i Hi Hr;
    [done|].
  rewrite gather_fst_snd in *. cbn [fst snd] in *.
  destruct i as [|i]; cbn in Hi, Hr.
  - injection Hi as -> ->. injection Hr as Hr.
    split; [by eapply create_follow_counted_distinct|].
    destruct (create_follow_effect (fault_of a b) a b st)
      as [[_ Heq] | [_ Heff]]; [by rewrite Heq in Hr|].
    rewrite Hr in Heff. apply follow_effect_committed in Heff as [H1 H2].
    destruct (gather_grows fault_of rest
                (fst (_create_follow (fault_of a b) a b st))) as [G1 G2].
    split; auto.
  - by eapply IH.
Qed.

Lemma gather_length fault_of sub_batch st :
  length (snd (gather fault_of sub_batch st)) = length sub_batch.
Proof.
  revert st. induction sub_batch as [|[a b] rest IH]; intros st; [done|].
  rewrite gather_fst_snd. cbn [snd length]. by rewrite IH.
Qed.

Lemma success_count_bounds results :
  (0 <= success_count results <= Z.of_nat (length results))%Z.
Proof.
  unfold success_count. pose proof (List.filter_length_le (fun r => r) results).
  lia.
Qed.

(** ** Batches *)

Lemma run_sub_batches_no_self fault_of sub_batches st total :
  no_self_follow st ->
  no_self_follow (fst (run_sub_batches fault_of sub_batches st total)).
Proof.
  revert st total.
  induction sub_batches as [|sb rest IH]; intros st total H; [exact H|].
  cbn [run_sub_batches].
  pose proof (gather_no_self fault_of sb st H) as H1.
  destruct (gather fault_of sb st) as [st1 results]. by apply IH.
Qed.

Lemma run_batches_no_self fault_of ids max_follows batches st r total :
  no_self_follow st ->
  no_self_follow
    (fst (fst (fst (run_batches fault_of ids max_follows batches st r total)))).
Proof.
  revert st r total.
  induction batches as [|batch rest IH]; intros st r total H; [exact H|].
  cbn [run_batches].
  destruct (batch_follows_of ids max_follows batch r) as [[edges|e] r1];
    [|exact H].
  pose proof (run_sub_batches_no_self fault_of (slices 100 edges) st total H)
    as H1.
  destruct (run_sub_batches fault_of (slices 100 edges) st total) as [st1 t1].
  by apply IH.
Qed.

Lemma generate_follows_no_self fault_of max_follows g :
  no_self_follow (db g) ->
  no_self_follow (db (fst (generate_follows fault_of max_follows g))).
Proof.
  intros H. unfold generate_follows.
  destruct (length (user_ids g) <? 2)%nat; [exact H|].
  pose proof (run_batches_no_self fault_of (user_ids g) max_follows
                (slices 1000 (user_ids g)) (db g) (random g) 0%Z H) as H1.
  destruct (run_batches fault_of (user_ids g) max_follows
              (slices 1000 (user_ids g)) (db g) (random g) 0%Z)
    as [[[st r] total] raised].
  exact H1.
Qed.

(** ** Sampling *)

Lemma potential_follows_excludes_self ids u x :
  In x (potential_follows ids u) -> x <> u /\ In x ids.
Proof.
  unfold potential_follows. intros H. apply filter_In in H as [Hin Hne].
  split; [|exact Hin]. apply negb_true_iff, Z.eqb_neq in Hne. exact Hne.
Qed.

Lemma sample_subset {A} (population : list A) k r x :
  In x (fst (sample population k r)) -> In x population.
Proof.
  revert population r. induction k as [|k IH]; intros population r; cbn [sample].
  - intros [].
  - destruct (draw r) as [n r'].
    destruct (population !! (n mod length population)%nat) as [a|] eqn:E;
      [|intros []].
    pose proof (IH (delete (n mod length population)%nat population) r') as IH'.
    destruct (sample (delete (n mod length population)%nat population) k r')
      as [rest r''].
    cbn [fst] in *. intros [<- | Hin].
    + apply list_elem_of_In. by eapply list_elem_of_lookup_2.
    + apply IH' in Hin. apply list_elem_of_In in Hin. apply list_elem_of_In.
      by eapply list_elem_of_delete_inv.
Qed.

(** Every pair a user queues starts at that user and ends elsewhere. *)
Lemma follows_of_user_distinct ids max_follows u r edges r' :
  follows_of_user ids max_follows u r = (Ok edges, r') ->
  forall a b, In (a, b) edges -> a = u /\ b <> u /\ In b ids.
Proof.
  unfold follows_of_user.
  destruct (randint 1 (Z.min max_follows (Z.of_nat (length ids) - 1)) r)
    as [[num|e] r1]; [|discriminate].
  set (pool0 := potential_follows ids u).
  assert (Hpool : forall x (p : list Z * rng),
            p = (if (100 <? length pool0)%nat then sample pool0 100 r1
                 else (pool0, r1)) ->
            In x (fst p) -> x <> u /\ In x ids).
  { intros x p -> Hin. apply (potential_follows_excludes_self ids u x).
    destruct (100 <? length pool0)%nat; [by eapply sample_subset | exact Hin]. }
  destruct (if (100 <? length pool0)%nat then sample pool0 100 r1
            else (pool0, r1)) as [pool r2] eqn:Epool.
  specialize (fun x => Hpool x (pool, r2) eq_refl). cbn [fst] in Hpool.
  destruct pool as [|p0 pool']; [intros [= <- _] a b []|].
  destruct (0 <? num)%Z; [|intros [= <- _] a b []].
  pose proof (fun x => sample_subset (p0 :: pool')
                (Nat.min (Z.to_nat num) (length (p0 :: pool'))) r2 x) as Hs.
  destruct (sample (p0 :: pool')
              (Nat.min (Z.to_nat num) (length (p0 :: pool'))) r2)
    as [follows r3].
  cbn [fst] in Hs. intros [= <- _] a b Hin.
  apply in_map_iff in Hin as (x & [= <- <-] & Hx).
  split; [reflexivity|]. apply Hpool, Hs, Hx.
Qed.

Lemma create_follow_faults f a b st :
  (pg_read_fails f = true -> _create_follow f a b st = (st, false)) /\
  (pg_commit_fails f = true -> (a, b) ∉ pg_follows st ->
     _create_follow f a b st = (st, false)) /\
  (neo4j_fails f = true -> snd (_create_follow f a b st) = false).
Proof.
  unfold _create_follow, follow_user, follow_user_pg, follow_user_neo4j.
  destruct (a =? b)%Z; [done|].
  split; [by intros ->|]. split.
  - intros -> Hnin. rewrite (bool_decide_eq_false_2 _ Hnin).
    destruct (pg_read_fails f); [done|].
    destruct (bool_decide (a ∈ pg_users st)); [|done].
    by destruct (bool_decide (b ∈ pg_users st)).
  - intros ->.
    destruct (pg_read_fails f); [done|].
    destruct (bool_decide (a ∈ pg_users st)); [|done].
    destruct (bool_decide (b ∈ pg_users st)); [|done].
    destruct (bool_decide ((a, b) ∈ pg_follows st)); [done|].
    by destruct (pg_commit_fails f).
Qed.

(** Claim C3, as the code has it.  An attempt that reports success leaves
    the edge in both stores.  An attempt that reports failure leaves the
    graph as it was, and the relational table either as it was or with the
    new row.  A failing relational read, or a failing commit of a new row,
    reports failure and leaves both stores as they were; a failing graph
    call reports failure.  In a sub-batch every attempt that reports success
    is an edge held by both stores at the end, and the count of successes is
    at most the number of attempts. *)
Theorem C3_follow_counted_only_when_in_both_stores :
  (forall (f : faults) (a b : Z) (st : stores),
     let st' := fst (_create_follow f a b st) in
     let ok := snd (_create_follow f a b st) in
     (ok = true -> committed a b st') /\
     (ok = false ->
        neo4j_follows st' = neo4j_follows st /\
        (pg_follows st' = pg_follows st \/
         pg_follows st' = pg_follows st ++ [(a, b)])) /\
     (pg_read_fails f = true -> ok = false /\ st' = st) /\
     (pg_commit_fails f = true -> (a, b) ∉ pg_follows st ->
        ok = false /\ st' = st) /\
     (neo4j_fails f = true -> ok = false)) /\
  (forall (fault_of : Z -> Z -> faults) (sub_batch : list (Z * Z))
          (st : stores) (i : nat) (a b : Z),
     sub_batch !! i = Some (a, b) ->
     snd (gather fault_of sub_batch st) !! i = Some true ->
     committed a b (fst (gather fault_of sub_batch st))) /\
  (forall (fault_of : Z -> Z -> faults) (sub_batch : list (Z * Z))
          (st : stores),
     (success_count (snd (gather fault_of sub_batch st))
      <= Z.of_nat (length sub_batch))%Z).
Proof.
  split; [|split].
  - intros f a b st st' ok. subst st' ok.
    destruct (create_follow_faults f a b st) as (Hread & Hcommit & Hneo).
    split; [|split; [|split; [|split]]].
    + intros Hok.
      destruct (create_follow_effect f a b st) as [[_ Heq] | [_ Heff]];
        [by rewrite Heq in Hok|].
      rewrite Hok in Heff. exact (follow_effect_committed _ _ _ _ Heff).
    + intros Hok.
      destruct (create_follow_effect f a b st) as [[_ Heq] | [_ Heff]];
        [rewrite Heq; cbn; auto|].
      rewrite Hok in Heff. exact (follow_effect_failed _ _ _ _ Heff).
    + intros H. by rewrite (Hread H).
    + intros H Hnin. by rewrite (Hcommit H Hnin).
    + exact Hneo.
  - intros fault_of sub_batch st i a b Hi Hr.
    by destruct (gather_counted fault_of sub_batch st i a b Hi Hr).
  - intros fault_of sub_batch st.
    rewrite <- (gather_length fault_of sub_batch st).
    apply success_count_bounds.
Qed.

(** C3 as stated fails: with the graph down the attempt reports failure,
    yet the row committed before stays in the relational store. *)
Lemma C3_relational_row_survives_graph_failure :
  snd (_create_follow graph_down 1 2 two_users) = false /\
  ((1, 2)%Z ∈ pg_follows (fst (_create_follow graph_down 1 2 two_users))) /\
  ((1, 2)%Z ∉ neo4j_follows (fst (_create_follow graph_down 1 2 two_users))) /\
  ~ committed 1 2 (fst (_create_follow graph_down 1 2 two_users)) /\
  fst (_create_follow graph_down 1 2 two_users) <> two_users.
Proof.
  assert (Hrun : _create_follow graph_down 1 2 two_users =
                 (mkStores {[ 1; 2 ]}%Z [(1, 2)%Z] {[ 1; 2 ]}%Z ∅, false)).
  { vm_compute. reflexivity. }
  rewrite Hrun. cbn [fst snd pg_follows neo4j_follows].
  split; [reflexivity|]. split; [set_solver|]. split; [set_solver|].
  split.
  - intros [_ H]. cbn in H. set_solver.
  - intros H. apply (f_equal pg_follows) in H. discriminate H.
Qed.

(** Claim C8.  Starting from stores without self-follow, generation leaves
    stores without self-follow, whatever the failures and the random draws.
    The pool of candidates of a user excludes that user; every pair a user
    queues starts at that user and ends at another one; an attempt with
    equal identifiers reports failure and writes to neither store; an
    attempt that reports success joins two different identifiers. *)
Theorem C8_no_self_follow (fault_of : Z -> Z -> faults)
    (max_follows_per_user : Z) (g : DataGenerator) :
  no_self_follow (db g) ->
  no_self_follow (db (fst (generate_follows fault_of max_follows_per_user g))) /\
  (forall u x, In x (potential_follows (user_ids g) u) -> x <> u) /\
  (forall u r edges r',
     follows_of_user (user_ids g) max_follows_per_user u r = (Ok edges, r') ->
     forall a b, In (a, b) edges -> a = u /\ b <> u) /\
  (forall f u st, _create_follow f u u st = (st, false)) /\
  (forall f a b st, snd (_create_follow f a b st) = true -> a <> b).
Proof.
  intros H.
  split; [by apply generate_follows_no_self|].
  split; [intros u x Hin; by apply (potential_follows_excludes_self _ _ _ Hin)|].
  split.
  - intros u r edges r' Hrun a b Hin.
    destruct (follows_of_user_distinct _ _ _ _ _ _ Hrun a b Hin) as (? & ? & _).
    done.
  - split; [apply create_follow_self | apply create_follow_counted_distinct].
Qed.

(** C8 on three users who follow nobody yet. *)
Lemma C8_witness :
  no_self_follow (db (fst (generate_follows (fun _ _ => no_faults) 2 three_users))) /\
  (forall u x, In x (potential_follows (user_ids three_users) u) -> x <> u) /\
  (forall u r edges r',
     follows_of_user (user_ids three_users) 2 u r = (Ok edges, r') ->
     forall a b, In (a, b) edges -> a = u /\ b <> u) /\
  (forall f u st, _create_follow f u u st = (st, false)) /\
  (forall f a b st, snd (_create_follow f a b st) = true -> a <> b).
Proof.
  apply (C8_no_self_follow (fun _ _ => no_faults) 2 three_users).
  split; cbn; intros a b Hin.
  - by apply elem_of_nil in Hin.
  - by apply elem_of_empty in Hin.
Defined.

(** The run of the witness does create edges. *)
Lemma three_users_generate_five_follows :
  snd (generate_follows (fun _ _ => no_faults) 2 three_users) = Ok 5%Z /\
  pg_follows (db (fst (generate_follows (fun _ _ => no_faults) 2 three_users)))
  = [(1, 3); (1, 2); (2, 3); (2, 1); (3, 1)]%Z.
Proof. split; vm_compute; reflexivity. Qed.

End FollowEdges.

Section Virality.
Import Comparative.
Local Open Scope Q_scope.

(** ** Product virality *)


(** For a positive price both implementations return the quotient. *)
Lemma viral_score_for_positive_price (product_id : Z) (p : product) (n : Z) :
  0 < price p ->
  exists v1 v2,
    pg_get_product_virality product_id (Some (p, n)) = Ok v1 /\
    neo4j_get_product_virality product_id (Some (p, n)) = Ok v2 /\
    viral_score v1 == spec_viral_score n (price p) /\
    viral_score v2 == spec_viral_score n (price p).
Proof.
  intros Hpos. unfold pg_get_product_virality, neo4j_get_product_virality,
    sql_div, spec_viral_score.
  assert (Hl : Py.ltb 0 (price p) = true) by (by apply ltb_true).
  rewrite Hl.
  destruct (Qeq_bool (price p) 0) eqn:E.
  { apply Qeq_bool_iff in E. lra. }
  cbn [rbind]. eexists _, _. split; [reflexivity|]. split; [reflexivity|].
  cbn [viral_score]. split; field; lra.
Qed.

(** Claim C9, evaluated where the code departs from it.  For a product of
    price 0 with one buyer counted, the relational implementation raises on
    the division, while the graph implementation returns the score 0, the
    value the formula of the specification gives. *)
Theorem C9_free_product_scores_differ :
  price free_product == 0 /\
  pg_get_product_virality 7 (Some (free_product, 1%Z)) = Raise BackendError /\
  (exists v,
     neo4j_get_product_virality 7 (Some (free_product, 1%Z)) = Ok v /\
     viral_score v == 0) /\
  spec_viral_score 1 (price free_product) == 0.
Proof.
  split; [reflexivity|]. split; [reflexivity|].
  split; [eexists; split; reflexivity | reflexivity].
Qed.

End Virality.

(** * Further properties of the benchmark runner *)

Section RunsByType.
Import Conduct.
Variable w : world.

(** ** The beginning of a run *)

(** The first steps of a run of a known type other than "all": the counters
    are reset, the total is set and the start is announced. *)
Lemma run_prefix {A} (t : Z) (cb : bool) (rest : M A)
    (K : A -> DatabaseBenchmark -> Prop) E :
  (forall b, stage 0 t [] b -> wpe rest K E b) ->
  wpe (set_steps 0 0 >> set_total t >> notify "Starting benchmarks" >> rest)
      K E (init cb).
Proof.
  intros HK.
  apply wpe_bind, wpe_modify. apply wpe_bind. unfold wpe at 1.
  cbn [set_total set_steps modify].
  apply wpe_bind, wpe_notify. apply HK. apply stage_notify.
  split; [reflexivity|]. split; [reflexivity|]. split; [constructor|].
  split; apply dom_empty_L.
Qed.

Lemma wpe_skip {A} (rest : M A) (K : A -> DatabaseBenchmark -> Prop) E b :
  wpe rest K E b -> wpe (ret tt >> rest) K E b.
Proof. intros H. apply wpe_bind, wpe_ret, H. Qed.

(** The end of a run whose operations are all recorded for both
    backends. *)
Lemma run_suffix n t ops b :
  stage n t ops b ->
  wpe (notify_done "All benchmarks completed, generating summary" >>
       _print_benchmark_summary >>
       (fun b : DatabaseBenchmark =>
          (b, Ok (results_postgresql b, results_neo4j b))))
      (fun res b' => stage n t ops b' /\
                     res = (results_postgresql b', results_neo4j b'))
      never b.
Proof.
  intros Hst.
  apply wpe_bind, wpe_notify_done.
  apply (stage_notify_done _ _ _ _
           "All benchmarks completed, generating summary") in Hst.
  forget_state Hst.
  apply wpe_bind, print_summary_safe.
  - destruct Hst as (_ & _ & _ & -> & ->). reflexivity.
  - intros _. split; [exact Hst | reflexivity].
Qed.

(** ** A run of one operation with error handling *)


(** ** A run without samples *)

(** With no user or no product fetched the run returns at once, for every
    test type. *)
Lemma run_without_samples (test_type : string) (max_level : Z)
    (product_id user_id : option string) (iterations : Z)
    (users products : list Z) (cb : bool) :
  users = [] \/ products = [] ->
  exists b',
    run_benchmark w test_type max_level product_id user_id iterations
      users products (init cb) = (b', Ok (∅, ∅)) /\
    current_step b' = 0%Z /\
    results_postgresql b' = ∅ /\ results_neo4j b' = ∅ /\
    data_errors b' = ∅.
Proof.
  intros Hempty. unfold run_benchmark.
  destruct (String.eqb test_type "all");
    [destruct (3 <? max_level)%Z|
     destruct (String.eqb test_type "basic");
       [|destruct (existsb (String.eqb test_type) _)]];
    destruct cb;
    (destruct Hempty as [-> | ->]; [|destruct users]);
    eexists; (split; [vm_compute; reflexivity|]); repeat split.
Qed.

(** ** The baseline operations *)

(** A loop without error handling leaves the object alone; it returns the
    times when every call returns, and raises with the first call that
    raises. *)
Lemma plain_loop_step be op i rest acc b :
  for_each (i :: rest)
    (fun i ts => let* t := lift (await (w be op i)) in ret (ts ++ [t]))
    acc b
  = match w be op i with
    | Returns t =>
        for_each rest
          (fun i ts => let* t := lift (await (w be op i)) in ret (ts ++ [t]))
          (acc ++ [t]) b
    | Fails => (b, Raise BackendError)
    end.
Proof.
  cbn [for_each]. unfold bind, lift, ret. by destruct (w be op i).
Qed.

Lemma plain_loop_from_cases be op ixs acc b :
  (for_each ixs
     (fun i ts => let* t := lift (await (w be op i)) in ret (ts ++ [t]))
     acc b
   = (b, Ok (acc ++ List.map (fun i => time_of (w be op i)) ixs)) /\
   forall i, In i ixs -> exists t, w be op i = Returns t) \/
  (for_each ixs
     (fun i ts => let* t := lift (await (w be op i)) in ret (ts ++ [t]))
     acc b
   = (b, Raise BackendError) /\
   exists i, In i ixs /\ w be op i = Fails).
Proof.
  revert acc. induction ixs as [|i rest IH]; intros acc.
  - left. cbn. split; [unfold ret; by rewrite app_nil_r | intros i []].
  - rewrite plain_loop_step. cbn [List.map].
    destruct (w be op i) as [t|] eqn:Hi.
    + cbn [time_of]. destruct (IH (acc ++ [t])) as [[Hrun Hall] | [Hrun Hex]].
      * left. rewrite Hrun. split; [by rewrite <- app_assoc|].
        intros j [<- | Hj]; [eauto | auto].
      * right. rewrite Hrun. split; [done|].
        destruct Hex as (j & Hj & Hf). exists j. split; [by right | done].
    + right. split; [done|]. exists i. split; [by left | done].
Qed.

Lemma in_range (i : nat) (n : Z) :
  In i (Py.range n) <-> (i < Z.to_nat n)%nat.
Proof. unfold Py.range. rewrite in_seq. lia. Qed.

Lemma plain_loop_cases be op iterations b :
  (plain_loop w be op iterations b
   = (b, Ok (List.map (fun i => time_of (w be op i)) (Py.range iterations))) /\
   forall i, (i < Z.to_nat iterations)%nat -> exists t, w be op i = Returns t) \/
  (plain_loop w be op iterations b = (b, Raise BackendError) /\
   exists i, (i < Z.to_nat iterations)%nat /\ w be op i = Fails).
Proof.
  unfold plain_loop.
  destruct (plain_loop_from_cases be op (Py.range iterations) [] b)
    as [[Hrun Hall] | [Hrun (i & Hi & Hf)]].
  - left. split; [exact Hrun|]. intros i Hi. by apply Hall, in_range.
  - right. split; [exact Hrun|]. exists i. split; [by apply in_range | done].
Qed.

(** With at least one iteration a baseline operation either records its
    entries, every call having returned, or raises [BackendError] and
    records nothing. *)
Lemma benchmark_plain_cases op iterations b :
  (1 <= iterations)%Z ->
  wpe (benchmark_plain w op iterations)
      (fun _ b' =>
         records op b b' /\
         forall be i, (i < Z.to_nat iterations)%nat ->
                      exists t, w be op i = Returns t)
      (fun e b' =>
         b' = b /\ e = BackendError /\
         exists be i, (i < Z.to_nat iterations)%nat /\ w be op i = Fails)
      b.
Proof.
  intros Hit. unfold benchmark_plain.
  pose proof (tracks_start b) as H.
  apply wpe_bind. unfold wpe at 1.
  destruct (plain_loop_cases PostgreSQL op iterations b)
    as [[-> Hpg] | [-> (i & Hi & Hf)]]; [|eauto 6].
  apply wpe_bind. unfold wpe at 1.
  destruct (plain_loop_cases Neo4j op iterations b)
    as [[-> Hneo] | [-> (i & Hi & Hf)]]; [|eauto 6].
  destruct (range_nonempty iterations Hit) as (i & rest & ->).
  cbn [List.map].
  apply wpe_bind.
  match goal with |- context [summary (?x :: ?xs) None None] =>
    destruct (summary_nonempty x xs None None) as [s1 ->] end.
  apply wpe_lift_ok, wpe_bind, wpe_modify.
  apply (tracks_store_pg _ _ _ _ op s1) in H.
  apply wpe_bind.
  match goal with |- context [summary (?x :: ?xs) None None] =>
    destruct (summary_nonempty x xs None None) as [s2 ->] end.
  apply wpe_lift_ok, wpe_modify.
  apply (tracks_store_neo4j _ _ _ _ op s2) in H.
  split; [by exists s1, s2|]. intros [] j Hj; auto.
Qed.

(** With no iteration a baseline operation raises [StatisticsError]: the
    mean of no data. *)
Lemma benchmark_plain_no_iteration op iterations b :
  (iterations <= 0)%Z ->
  benchmark_plain w op iterations b = (b, Raise StatisticsError).
Proof.
  intros Hit. unfold benchmark_plain, plain_loop.
  rewrite (range_nonpos _ Hit). reflexivity.
Qed.

(** The first steps of a run of type "all". *)
Lemma run_prefix_all {A} (c : bool) (msg : string) (cb : bool) (rest : M A)
    (K : A -> DatabaseBenchmark -> Prop) E :
  (forall b, stage 0 6 [] b -> wpe rest K E b) ->
  wpe (set_steps 0 0 >> (set_total 6 >> when c (warning msg)) >>
       notify "Starting benchmarks" >> rest)
      K E (init cb).
Proof.
  intros HK.
  apply wpe_bind, wpe_modify. apply wpe_bind, wpe_bind. unfold wpe at 1.
  cbn [set_total set_steps modify].
  assert (Hst : stage 0 6 []
            (fst (set_total 6 (fst (set_steps 0 0 (init cb)))))).
  { split; [reflexivity|]. split; [reflexivity|]. split; [constructor|].
    split; apply dom_empty_L. }
  cbn [set_total set_steps modify fst] in Hst.
  forget_state Hst.
  assert (Hw : stage 0 6 [] (fst (when c (warning msg) b))).
  { destruct c; [|exact Hst]. destruct Hst as (?&?&?&?&?). by repeat split. }
  assert (Hrun : when c (warning msg) b
                 = (fst (when c (warning msg) b), Ok tt)) by (by destruct c).
  unfold wpe at 1. rewrite Hrun.
  apply wpe_bind, wpe_notify. apply HK. by apply stage_notify.
Qed.

(** One announced operation that may raise: where it raises, the
    operations recorded are those recorded before. *)
Lemma wpe_operation_cases (c : M unit) op msg n t ops
    (P : Prop) (F : exn -> Prop)
    (Q : unit -> DatabaseBenchmark -> Prop) E b :
  (forall b1, wpe c (fun _ b' => records op b1 b' /\ P)
                    (fun e b' => b' = b1 /\ F e) b1) ->
  stage n t ops b ->
  (forall b', stage (n + 1) t (op :: ops) b' -> P -> Q tt b') ->
  (forall e b', stage (n + 1) t ops b' -> F e -> E e b') ->
  wpe (next_step >> notify msg >> c) Q E b.
Proof.
  intros Hc Hst HQ HE.
  apply wpe_bind. unfold wpe at 1. cbn [next_step set_steps modify].
  apply wpe_bind, wpe_modify.
  apply stage_next_step, (stage_notify _ _ _ _ msg) in Hst.
  eapply wpe_mono; [apply Hc | |].
  - intros [] b' [Hrec HP]. apply HQ; [|exact HP].
    eapply stage_records; eassumption.
  - intros e b' [-> HF]. by apply HE.
Qed.

Lemma stage_results_empty n t b :
  stage n t [] b -> results_postgresql b = ∅ /\ results_neo4j b = ∅.
Proof.
  intros (_ & _ & _ & Hp & Hn). cbn in Hp, Hn.
  split; by apply dom_empty_inv_L.
Qed.

(** ** Runs of the types "all" and "basic" *)

(** Every call of the baseline operations returns during the iterations
    of the run. *)
Lemma baseline_cases (iterations : Z) :
  baseline_call_fails w iterations \/
  (forall be op i, In op baseline_operations ->
     (i < Z.to_nat iterations)%nat -> exists t, w be op i = Returns t).
Proof.
  unfold baseline_call_fails, baseline_operations.
  assert (Hop : forall op,
            (exists be i, (i < Z.to_nat iterations)%nat /\ w be op i = Fails) \/
            (forall be i, (i < Z.to_nat iterations)%nat ->
                          exists t, w be op i = Returns t)).
  { intros op.
    destruct (plain_loop_cases PostgreSQL op iterations (init false))
      as [[_ Hpg] | [_ (i & Hi & Hf)]]; [|eauto].
    destruct (plain_loop_cases Neo4j op iterations (init false))
      as [[_ Hneo] | [_ (i & Hi & Hf)]]; [|eauto].
    right. intros []; auto. }
  destruct (Hop "user_retrieval") as [(be & i & Hi & Hf) | H1];
    [left; exists be, "user_retrieval", i; cbn; tauto|].
  destruct (Hop "product_retrieval") as [(be & i & Hi & Hf) | H2];
    [left; exists be, "product_retrieval", i; cbn; tauto|].
  destruct (Hop "user_follows") as [(be & i & Hi & Hf) | H3];
    [left; exists be, "user_follows", i; cbn; tauto|].
  destruct (Hop "product_purchases") as [(be & i & Hi & Hf) | H4];
    [left; exists be, "product_purchases", i; cbn; tauto|].
  right. intros be op i [<- | [<- | [<- | [<- | []]]]]; auto.
Qed.

(** The four baseline operations in turn: all four are recorded, every
    call having returned, or the first failing call stops them with
    [BackendError]. *)
Lemma baseline_block (iterations : Z) (t : Z) (b : DatabaseBenchmark)
    (Q : unit -> DatabaseBenchmark -> Prop) E :
  (1 <= iterations)%Z ->
  stage 0 t [] b ->
  (forall b',
     stage 4 t ["product_purchases"; "user_follows"; "product_retrieval";
                "user_retrieval"] b' ->
     (forall be op i, In op baseline_operations ->
        (i < Z.to_nat iterations)%nat -> exists t, w be op i = Returns t) ->
     Q tt b') ->
  (forall b', baseline_call_fails w iterations -> E BackendError b') ->
  wpe (next_step >>
       notify "Running user retrieval benchmark" >>
       _benchmark_user_retrieval w iterations >>
       next_step >>
       notify "Running product retrieval benchmark" >>
       _benchmark_product_retrieval w iterations >>
       next_step >>
       notify "Running user follows benchmark" >>
       _benchmark_user_follows w iterations >>
       next_step >>
       notify "Running product purchases benchmark" >>
       _benchmark_product_purchases w iterations)
      Q E b.
Proof.
  intros Hit Hst HQ HE.
  assert (Hfail : forall op e b',
            In op baseline_operations ->
            e = BackendError /\
            (exists be i, (i < Z.to_nat iterations)%nat /\ w be op i = Fails) ->
            E e b').
  { intros op e b' Hop (-> & be & i & Hi & Hf). apply HE.
    by exists be, op, i. }
  apply wpe_bind with
    (c := next_step >> notify "Running user retrieval benchmark" >>
          _benchmark_user_retrieval w iterations).
  eapply wpe_operation_cases;
    [intros; by apply benchmark_plain_cases | exact Hst | |
     intros e b' _ HF; apply (Hfail "user_retrieval"); [cbn; tauto | exact HF]].
  clear Hst. intros b1 Hst H1.
  apply wpe_bind with
    (c := next_step >> notify "Running product retrieval benchmark" >>
          _benchmark_product_retrieval w iterations).
  eapply wpe_operation_cases;
    [intros; by apply benchmark_plain_cases | exact Hst | |
     intros e b' _ HF; apply (Hfail "product_retrieval"); [cbn; tauto | exact HF]].
  clear Hst. intros b2 Hst H2.
  apply wpe_bind with
    (c := next_step >> notify "Running user follows benchmark" >>
          _benchmark_user_follows w iterations).
  eapply wpe_operation_cases;
    [intros; by apply benchmark_plain_cases | exact Hst | |
     intros e b' _ HF; apply (Hfail "user_follows"); [cbn; tauto | exact HF]].
  clear Hst. intros b3 Hst H3.
  eapply wpe_operation_cases;
    [intros; by apply benchmark_plain_cases | exact Hst | |
     intros e b' _ HF; apply (Hfail "product_purchases"); [cbn; tauto | exact HF]].
  clear Hst. intros b4 Hst H4.
  apply HQ; [exact Hst|].
  intros be op i [<- | [<- | [<- | [<- | []]]]]; auto.
Qed.

(** A run of type "basic" with at least one iteration. *)
Lemma basic_run_cases (max_level : Z)
    (product_id user_id : option string) (iterations : Z)
    (u p : Z) (users products : list Z) (cb : bool) :
  (1 <= iterations)%Z ->
  wpe (run_benchmark w "basic" max_level product_id user_id iterations
         (u :: users) (p :: products))
      (fun res b' =>
         stage 4 4 ["product_purchases"; "user_follows"; "product_retrieval";
                    "user_retrieval"] b' /\
         res = (results_postgresql b', results_neo4j b') /\
         ~ baseline_call_fails w iterations)
      (fun e _ => e = BackendError /\ baseline_call_fails w iterations)
      (init cb).
Proof.
  intros Hit. unfold run_benchmark.
  cbn [String.eqb Ascii.eqb Bool.eqb is_all orb when existsb].
  apply run_prefix. intros b Hst.
  apply wpe_bind.
  eapply baseline_block; [exact Hit | exact Hst | | by intros].
  clear b Hst. intros b Hst Hall.
  repeat apply wpe_skip.
  eapply wpe_mono; [apply (run_suffix _ _ _ _ Hst) | | intros ? ? []].
  intros res b' [Hst' Hres]. split; [exact Hst'|]. split; [exact Hres|].
  intros (be & op & i & Hop & Hi & Hf).
  destruct (Hall be op i Hop Hi) as [t Ht]. congruence.
Qed.

(** A run of type "all" stops with [BackendError] when a call of a baseline
    operation raises. *)
Lemma all_run_baseline_failure (max_level : Z)
    (product_id user_id : option string) (iterations : Z)
    (u p : Z) (users products : list Z) (cb : bool) :
  baseline_call_fails w iterations ->
  snd (run_benchmark w "all" max_level product_id user_id iterations
         (u :: users) (p :: products) (init cb)) = Raise BackendError.
Proof.
  intros Hfail.
  assert (Hit : (1 <= iterations)%Z).
  { destruct Hfail as (_ & _ & i & _ & Hi & _). lia. }
  assert (Hgoal :
    wpe (run_benchmark w "all" max_level product_id user_id iterations
           (u :: users) (p :: products))
        never (fun e _ => e = BackendError) (init cb)).
  { unfold run_benchmark.
    cbn [String.eqb Ascii.eqb Bool.eqb is_all orb when existsb].
    apply run_prefix_all. intros b Hst.
    apply wpe_bind.
    eapply baseline_block; [exact Hit | exact Hst | | by intros].
    intros b' _ Hall. exfalso.
    destruct Hfail as (be & op & i & Hop & Hi & Hf).
    destruct (Hall be op i Hop Hi) as [t Ht]. congruence. }
  unfold wpe in Hgoal.
  destruct (run_benchmark w "all" max_level product_id user_id iterations
              (u :: users) (p :: products) (init cb)) as [b' [res|e]];
    [contradiction | by subst].
Qed.

(** With no iteration a run that starts with a baseline operation, or
    consists of the recommendation queries, raises [StatisticsError] in its
    first operation. *)
Lemma no_iteration_run (test_type : string) (max_level : Z)
    (product_id user_id : option string) (iterations : Z)
    (u p : Z) (users products : list Z) (cb : bool) :
  In test_type ["all"; "basic"; "recommendation_queries"] ->
  (iterations <= 0)%Z ->
  wpe (run_benchmark w test_type max_level product_id user_id iterations
         (u :: users) (p :: products))
      never
      (fun e b' => e = StatisticsError /\ current_step b' = 1%Z /\
                   results_postgresql b' = ∅ /\ results_neo4j b' = ∅)
      (init cb).
Proof.
  intros Hin Hit. cbn [In] in Hin.
  assert (Hop : forall op msg t b (rest : M unit)
            (K : unit -> DatabaseBenchmark -> Prop),
            stage 0 t [] b ->
            wpe (next_step >> notify msg >> benchmark_plain w op iterations >>
                 rest) K
                (fun e b' => e = StatisticsError /\ current_step b' = 1%Z /\
                   results_postgresql b' = ∅ /\ results_neo4j b' = ∅) b).
  { intros op msg t b rest K Hst.
    apply wpe_bind. unfold wpe at 1. cbn [next_step set_steps modify].
    apply wpe_bind, wpe_modify.
    apply stage_next_step, (stage_notify _ _ _ _ msg) in Hst.
    apply wpe_bind.
    match goal with |- wpe _ _ _ ?s =>
      assert (Hs : stage (0 + 1) t [] s) by exact Hst;
      clear Hst; set (b1 := s) in *; clearbody b1
    end.
    unfold wpe at 1.
    rewrite (benchmark_plain_no_iteration _ _ _ Hit).
    split; [reflexivity|]. split; [destruct Hs as [Hc _]; exact Hc|].
    by eapply stage_results_empty. }
  destruct Hin as [<- | [<- | [<- | []]]];
    unfold run_benchmark;
    cbn [String.eqb Ascii.eqb Bool.eqb is_all orb when existsb].
  - apply run_prefix_all. intros b Hst. apply wpe_bind.
    unfold _benchmark_user_retrieval. by eapply Hop.
  - apply run_prefix. intros b Hst. apply wpe_bind.
    unfold _benchmark_user_retrieval. by eapply Hop.
  - apply run_prefix. intros b Hst. repeat apply wpe_skip.
    apply wpe_bind. apply wpe_bind. unfold wpe at 1.
    cbn [next_step set_steps modify].
    apply wpe_bind, wpe_modify.
    apply stage_next_step,
      (stage_notify _ _ _ _ "Running recommendation queries benchmark") in Hst.
    match goal with |- wpe _ _ _ ?s =>
      assert (Hs : stage (0 + 1) 1 [] s) by exact Hst;
      clear Hst; set (b1 := s) in *; clearbody b1
    end.
    unfold wpe at 1. unfold _benchmark_recommendation_queries.
    rewrite (benchmark_plain_no_iteration _ _ _ Hit).
    split; [reflexivity|]. split; [destruct Hs as [Hc _]; exact Hc|].
    by eapply stage_results_empty.
Qed.

End RunsByType.

(** * The background task of a benchmark *)

Section TaskOutcome.
Import Registry Conduct.

(** ** The document during the run *)

Lemma documents_seen_last task cs d :
  List.last (documents_seen task cs) d = fold_left update_progress cs task.
Proof.
  revert task. induction cs as [|c rest IH]; intros task; [reflexivity|].
  cbn [documents_seen fold_left]. rewrite <- IH.
  destruct (documents_seen (update_progress task c) rest) eqn:E; [|reflexivity].
  by destruct rest.
Qed.

Lemma documents_seen_elem task cs doc :
  In doc (documents_seen task cs) ->
  exists cs', doc = fold_left update_progress cs' task /\
              exists rest, cs = cs' ++ rest.
Proof.
  revert task. induction cs as [|c rest IH]; intros task; cbn [documents_seen].
  - intros [<- | []]. exists []. split; [reflexivity | by exists []].
  - intros [<- | Hin].
    + exists []. split; [reflexivity | by exists (c :: rest)].
    + destruct (IH _ Hin) as (cs' & -> & rest' & ->).
      exists (c :: cs'). split; [reflexivity | by exists rest'].
Qed.

(** A progress call touches the four keys of the progress and no other. *)
Lemma update_progress_other task c k :
  k <> "current_step" -> k <> "total_steps" ->
  k <> "current_operation" -> k <> "message" ->
  update_progress task c !! k = task !! k.
Proof.
  intros. unfold update_progress. by rewrite !lookup_insert_ne.
Qed.

Lemma progress_calls_other task cs k :
  k <> "current_step" -> k <> "total_steps" ->
  k <> "current_operation" -> k <> "message" ->
  fold_left update_progress cs task !! k = task !! k.
Proof.
  intros. revert task. induction cs as [|c rest IH]; intros task; [reflexivity|].
  cbn [fold_left]. rewrite IH. by apply update_progress_other.
Qed.

(** The step counters of the document are those of the last progress
    call, or the initial 0 of 1. *)
Lemma progress_calls_steps task cs :
  task !! "current_step" = Some (VInt 0) ->
  task !! "total_steps" = Some (VInt 1) ->
  exists cur tot,
    fold_left update_progress cs task !! "current_step" = Some (VInt cur) /\
    fold_left update_progress cs task !! "total_steps" = Some (VInt tot) /\
    ((cur = 0%Z /\ tot = 1%Z) \/
     exists c, In c cs /\ cur = pc_current c /\ tot = pc_total c).
Proof.
  intros Hc Ht.
  assert (Hgen : forall cs task cur tot,
            task !! "current_step" = Some (VInt cur) ->
            task !! "total_steps" = Some (VInt tot) ->
            exists cur' tot',
              fold_left update_progress cs task !! "current_step"
                = Some (VInt cur') /\
              fold_left update_progress cs task !! "total_steps"
                = Some (VInt tot') /\
              ((cur' = cur /\ tot' = tot) \/
               exists c, In c cs /\ cur' = pc_current c /\ tot' = pc_total c)).
  { clear. induction cs as [|c rest IH]; intros task cur tot Hc Ht.
    - exists cur, tot. auto.
    - cbn [fold_left].
      destruct (IH (update_progress task c) (pc_current c) (pc_total c))
        as (cur' & tot' & H1 & H2 & H3).
      + unfold update_progress. by rewrite lookup_insert_eq.
      + unfold update_progress.
        rewrite lookup_insert_ne by done. by rewrite lookup_insert_eq.
      + exists cur', tot'. split; [exact H1|]. split; [exact H2|].
        right. destruct H3 as [[-> ->] | (c' & Hin & -> & ->)].
        * exists c. split; [by left | done].
        * exists c'. split; [by right | done]. }
  apply Hgen; assumption.
Qed.

(** ** The document when the task is done *)

Lemma task_settles (w : world)
    (benchmark_results : gmap string (gmap string value))
    (task_id : string) (start finish : Q)
    (test_type : string) (max_level : Z) (product_id user_id : option string)
    (iterations : Z) (users products : list Z) :
  exists doc,
    snd (_run_benchmark_task w benchmark_results task_id start finish
           test_type max_level product_id user_id iterations users products)
    = <[task_id := doc]> benchmark_results /\
    match snd (run_benchmark w test_type max_level product_id user_id
                 iterations users products (init true)) with
    | Ok (pg, neo) =>
        doc !! "status" = Some (VStr "completed") /\
        doc !! "results" = Some (VResults pg neo) /\
        doc !! "progress" = Some (VInt 100)
    | Raise _ =>
        doc !! "status" = Some (VStr "failed") /\
        doc !! "results" = None /\
        doc !! "progress" = Some (VInt 0)
    end.
Proof.
  unfold _run_benchmark_task.
  destruct (run_benchmark w test_type max_level product_id user_id
              iterations users products (init true)) as [b [[pg neo]|e]];
    cbn [snd]; eexists; (split; [reflexivity|]).
  - split; [by rewrite lookup_insert_eq|]. split; by simplify_map_eq.
  - split; [by rewrite lookup_insert_eq|]. split; [|by simplify_map_eq].
    rewrite !lookup_insert_ne by done.
    rewrite documents_seen_last, progress_calls_other by done.
    reflexivity.
Qed.

End TaskOutcome.

(** * Runs, type by type *)

Section RunTheorems.
Import Conduct Registry.



(** Property X2.  A run of type "basic" on non-empty samples with
    at least one iteration either raises [BackendError], when some call of
    the four baseline operations raises, or returns with the step counter
    equal to the total, 4 of 4, and the four baseline operations recorded
    for both backends. *)
Theorem basic_run_ends_at_four_of_four (w : world) (max_level : Z)
    (product_id user_id : option string) (iterations : Z)
    (users products : list Z) (cb : bool) :
  users <> [] -> products <> [] -> (1 <= iterations)%Z ->
  let run :=
    run_benchmark w "basic" max_level product_id user_id iterations
      users products (init cb) in
  (baseline_call_fails w iterations -> snd run = Raise BackendError) /\
  (~ baseline_call_fails w iterations ->
   exists pg neo,
     snd run = Ok (pg, neo) /\
     current_step (fst run) = 4%Z /\ total_steps (fst run) = 4%Z /\
     dom pg = list_to_set baseline_operations /\
     dom neo = list_to_set baseline_operations).
Proof.
  intros Hu Hp Hit. cbv zeta.
  destruct users as [|u users]; [done|].
  destruct products as [|p products]; [done|].
  pose proof (basic_run_cases w max_level product_id user_id iterations
                u p users products cb Hit) as H.
  unfold wpe in H.
  destruct (run_benchmark w "basic" max_level product_id user_id iterations
              (u :: users) (p :: products) (init cb)) as [b' [[pg neo]|e]];
    cbn [fst snd].
  - destruct H as ((Hc & Ht & _ & Hdp & Hdn) & [= -> ->] & Hno).
    split; [intros Hf; contradiction|]. intros _.
    exists (results_postgresql b'), (results_neo4j b').
    split; [reflexivity|]. split; [exact Hc|]. split; [exact Ht|].
    rewrite Hdp, Hdn. unfold baseline_operations. cbn [list_to_set].
    split; set_solver.
  - destruct H as [-> Hf]. split; [reflexivity | intros Hno; contradiction].
Qed.

(** X2 on one user, one product, two iterations and a steady
    world. *)
Lemma basic_run_ends_at_four_of_four_witness :
  let run :=
    run_benchmark steady "basic" 3 None None 2 [1%Z] [1%Z] (init true) in
  (baseline_call_fails steady 2 -> snd run = Raise BackendError) /\
  (~ baseline_call_fails steady 2 ->
   exists pg neo,
     snd run = Ok (pg, neo) /\
     current_step (fst run) = 4%Z /\ total_steps (fst run) = 4%Z /\
     dom pg = list_to_set baseline_operations /\
     dom neo = list_to_set baseline_operations).
Proof.
  apply (basic_run_ends_at_four_of_four steady 3 None None 2
           [1%Z] [1%Z] true).
  - discriminate.
  - discriminate.
  - lia.
Defined.

(** Property X3.  With zero or fewer iterations, a run of type
    "all", "basic" or "recommendation_queries" on non-empty samples raises
    [StatisticsError] in its first operation (the mean of no sample), at
    step 1 and with nothing recorded; the background task then stores the
    status "failed" with progress 0 and no results. *)
Theorem run_without_iterations_fails (w : world)
    (benchmark_results : gmap string (gmap string value))
    (task_id : string) (start finish : Q) (test_type : string)
    (max_level : Z) (product_id user_id : option string) (iterations : Z)
    (users products : list Z) (cb : bool) :
  In test_type ["all"; "basic"; "recommendation_queries"] ->
  (iterations <= 0)%Z -> users <> [] -> products <> [] ->
  let run :=
    run_benchmark w test_type max_level product_id user_id iterations
      users products (init cb) in
  snd run = Raise StatisticsError /\
  current_step (fst run) = 1%Z /\
  results_postgresql (fst run) = ∅ /\ results_neo4j (fst run) = ∅ /\
  exists doc,
    snd (_run_benchmark_task w benchmark_results task_id start finish
           test_type max_level product_id user_id iterations users products)
      !! task_id = Some doc /\
    doc !! "status" = Some (VStr "failed") /\
    doc !! "progress" = Some (VInt 0) /\
    doc !! "results" = None.
Proof.
  intros Hin Hit Hu Hp. cbv zeta.
  destruct users as [|u users]; [done|].
  destruct products as [|p products]; [done|].
  assert (Hrun : forall cb',
            exists b',
              run_benchmark w test_type max_level product_id user_id
                iterations (u :: users) (p :: products) (init cb')
              = (b', Raise StatisticsError) /\
              current_step b' = 1%Z /\
              results_postgresql b' = ∅ /\ results_neo4j b' = ∅).
  { intros cb'.
    pose proof (no_iteration_run w test_type max_level product_id user_id
                  iterations u p users products cb' Hin Hit) as H.
    unfold wpe in H.
    destruct (run_benchmark w test_type max_level product_id user_id
                iterations (u :: users) (p :: products) (init cb'))
      as [b' [res|e]]; [contradiction|].
    destruct H as (-> & H). by exists b'. }
  destruct (Hrun cb) as (b' & -> & Hc & Hpg & Hneo). cbn [fst snd].
  split; [reflexivity|]. split; [exact Hc|]. split; [exact Hpg|].
  split; [exact Hneo|].
  destruct (task_settles w benchmark_results task_id start finish test_type
              max_level product_id user_id iterations (u :: users)
              (p :: products)) as (doc & -> & Hdoc).
  destruct (Hrun true) as (b1 & E & _). rewrite E in Hdoc. cbn [snd] in Hdoc.
  exists doc. rewrite lookup_insert_eq. tauto.
Qed.

(** X3 at the type "all" with zero iterations. *)
Lemma run_without_iterations_fails_witness :
  let run :=
    run_benchmark steady "all" 3 None None 0 [1%Z] [1%Z] (init true) in
  snd run = Raise StatisticsError /\
  current_step (fst run) = 1%Z /\
  results_postgresql (fst run) = ∅ /\ results_neo4j (fst run) = ∅ /\
  exists doc,
    snd (_run_benchmark_task steady ∅ "benchmark_1" 0 10
           "all" 3 None None 0 [1%Z] [1%Z])
      !! "benchmark_1" = Some doc /\
    doc !! "status" = Some (VStr "failed") /\
    doc !! "progress" = Some (VInt 0) /\
    doc !! "results" = None.
Proof.
  apply (run_without_iterations_fails steady ∅ "benchmark_1" 0 10 "all" 3
           None None 0 [1%Z] [1%Z] true).
  - cbn. auto.
  - lia.
  - discriminate.
  - discriminate.
Defined.

(** Property X4.  When no user or no product is fetched, a run of
    any test type returns at once: no operation is run, nothing is
    recorded, the step counter stays at 0 and no exception is raised.
    The background task then stores the status "completed" with progress
    100 and empty results. *)
Theorem run_without_samples_completes_empty (w : world)
    (benchmark_results : gmap string (gmap string value))
    (task_id : string) (start finish : Q) (test_type : string)
    (max_level : Z) (product_id user_id : option string) (iterations : Z)
    (users products : list Z) (cb : bool) :
  users = [] \/ products = [] ->
  let run :=
    run_benchmark w test_type max_level product_id user_id iterations
      users products (init cb) in
  snd run = Ok (∅, ∅) /\
  current_step (fst run) = 0%Z /\
  results_postgresql (fst run) = ∅ /\ results_neo4j (fst run) = ∅ /\
  data_errors (fst run) = ∅ /\
  exists doc,
    snd (_run_benchmark_task w benchmark_results task_id start finish
           test_type max_level product_id user_id iterations users products)
      !! task_id = Some doc /\
    doc !! "status" = Some (VStr "completed") /\
    doc !! "progress" = Some (VInt 100) /\
    doc !! "results" = Some (VResults ∅ ∅).
Proof.
  intros Hempty. cbv zeta.
  destruct (run_without_samples w test_type max_level product_id user_id
              iterations users products cb Hempty)
    as (b' & -> & Hc & Hpg & Hneo & Herr).
  cbn [fst snd]. do 5 (split; [done|]).
  destruct (task_settles w benchmark_results task_id start finish test_type
              max_level product_id user_id iterations users products)
    as (doc & -> & Hdoc).
  destruct (run_without_samples w test_type max_level product_id user_id
              iterations users products true Hempty) as (b1 & E & _).
  rewrite E in Hdoc. cbn [snd] in Hdoc.
  exists doc. rewrite lookup_insert_eq. tauto.
Qed.

(** X4 at the type "all" with no user. *)
Lemma run_without_samples_completes_empty_witness :
  let run :=
    run_benchmark steady "all" 3 None None 5 [] [1%Z] (init true) in
  snd run = Ok (∅, ∅) /\
  current_step (fst run) = 0%Z /\
  results_postgresql (fst run) = ∅ /\ results_neo4j (fst run) = ∅ /\
  data_errors (fst run) = ∅ /\
  exists doc,
    snd (_run_benchmark_task steady ∅ "benchmark_1" 0 10
           "all" 3 None None 5 [] [1%Z])
      !! "benchmark_1" = Some doc /\
    doc !! "status" = Some (VStr "completed") /\
    doc !! "progress" = Some (VInt 100) /\
    doc !! "results" = Some (VResults ∅ ∅).
Proof.
  apply (run_without_samples_completes_empty steady ∅ "benchmark_1" 0 10
           "all" 3 None None 5 [] [1%Z] true).
  left. reflexivity.
Defined.

(** Property X5.  In a run of type "all" or "basic" on
    non-empty samples, a single raising call of one of the four baseline
    operations, which have no error handling, makes the whole run raise
    [BackendError]; the background task then stores the status "failed"
    with progress 0 and without results, also for the operations that
    had completed. *)
Theorem failing_baseline_call_fails_the_task (w : world)
    (benchmark_results : gmap string (gmap string value))
    (task_id : string) (start finish : Q) (test_type : string)
    (max_level : Z) (product_id user_id : option string) (iterations : Z)
    (users products : list Z) (cb : bool) :
  test_type = "all" \/ test_type = "basic" ->
  users <> [] -> products <> [] ->
  baseline_call_fails w iterations ->
  snd (run_benchmark w test_type max_level product_id user_id iterations
         users products (init cb)) = Raise BackendError /\
  exists doc,
    snd (_run_benchmark_task w benchmark_results task_id start finish
           test_type max_level product_id user_id iterations users products)
      !! task_id = Some doc /\
    doc !! "status" = Some (VStr "failed") /\
    doc !! "progress" = Some (VInt 0) /\
    doc !! "results" = None.
Proof.
  intros Htype Hu Hp Hfail.
  destruct users as [|u users]; [done|].
  destruct products as [|p products]; [done|].
  assert (Hit : (1 <= iterations)%Z).
  { destruct Hfail as (_ & _ & i & _ & Hi & _). lia. }
  assert (Hrun : forall cb',
            snd (run_benchmark w test_type max_level product_id user_id
                   iterations (u :: users) (p :: products) (init cb'))
            = Raise BackendError).
  { intros cb'. destruct Htype as [-> | ->].
    - by apply all_run_baseline_failure.
    - pose proof (basic_run_cases w max_level product_id user_id iterations
                    u p users products cb' Hit) as H.
      unfold wpe in H.
      destruct (run_benchmark w "basic" max_level product_id user_id
                  iterations (u :: users) (p :: products) (init cb'))
        as [b' [res|e]]; cbn [snd].
      + destruct H as (_ & _ & Hno). contradiction.
      + by destruct H as [-> _]. }
  split; [apply Hrun|].
  destruct (task_settles w benchmark_results task_id start finish test_type
              max_level product_id user_id iterations (u :: users)
              (p :: products)) as (doc & -> & Hdoc).
  rewrite Hrun in Hdoc.
  exists doc. rewrite lookup_insert_eq. tauto.
Qed.

(** X5 where the first PostgreSQL call of user retrieval
    raises. *)
Lemma failing_baseline_call_fails_the_task_witness :
  snd (run_benchmark first_call_down "all" 3 None None 2
         [1%Z] [1%Z] (init true)) = Raise BackendError /\
  exists doc,
    snd (_run_benchmark_task first_call_down ∅ "benchmark_1" 0 10
           "all" 3 None None 2 [1%Z] [1%Z])
      !! "benchmark_1" = Some doc /\
    doc !! "status" = Some (VStr "failed") /\
    doc !! "progress" = Some (VInt 0) /\
    doc !! "results" = None.
Proof.
  apply (failing_baseline_call_fails_the_task first_call_down ∅
           "benchmark_1" 0 10 "all" 3 None None 2 [1%Z] [1%Z] true).
  - left. reflexivity.
  - discriminate.
  - discriminate.
  - exists PostgreSQL, "user_retrieval", O.
    split; [cbn; auto|]. split; [cbn; lia | reflexivity].
Defined.

End RunTheorems.

(** * Properties kept by every method *)

Section Preserved.
Import Conduct.
Context (P : DatabaseBenchmark -> Prop).

Lemma preserves_ret {A} (a : A) : preserves P (ret a).
Proof. intros b H. exact H. Qed.

Lemma preserves_raise {A} (e : exn) : preserves P (@raise A e).
Proof. intros b H. exact H. Qed.

Lemma preserves_lift {A} (r : result A) : preserves P (lift r).
Proof. intros b H. apply wpe_lift. by destruct r. Qed.

Lemma preserves_bind {A B} (c : M A) (k : A -> M B) :
  preserves P c -> (forall a, preserves P (k a)) -> preserves P (bind c k).
Proof.
  intros Hc Hk b H. apply wpe_bind.
  eapply wpe_mono; [apply Hc, H | | auto].
  intros a b1 H1. by apply Hk.
Qed.

(** A value computed without the object, then used: only the values that
    can come out matter. *)
Lemma preserves_bind_lift {A B} (r : result A) (k : A -> M B) :
  (forall a, r = Ok a -> preserves P (k a)) -> preserves P (bind (lift r) k).
Proof.
  intros Hk b H. apply wpe_bind, wpe_lift.
  destruct r as [a|e]; [by apply Hk | exact H].
Qed.

Lemma preserves_try_except {A} (c : M A) (h : exn -> M A) :
  preserves P c -> (forall e, preserves P (h e)) ->
  preserves P (try_except c h).
Proof.
  intros Hc Hh b H. apply wpe_try_except.
  eapply wpe_mono; [apply Hc, H | auto |].
  intros e b1 H1. by apply Hh.
Qed.

Lemma preserves_try_except_timeout {A} (c h : M A) :
  preserves P c -> preserves P h -> preserves P (try_except_timeout c h).
Proof.
  intros Hc Hh b H. apply wpe_try_except_timeout.
  eapply wpe_mono; [apply Hc, H | auto |].
  intros e b1 H1. destruct e; try exact H1. by apply Hh.
Qed.

Lemma preserves_for_each {S} (body : nat -> S -> M S) ixs acc :
  (forall i a, preserves P (body i a)) -> preserves P (for_each ixs body acc).
Proof.
  intros Hbody. revert acc.
  induction ixs as [|i rest IH]; intros acc; cbn [for_each].
  - apply preserves_ret.
  - apply preserves_bind; [apply Hbody | apply IH].
Qed.

Lemma preserves_when (c : bool) (body : M unit) :
  preserves P body -> preserves P (when c body).
Proof. intros H. destruct c; [exact H | apply preserves_ret]. Qed.

Lemma preserves_print_summary : preserves P _print_benchmark_summary.
Proof.
  intros b H. unfold wpe, _print_benchmark_summary.
  by destruct (summary_lines _ _).
Qed.

Lemma preserves_return_results :
  preserves P (fun b : DatabaseBenchmark =>
                 (b, Ok (results_postgresql b, results_neo4j b))).
Proof. intros b H. exact H. Qed.

Lemma preserves_fst {A} (c : M A) b : preserves P c -> P b -> P (fst (c b)).
Proof.
  intros Hc H. specialize (Hc b H). unfold wpe in Hc.
  by destruct (c b) as [b' [a|e]].
Qed.

End Preserved.

Create HintDb keep.
#[local] Hint Resolve preserves_ret preserves_raise preserves_lift preserves_bind
  preserves_try_except preserves_try_except_timeout preserves_for_each
  preserves_when preserves_print_summary preserves_return_results : keep.

(** ** The step counters are never negative *)

Section StepsNonNegative.
Import Conduct.

Lemma nonneg_notify msg : preserves steps_nonneg (notify msg).
Proof.
  intros b (Hc & Ht & HF). apply wpe_modify.
  destruct (callback_set b); [|done].
  split; [done|]. split; [done|]. cbn.
  apply Forall_app. split; [done|]. by repeat constructor.
Qed.

Lemma nonneg_notify_done msg : preserves steps_nonneg (notify_done msg).
Proof.
  intros b (Hc & Ht & HF). apply wpe_modify.
  destruct (callback_set b); [|done].
  split; [done|]. split; [done|]. cbn.
  apply Forall_app. split; [done|]. by repeat constructor.
Qed.

Lemma nonneg_warning msg : preserves steps_nonneg (warning msg).
Proof. intros b H. apply wpe_modify. exact H. Qed.

Lemma nonneg_store be op s : preserves steps_nonneg (store be op s).
Proof. intros b H. apply wpe_modify. exact H. Qed.

Lemma nonneg_store_errors op n1 n2 :
  preserves steps_nonneg (store_errors op n1 n2).
Proof. intros b H. apply wpe_modify. exact H. Qed.

Lemma nonneg_next_step : preserves steps_nonneg next_step.
Proof.
  intros b (Hc & Ht & HF). unfold wpe. cbn.
  split; [cbn; lia|]. by split.
Qed.

Lemma nonneg_set_total (n : Z) :
  (0 <= n)%Z -> preserves steps_nonneg (set_total n).
Proof. intros Hn b (Hc & Ht & HF). unfold wpe. cbn. by repeat split. Qed.

End StepsNonNegative.

#[local] Hint Resolve nonneg_notify nonneg_notify_done nonneg_warning nonneg_store
  nonneg_store_errors nonneg_next_step : keep.

Section StepsOfARun.
Import Conduct.
Variable w : world.

Lemma nonneg_benchmark_plain op iterations :
  preserves steps_nonneg (benchmark_plain w op iterations).
Proof. unfold benchmark_plain, plain_loop. auto 20 with keep. Qed.

Lemma nonneg_high_level_warning lvl msg :
  preserves steps_nonneg (high_level_warning lvl msg).
Proof. unfold high_level_warning. destruct (3 <? lvl)%Z; auto with keep. Qed.

Lemma nonneg_guarded_iteration s f (call : M Q) acc :
  preserves steps_nonneg call ->
  preserves steps_nonneg (guarded_iteration s f call acc).
Proof. intros H. unfold guarded_iteration. auto 10 with keep. Qed.

#[local] Hint Resolve nonneg_benchmark_plain nonneg_high_level_warning
  nonneg_guarded_iteration : keep.

Lemma nonneg_product_virality iterations max_level :
  preserves steps_nonneg (_benchmark_product_virality w iterations max_level).
Proof.
  unfold _benchmark_product_virality, product_virality_pg_loop,
    product_virality_neo4j_loop, _benchmark_product_virality_neo4j.
  auto 30 with keep.
Qed.

Lemma nonneg_user_influence iterations max_level :
  preserves steps_nonneg (_benchmark_user_influence w iterations max_level).
Proof.
  unfold _benchmark_user_influence, user_influence_pg_loop,
    user_influence_neo4j_loop, _benchmark_user_influence_neo4j.
  auto 30 with keep.
Qed.

Lemma nonneg_viral_products iterations max_level :
  preserves steps_nonneg (_benchmark_viral_products w iterations max_level).
Proof.
  unfold _benchmark_viral_products, viral_products_pg_loop,
    viral_products_neo4j_loop, viral_products_neo4j_call.
  auto 30 with keep.
Qed.

#[local] Hint Resolve nonneg_product_virality nonneg_user_influence
  nonneg_viral_products : keep.

(** Whatever the test type, the samples and the backends, no step counter
    of a run is ever negative, in the object or in a progress call. *)
Lemma run_steps_nonneg (test_type : string) (max_level : Z)
    (product_id user_id : option string) (iterations : Z)
    (users products : list Z) (cb : bool) :
  steps_nonneg
    (fst (run_benchmark w test_type max_level product_id user_id iterations
            users products (init cb))).
Proof.
  apply preserves_fst; [|by repeat constructor].
  unfold run_benchmark.
  assert (Hreset : forall (rest : M (gmap string stats * gmap string stats)),
            (forall b, steps_nonneg b ->
               wpe rest (fun _ b' => steps_nonneg b')
                        (fun _ b' => steps_nonneg b') b) ->
            preserves steps_nonneg (set_steps 0 0 >> rest)).
  { intros rest Hrest b (Hc & Ht & HF).
    apply wpe_bind, wpe_modify. apply Hrest. by repeat split. }
  apply Hreset. clear Hreset.
  assert (Hrest : forall (c : M (gmap string stats * gmap string stats)),
            preserves steps_nonneg c ->
            forall b, steps_nonneg b ->
              wpe c (fun _ b' => steps_nonneg b')
                    (fun _ b' => steps_nonneg b') b).
  { intros c Hc. exact Hc. }
  apply Hrest. clear Hrest.
  pose proof (preserves_return_results steps_nonneg) as Hret.
  apply preserves_bind.
  { destruct (String.eqb test_type "all").
    - apply preserves_bind; [by apply nonneg_set_total|]. intros _.
      apply preserves_when, nonneg_warning.
    - destruct (String.eqb test_type "basic"); [by apply nonneg_set_total|].
      destruct (existsb _ _); [by apply nonneg_set_total|].
      apply preserves_ret. }
  intros _. apply preserves_bind; [apply nonneg_notify|]. intros _.
  destruct users as [|u us], products as [|p ps]; try exact Hret.
  unfold _benchmark_user_retrieval, _benchmark_product_retrieval,
    _benchmark_user_follows, _benchmark_product_purchases,
    _benchmark_recommendation_queries.
  auto 60 with keep.
Qed.

End StepsOfARun.

(** * The statistics of a sample list are in order *)

Section OrderedStatistics.
Import Conduct.
Local Open Scope Q_scope.

Lemma fold_min_bounds (rest : list Q) (x : Q) :
  let m := fold_left (fun m y => if Py.ltb y m then y else m) rest x in
  m <= x /\ (forall y, In y rest -> m <= y) /\ (m = x \/ In m rest).
Proof.
  revert x. induction rest as [|y rest IH]; intros x; cbn [fold_left].
  - split; [lra|]. split; [intros y []| by left].
  - destruct (Py.ltb y x) eqn:E.
    + apply ltb_true in E.
      destruct (IH y) as (H1 & H2 & H3). cbv zeta in *.
      split; [lra|]. split.
      * intros z [<- | Hz]; [exact H1 | by apply H2].
      * right. destruct H3 as [-> | H3]; [by left | by right].
    + apply ltb_false in E.
      destruct (IH x) as (H1 & H2 & H3). cbv zeta in *.
      split; [exact H1|]. split.
      * intros z [<- | Hz]; [lra | by apply H2].
      * destruct H3 as [-> | H3]; [by left | right; by right].
Qed.

Lemma fold_max_bounds (rest : list Q) (x : Q) :
  let m := fold_left (fun m y => if Py.ltb m y then y else m) rest x in
  x <= m /\ (forall y, In y rest -> y <= m) /\ (m = x \/ In m rest).
Proof.
  revert x. induction rest as [|y rest IH]; intros x; cbn [fold_left].
  - split; [lra|]. split; [intros y []| by left].
  - destruct (Py.ltb x y) eqn:E.
    + apply ltb_true in E.
      destruct (IH y) as (H1 & H2 & H3). cbv zeta in *.
      split; [lra|]. split.
      * intros z [<- | Hz]; [exact H1 | by apply H2].
      * right. destruct H3 as [-> | H3]; [by left | by right].
    + apply ltb_false in E.
      destruct (IH x) as (H1 & H2 & H3). cbv zeta in *.
      split; [exact H1|]. split.
      * intros z [<- | Hz]; [lra | by apply H2].
      * destruct H3 as [-> | H3]; [by left | right; by right].
Qed.

(** The sum of values between two bounds. *)
Lemma fsum_bounds (lo hi : Q) (xs : list Q) :
  (forall y, In y xs -> lo <= y /\ y <= hi) ->
  lo * inject_Z (Z.of_nat (length xs)) <= Statistics.fsum xs /\
  Statistics.fsum xs <= hi * inject_Z (Z.of_nat (length xs)).
Proof.
  induction xs as [|x xs IH]; intros H.
  - cbn. change (inject_Z (Z.of_nat 0)) with 0. split; lra.
  - destruct IH as [IH1 IH2]; [intros y Hy; apply H; by right|].
    destruct (H x) as [Hx1 Hx2]; [by left|].
    cbn [length Statistics.fsum fold_right].
    rewrite Nat2Z.inj_succ, <- Z.add_1_r, inject_Z_plus.
    unfold Statistics.fsum in IH1, IH2.
    change (inject_Z 1) with 1.
    split; lra.
Qed.

Lemma mean_bounds (lo hi : Q) (xs : list Q) (a : Q) :
  (forall y, In y xs -> lo <= y /\ y <= hi) ->
  Statistics.mean xs = Ok a -> lo <= a /\ a <= hi.
Proof.
  intros H. destruct xs as [|x xs]; [discriminate|].
  unfold Statistics.mean. intros [= <-].
  destruct (fsum_bounds lo hi (x :: xs) H) as [H1 H2].
  assert (Hlen : 0 < inject_Z (Z.of_nat (length (x :: xs)))).
  { unfold Qlt. cbn. lia. }
  split.
  - apply Qle_shift_div_l; [exact Hlen | exact H1].
  - apply Qle_shift_div_r; [exact Hlen | exact H2].
Qed.

Lemma insert_sorted_In (x y : Q) (xs : list Q) :
  In y (Statistics.insert_sorted x xs) -> y = x \/ In y xs.
Proof.
  induction xs as [|z zs IH]; cbn.
  - intros [<- | []]. by left.
  - destruct (Qle_bool x z); cbn.
    + intros [<- | [<- | H]]; auto.
    + intros [<- | H]; [auto|]. destruct (IH H); auto.
Qed.

Lemma sorted_In (y : Q) (xs : list Q) :
  In y (Statistics.sorted xs) -> In y xs.
Proof.
  induction xs as [|x xs IH]; cbn; [auto|].
  intros H. apply insert_sorted_In in H as [-> | H]; [by left|].
  right. by apply IH.
Qed.

Lemma median_bounds (lo hi : Q) (xs : list Q) (a : Q) :
  (forall y, In y xs -> lo <= y /\ y <= hi) ->
  Statistics.median xs = Ok a -> lo <= a /\ a <= hi.
Proof.
  intros H. unfold Statistics.median.
  pose proof (length_sorted xs) as Hlen.
  set (data := Statistics.sorted xs) in *.
  assert (Hnth : forall i, (i < length data)%nat ->
            lo <= nth i data 0 /\ nth i data 0 <= hi).
  { intros i Hi. apply H, sorted_In. by apply nth_In. }
  destruct (length data) as [|n] eqn:En; [discriminate|].
  assert (H2 : (S n / 2 < S n)%nat) by (apply Nat.div_lt; lia).
  destruct (Hnth (S n / 2)%nat H2) as [Ha Hb].
  destruct (Hnth (S n / 2 - 1)%nat ltac:(lia)) as [Hc Hd].
  cbv zeta.
  set (a1 := nth (S n / 2 - 1) data 0) in *.
  set (a2 := nth (S n / 2) data 0) in *.
  destruct (Nat.odd (S n)) eqn:Hodd.
  - intros H0. injection H0 as <-. split; assumption.
  - intros H0. injection H0 as <-. split.
    + apply Qle_shift_div_l; lra.
    + apply Qle_shift_div_r; lra.
Qed.

(** The unguarded summary of a sample list. *)
Lemma summary_ordered (ts : list Q) tm er (s : stats) :
  summary ts tm er = Ok s -> ordered s.
Proof.
  unfold summary. destruct ts as [|x rest]; [discriminate|].
  destruct (Statistics.mean (x :: rest)) as [a|] eqn:Ha; [|discriminate].
  cbn [rbind Statistics.min Statistics.max].
  destruct (Statistics.median (x :: rest)) as [md|] eqn:Hmd; [|discriminate].
  cbn [rbind]. intros [= <-].
  destruct (fold_min_bounds rest x) as (Hm1 & Hm2 & _).
  destruct (fold_max_bounds rest x) as (HM1 & HM2 & _).
  cbv zeta in *.
  set (mn := fold_left (fun m y => if Py.ltb y m then y else m) rest x) in *.
  set (mx := fold_left (fun m y => if Py.ltb m y then y else m) rest x) in *.
  assert (Hall : forall y, In y (x :: rest) -> mn <= y /\ y <= mx).
  { intros y [<- | Hy]; [split; assumption | split; auto]. }
  destruct (mean_bounds mn mx _ a Hall Ha).
  destruct (median_bounds mn mx _ md Hall Hmd).
  unfold ordered. cbn. tauto.
Qed.

Lemma summary_or_zero_ordered (ts : list Q) tm (s : stats) :
  summary_or_zero ts tm = Ok s -> ordered s.
Proof.
  destruct ts as [|x rest].
  - intros [= <-]. unfold ordered. cbn. lra.
  - intros H. apply (summary_ordered (x :: rest) tm None).
    unfold summary_or_zero, or_zero in H. unfold summary.
    destruct (Statistics.mean (x :: rest)); [|discriminate].
    cbn [rbind] in *.
    destruct (Statistics.min (x :: rest)); [|discriminate].
    cbn [rbind] in *.
    destruct (Statistics.max (x :: rest)); [|discriminate].
    cbn [rbind] in *.
    destruct (Statistics.median (x :: rest)); [|discriminate].
    cbn [rbind] in *. exact H.
Qed.

Lemma summary_or_sentinel_ordered (ts : list Q) er (s : stats) :
  summary_or_sentinel ts er = Ok s -> ordered s.
Proof. unfold summary_or_sentinel. apply summary_ordered. Qed.

End OrderedStatistics.

(** * Every stored entry is in order *)

Section OrderedResults.
Import Conduct.

(** A change of the object that leaves both maps of results alone. *)
Lemma ordered_modify (f : DatabaseBenchmark -> DatabaseBenchmark) :
  (forall b, results_postgresql (f b) = results_postgresql b /\
             results_neo4j (f b) = results_neo4j b) ->
  preserves ordered_results (modify f).
Proof.
  intros Hf b [Hp Hn]. apply wpe_modify.
  destruct (Hf b) as [E1 E2]. unfold ordered_results. by rewrite E1, E2.
Qed.

Lemma ordered_notify msg : preserves ordered_results (notify msg).
Proof. apply ordered_modify. intros b. by destruct (callback_set b). Qed.

Lemma ordered_notify_done msg : preserves ordered_results (notify_done msg).
Proof. apply ordered_modify. intros b. by destruct (callback_set b). Qed.

Lemma ordered_warning msg : preserves ordered_results (warning msg).
Proof. by apply ordered_modify. Qed.

Lemma ordered_store_errors op n1 n2 :
  preserves ordered_results (store_errors op n1 n2).
Proof. by apply ordered_modify. Qed.

Lemma ordered_set_steps cur tot : preserves ordered_results (set_steps cur tot).
Proof. by apply ordered_modify. Qed.

Lemma ordered_next_step : preserves ordered_results next_step.
Proof. intros b H. exact H. Qed.

Lemma ordered_set_total n : preserves ordered_results (set_total n).
Proof. intros b H. exact H. Qed.

Lemma ordered_store be op s :
  ordered s -> preserves ordered_results (store be op s).
Proof.
  intros Hs b [Hp Hn]. apply wpe_modify.
  destruct be; (split; cbn; [|]); try assumption;
    by apply map_Forall_insert_2.
Qed.

End OrderedResults.

#[local] Hint Resolve ordered_notify ordered_notify_done ordered_warning
  ordered_store_errors ordered_set_steps ordered_next_step ordered_set_total
  : keep.

Section OrderedRun.
Import Conduct.
Variable w : world.

Lemma ordered_benchmark_plain op iterations :
  preserves ordered_results (benchmark_plain w op iterations).
Proof.
  unfold benchmark_plain, plain_loop.
  apply preserves_bind; [auto 10 with keep|]. intros pg_times.
  apply preserves_bind; [auto 10 with keep|]. intros neo4j_times.
  apply preserves_bind_lift. intros s1 H1.
  apply preserves_bind; [eapply ordered_store, summary_ordered, H1|].
  intros _. apply preserves_bind_lift. intros s2 H2.
  eapply ordered_store, summary_ordered, H2.
Qed.

Lemma ordered_high_level_warning lvl msg :
  preserves ordered_results (high_level_warning lvl msg).
Proof. unfold high_level_warning. destruct (3 <? lvl)%Z; auto with keep. Qed.

Lemma ordered_guarded_iteration s f (call : M Q) acc :
  preserves ordered_results call ->
  preserves ordered_results (guarded_iteration s f call acc).
Proof. intros H. unfold guarded_iteration. auto 10 with keep. Qed.

#[local] Hint Resolve ordered_benchmark_plain ordered_high_level_warning
  ordered_guarded_iteration : keep.

Lemma ordered_product_virality iterations max_level :
  preserves ordered_results (_benchmark_product_virality w iterations max_level).
Proof.
  unfold _benchmark_product_virality, product_virality_pg_loop,
    product_virality_neo4j_loop, _benchmark_product_virality_neo4j.
  apply preserves_bind; [auto with keep|]. intros _.
  apply preserves_bind; [auto 20 with keep|]. intros pg.
  apply preserves_bind; [auto 20 with keep|]. intros neo.
  apply preserves_bind; [auto with keep|]. intros _.
  apply preserves_bind_lift. intros s1 H1.
  apply preserves_bind; [eapply ordered_store, summary_or_zero_ordered, H1|].
  intros _. apply preserves_bind_lift. intros s2 H2.
  apply preserves_bind; [eapply ordered_store, summary_or_zero_ordered, H2|].
  intros _. auto with keep.
Qed.

Lemma ordered_user_influence iterations max_level :
  preserves ordered_results (_benchmark_user_influence w iterations max_level).
Proof.
  unfold _benchmark_user_influence, user_influence_pg_loop,
    user_influence_neo4j_loop, _benchmark_user_influence_neo4j.
  apply preserves_bind; [auto with keep|]. intros _.
  apply preserves_bind; [auto 20 with keep|]. intros pg.
  apply preserves_bind; [auto 20 with keep|]. intros neo.
  apply preserves_bind; [auto with keep|]. intros _.
  apply preserves_bind; [auto with keep|]. intros _.
  apply preserves_bind_lift. intros s1 H1.
  apply preserves_bind;
    [eapply ordered_store, summary_or_sentinel_ordered, H1|].
  intros _. apply preserves_bind_lift. intros s2 H2.
  eapply ordered_store, summary_or_sentinel_ordered, H2.
Qed.

Lemma ordered_viral_products iterations max_level :
  preserves ordered_results (_benchmark_viral_products w iterations max_level).
Proof.
  unfold _benchmark_viral_products, viral_products_pg_loop,
    viral_products_neo4j_loop, viral_products_neo4j_call.
  apply preserves_bind; [auto with keep|]. intros _.
  apply preserves_bind; [auto 20 with keep|]. intros pg.
  apply preserves_bind; [auto 20 with keep|]. intros neo.
  apply preserves_bind; [auto with keep|]. intros _.
  apply preserves_bind; [auto with keep|]. intros _.
  apply preserves_bind_lift. intros s1 H1.
  apply preserves_bind; [eapply ordered_store, summary_or_zero_ordered, H1|].
  intros _. apply preserves_bind_lift. intros s2 H2.
  eapply ordered_store, summary_or_zero_ordered, H2.
Qed.

#[local] Hint Resolve ordered_product_virality ordered_user_influence
  ordered_viral_products : keep.

Lemma ordered_run (test_type : string) (max_level : Z)
    (product_id user_id : option string) (iterations : Z)
    (users products : list Z) :
  preserves ordered_results
    (run_benchmark w test_type max_level product_id user_id iterations
       users products).
Proof.
  unfold run_benchmark.
  pose proof (preserves_return_results ordered_results) as Hret.
  apply preserves_bind; [auto with keep|]. intros _.
  apply preserves_bind.
  { destruct (String.eqb test_type "all"); [auto with keep|].
    destruct (String.eqb test_type "basic"); [auto with keep|].
    destruct (existsb _ _); auto with keep. }
  intros _. apply preserves_bind; [auto with keep|]. intros _.
  destruct users as [|u us], products as [|p ps]; try exact Hret.
  unfold _benchmark_user_retrieval, _benchmark_product_retrieval,
    _benchmark_user_follows, _benchmark_product_purchases,
    _benchmark_recommendation_queries.
  auto 60 with keep.
Qed.

(** What a run returns is the pair of maps the object holds. *)
Lemma run_returns_results (test_type : string) (max_level : Z)
    (product_id user_id : option string) (iterations : Z)
    (users products : list Z) (b : DatabaseBenchmark) :
  wpe (run_benchmark w test_type max_level product_id user_id iterations
         users products)
      (fun res b' => res = (results_postgresql b', results_neo4j b'))
      (fun _ _ => True) b.
Proof.
  assert (Hany : forall {A} (c : M A) (K : A -> DatabaseBenchmark -> Prop) b0,
            (forall a b1, K a b1) -> wpe c K (fun _ _ => True) b0).
  { intros A c K b0 HK. unfold wpe. destruct (c b0) as [b1 [a|e]]; auto. }
  unfold run_benchmark.
  do 3 (apply wpe_bind, Hany; intros _ ?).
  destruct users as [|u us], products as [|p ps]; try reflexivity.
  do 6 (apply wpe_bind, Hany; intros _ ?).
  apply wpe_bind, Hany. intros _ ?. reflexivity.
Qed.

End OrderedRun.

(** * The loops with error handling *)

Section GuardedLoops.
Import Conduct.
Variable w : world.










(** ** The error counts an operation stores *)

Lemma data_errors_notify msg b :
  data_errors (fst (notify msg b)) = data_errors b.
Proof. unfold notify, modify. cbn. by destruct (callback_set b). Qed.


End GuardedLoops.

(** * What a client sees of a benchmark task *)

Section TaskTheorems.
Import Conduct Registry.

(** Property X6.  When the background task of a benchmark is
    over, the registry holds its document under the task identifier and
    every other document is untouched.  If the run returned, the status
    is "completed", the document carries the results of the run, and the
    status poll answers progress 100; if the run raised, the status is
    "failed", the document carries no results, and the poll answers
    progress 0. *)
Theorem benchmark_task_settles (w : world)
    (benchmark_results : gmap string (gmap string value))
    (task_id : string) (start finish now : Q) (test_type : string)
    (max_level : Z) (product_id user_id : option string) (iterations : Z)
    (users products : list Z) :
  let run :=
    run_benchmark w test_type max_level product_id user_id iterations
      users products (init true) in
  let registry :=
    snd (_run_benchmark_task w benchmark_results task_id start finish
           test_type max_level product_id user_id iterations users products)
  in
  (forall other, other <> task_id ->
     registry !! other = benchmark_results !! other) /\
  exists doc,
    registry !! task_id = Some doc /\
    match snd run with
    | Ok (pg, neo) =>
        doc !! "status" = Some (VStr "completed") /\
        doc !! "results" = Some (VResults pg neo) /\
        progress_of (get_task_status registry now task_id)
          = Some (VInt 100)
    | Raise _ =>
        doc !! "status" = Some (VStr "failed") /\
        doc !! "results" = None /\
        progress_of (get_task_status registry now task_id) = Some (VInt 0)
    end.
Proof.
  cbv zeta.
  destruct (task_settles w benchmark_results task_id start finish test_type
              max_level product_id user_id iterations users products)
    as (doc & -> & Hdoc).
  split; [intros other Hne; by rewrite lookup_insert_ne|].
  exists doc. split; [by rewrite lookup_insert_eq|].
  unfold get_task_status, getitem. rewrite lookup_insert_eq.
  destruct (snd (run_benchmark w test_type max_level product_id user_id
                   iterations users products (init true))) as [[pg neo]|e];
    destruct Hdoc as (Hs & Hr & Hp); rewrite Hs; cbn;
    (split; [reflexivity|]); (split; [exact Hr|]);
    by rewrite lookup_insert_eq.
Qed.

(** The progress the status poll answers for a document of a task that is
    running, by its step counters. *)
Lemma poll_of_running_document
    (benchmark_results : gmap string (gmap string value)) (now : Q)
    (task_id : string) (doc : gmap string value) (cur tot : Z) :
  doc !! "status" = Some (VStr "running") ->
  doc !! "current_step" = Some (VInt cur) ->
  doc !! "total_steps" = Some (VInt tot) ->
  (0 <= cur)%Z -> (0 <= tot)%Z ->
  exists p,
    progress_of
      (get_task_status (<[task_id := doc]> benchmark_results) now task_id)
    = Some (VInt p) /\ (0 <= p <= 99)%Z.
Proof.
  intros Hs Hc Ht Hcur Htot.
  unfold get_task_status, getitem. rewrite lookup_insert_eq, Hs. cbn.
  rewrite Hc, Ht. cbn [number rbind].
  rewrite ltb_inject_Z. destruct (0 <? tot)%Z eqn:E.
  - apply Z.ltb_lt in E. cbn [progress_of]. rewrite lookup_insert_eq.
    eexists. split; [reflexivity|].
    unfold percent_capped. rewrite int_of_step_ratio by exact E.
    assert (0 <= Z.quot (100 * cur) tot)%Z by (apply Z.quot_pos; lia).
    lia.
  - cbn [progress_of]. rewrite lookup_insert_eq.
    eexists. split; [reflexivity | lia].
Qed.

(** Property X7.  Whatever the test type, the backends and
    the samples, every document the registry holds while the run of a
    benchmark task is under way is answered by the status poll without an
    exception, with a progress between 0 and 99: a running task never
    shows 100. *)
Theorem poll_during_run_stays_below_100 (w : world)
    (benchmark_results : gmap string (gmap string value))
    (task_id : string) (start finish now : Q) (test_type : string)
    (max_level : Z) (product_id user_id : option string) (iterations : Z)
    (users products : list Z) :
  Forall
    (fun doc =>
       exists p,
         progress_of
           (get_task_status (<[task_id := doc]> benchmark_results) now
              task_id)
         = Some (VInt p) /\ (0 <= p <= 99)%Z)
    (fst (_run_benchmark_task w benchmark_results task_id start finish
            test_type max_level product_id user_id iterations
            users products)).
Proof.
  unfold _run_benchmark_task.
  pose proof (run_steps_nonneg w test_type max_level product_id user_id
                iterations users products true) as Hnn.
  destruct (run_benchmark w test_type max_level product_id user_id
              iterations users products (init true)) as [b r].
  cbn [fst] in *. destruct Hnn as (_ & _ & HF).
  apply Forall_forall. intros doc Hin. apply list_elem_of_In in Hin.
  apply documents_seen_elem in Hin as (cs' & -> & rest & Hcs).
  destruct (progress_calls_steps (new_benchmark_task task_id start) cs')
    as (cur & tot & Hc & Ht & Hsrc); [done | done |].
  apply (poll_of_running_document _ _ _ _ cur tot).
  - by rewrite progress_calls_other.
  - exact Hc.
  - exact Ht.
  - destruct Hsrc as [[-> _] | (c & Hin & -> & _)]; [lia|].
    rewrite Hcs in HF. apply Forall_app in HF as [HF _].
    rewrite Forall_forall in HF. apply list_elem_of_In in Hin.
    by apply HF.
  - destruct Hsrc as [[_ ->] | (c & Hin & _ & ->)]; [lia|].
    rewrite Hcs in HF. apply Forall_app in HF as [HF _].
    rewrite Forall_forall in HF. apply list_elem_of_In in Hin.
    by apply HF.
Qed.

(** Property X8.  Whatever the test type, the backends, the
    samples and the number of iterations, every entry a run of a fresh
    object records, for either backend, has its statistics in order:
    min <= avg <= max and min <= median <= max.  This holds where the run
    returns and where an exception stops it. *)
Theorem recorded_statistics_are_ordered (w : world) (test_type : string)
    (max_level : Z) (product_id user_id : option string) (iterations : Z)
    (users products : list Z) (cb : bool) :
  let run :=
    run_benchmark w test_type max_level product_id user_id iterations
      users products (init cb) in
  ordered_results (fst run) /\
  match snd run with
  | Ok (pg, neo) =>
      map_Forall (fun _ s => ordered s) pg /\
      map_Forall (fun _ s => ordered s) neo
  | Raise _ => True
  end.
Proof.
  cbv zeta.
  assert (H0 : ordered_results (init cb)).
  { split; apply map_Forall_empty. }
  pose proof (ordered_run w test_type max_level product_id user_id
                iterations users products (init cb) H0) as H.
  pose proof (run_returns_results w test_type max_level product_id user_id
                iterations users products (init cb)) as Hres.
  unfold wpe in H, Hres.
  destruct (run_benchmark w test_type max_level product_id user_id
              iterations users products (init cb)) as [b' [[pg neo]|e]];
    cbn [fst snd].
  - split; [exact H|]. injection Hres as -> ->. exact H.
  - split; [exact H | exact I].
Qed.


End TaskTheorems.

(** * Which endpoint answers a request *)

Section RoutingFacts.
Import Routing.

(** A request that an endpoint handles is fully matched by a route
    declared for that endpoint. *)
Lemma matches_endpoint (r : route) (m : method) (path : list string)
    (e : endpoint) params :
  matches r m path = Full e params -> route_endpoint r = e.
Proof.
  destruct r as [ms pattern e' | prefix e']; cbn.
  - destruct (match_path pattern path); [|discriminate].
    destruct (allows ms m); [|discriminate]. by intros [= -> _].
  - destruct (is_prefix prefix path); [|discriminate]. by intros [= -> _].
Qed.

Lemma dispatch_from_handled (routes : list route) (partial : bool)
    (m : method) (path : list string) (e : endpoint) params :
  dispatch_from routes partial m path = Handled e params ->
  exists r, In r routes /\ matches r m path = Full e params.
Proof.
  revert partial. induction routes as [|r rest IH]; intros partial; cbn.
  - by destruct partial.
  - destruct (matches r m path) as [e' params'| |] eqn:E.
    + intros [= -> ->]. exists r. split; [by left | exact E].
    + intros H. destruct (IH _ H) as (r' & Hin & Hm).
      exists r'. split; [by right | exact Hm].
    + intros H. destruct (IH _ H) as (r' & Hin & Hm).
      exists r'. split; [by right | exact Hm].
Qed.

Lemma dispatch_handled (routes : list route) (m : method)
    (path : list string) (e : endpoint) params :
  dispatch routes m path = Handled e params ->
  exists r, In r (routes_of routes e) /\ matches r m path = Full e params.
Proof.
  intros H. apply dispatch_from_handled in H as (r & Hin & Hm).
  exists r. split; [|exact Hm].
  unfold routes_of. apply filter_In. split; [exact Hin|].
  apply bool_decide_eq_true. by eapply matches_endpoint.
Qed.

(** A pattern of literals matches one path only. *)
Lemma match_literals (segments path : list string) params :
  match_path (List.map Lit segments) path = Some params -> path = segments.
Proof.
  revert path. induction segments as [|s rest IH]; intros [|x path]; cbn;
    try discriminate; [reflexivity|].
  destruct (String.eqb s x) eqn:E; [|discriminate].
  apply String.eqb_eq in E as ->. intros H. f_equal. by apply IH.
Qed.

Lemma allows_one (declared m : method) :
  allows [declared] m = true -> m = declared.
Proof. by destruct declared, m. Qed.

(** A route of literals for one method, declared once, and a request it
    would match: the request is that method on that path. *)
Lemma literal_route_request (routes : list route) (declared : method)
    (segments : list string) (e : endpoint) (m : method)
    (path : list string) params :
  routes_of routes e = [Route [declared] (List.map Lit segments) e] ->
  dispatch routes m path = Handled e params ->
  m = declared /\ path = segments.
Proof.
  intros Hroutes H. apply dispatch_handled in H as (r & Hin & Hm).
  rewrite Hroutes in Hin. destruct Hin as [<- | []]. unfold matches in Hm.
  destruct (match_path (List.map Lit segments) path) as [ps|] eqn:E;
    [|discriminate].
  destruct (allows [declared] m) eqn:Ea; [|discriminate].
  split; [by apply allows_one | by eapply match_literals].
Qed.

End RoutingFacts.

Section RoutingTheorems.
Import Registry Routing.

(** Property X10.  In the application as [app/main.py]
    assembles it, two endpoints can never answer a request, whatever its
    method and path: [get_latest_generation_metrics], whose path
    /benchmark/metrics/generation/latest is taken by the route with the
    parameter [task_id] declared before it, and [get_viral_products] of
    the social router, whose path /products/viral is taken by
    /products/{product_id} of the products router, included first.  The
    first request is handled by [get_generation_metrics] with the task
    identifier "latest", the second by [get_product] with the product
    identifier "viral".  Every other endpoint of the repository answers
    the request made for it. *)
Theorem shadowed_endpoints_are_never_reached :
  ~ reachable app benchmark_get_latest_generation_metrics /\
  ~ reachable app social_get_viral_products /\
  answer_for app benchmark_get_latest_generation_metrics
    = Handled benchmark_get_generation_metrics [("task_id", "latest")] /\
  answer_for app social_get_viral_products
    = Handled products_get_product [("product_id", "viral")] /\
  Forall (fun e =>
            e = benchmark_get_latest_generation_metrics \/
            e = social_get_viral_products \/
            exists params, answer_for app e = Handled e params)
         declared_endpoints.
Proof.
  split; [|split; [|split; [|split]]].
  - intros (m & path & params & H).
    destruct (literal_route_request app GET
                ["benchmark"; "metrics"; "generation"; "latest"]
                benchmark_get_latest_generation_metrics m path params
                eq_refl H) as [-> ->].
    vm_compute in H. discriminate H.
  - intros (m & path & params & H).
    destruct (literal_route_request app GET ["products"; "viral"]
                social_get_viral_products m path params eq_refl H)
      as [-> ->].
    vm_compute in H. discriminate H.
  - reflexivity.
  - reflexivity.
  - unfold declared_endpoints.
    repeat (constructor;
            [first [ by left | by (right; left)
                   | right; right; eexists; vm_compute; reflexivity ]|]).
    constructor.
Qed.

(** Property X11.  The identifier of a generation task is
    "generate_" followed by a number.  Whatever generation tasks the
    registry of metrics holds, a GET of
    /benchmark/metrics/generation/latest is answered by
    [get_generation_metrics] looking for a task named "latest", hence
    with the error 404: the most recent metrics are never returned. *)
Theorem latest_generation_metrics_is_404
    (generation_metrics : gmap string (gmap string value)) :
  (forall task_id, is_Some (generation_metrics !! task_id) ->
     exists seconds, task_id = generation_task_id seconds) ->
  exists task_id,
    dispatch app GET ["benchmark"; "metrics"; "generation"; "latest"]
      = Handled benchmark_get_generation_metrics [("task_id", task_id)] /\
    get_generation_metrics generation_metrics task_id
      = Raise (HTTPException 404).
Proof.
  intros Hids. exists "latest". split; [reflexivity|].
  unfold get_generation_metrics.
  destruct (generation_metrics !! "latest") as [doc|] eqn:E; [|reflexivity].
  destruct (Hids "latest") as [seconds Hs]; [by rewrite E|].
  unfold generation_task_id in Hs. discriminate Hs.
Qed.

(** X11 on a registry with one generation task. *)
Lemma latest_generation_metrics_is_404_witness :
  exists task_id,
    dispatch app GET ["benchmark"; "metrics"; "generation"; "latest"]
      = Handled benchmark_get_generation_metrics [("task_id", task_id)] /\
    get_generation_metrics
      {[ generation_task_id "1700000000" := ∅ ]} task_id
      = Raise (HTTPException 404).
Proof.
  apply (latest_generation_metrics_is_404
           {[ generation_task_id "1700000000" := ∅ ]}).
  intros task_id [doc Hdoc].
  apply lookup_singleton_Some in Hdoc as [<- _]. by exists "1700000000".
Defined.

End RoutingTheorems.

(** * Results and listings of benchmark tasks *)

Section ListingFacts.
Import Registry Endpoints Conduct.

(** The documents of a running task keep the status "running", the
    progress 0 they start with, and no results. *)
Lemma running_document (w : world)
    (benchmark_results : gmap string (gmap string value))
    (task_id : string) (start finish : Q) (test_type : string)
    (max_level : Z) (product_id user_id : option string) (iterations : Z)
    (users products : list Z) (doc : gmap string value) :
  In doc
    (fst (_run_benchmark_task w benchmark_results task_id start finish
            test_type max_level product_id user_id iterations
            users products)) ->
  doc !! "status" = Some (VStr "running") /\
  doc !! "progress" = Some (VInt 0) /\
  doc !! "results" = None /\
  doc !! "task_id" = Some (VStr task_id).
Proof.
  unfold _run_benchmark_task.
  destruct (run_benchmark w test_type max_level product_id user_id
              iterations users products (init true)) as [b r].
  cbn [fst]. intros Hin.
  apply documents_seen_elem in Hin as (cs' & -> & _).
  rewrite !progress_calls_other by done. done.
Qed.

Lemma list_benchmarks_entry
    (benchmark_results : gmap string (gmap string value))
    (task_id : string) (doc : gmap string value) :
  benchmark_results !! task_id = Some doc ->
  In (list_entry task_id doc) (list_benchmarks benchmark_results).
Proof.
  intros H. unfold list_benchmarks.
  apply in_map_iff. exists (task_id, doc). split; [reflexivity|].
  apply list_elem_of_In, elem_of_map_to_list, H.
Qed.

End ListingFacts.

Section ListingTheorems.
Import Registry Endpoints Conduct.

(** Property X12.  The answer of [get_benchmark_results]
    carries results only for a task whose status is "completed", and is
    then the stored document.  For a benchmark task: while the run is
    under way the answer has the status "running" and no results; when
    the task is over it is the document with the results of the run if
    the run returned, and a document with the status "failed" and no
    results if the run raised. *)
Theorem results_are_served_once_completed (w : world)
    (benchmark_results : gmap string (gmap string value))
    (task_id : string) (start finish : Q) (test_type : string)
    (max_level : Z) (product_id user_id : option string) (iterations : Z)
    (users products : list Z) :
  let run :=
    run_benchmark w test_type max_level product_id user_id iterations
      users products (init true) in
  let task :=
    _run_benchmark_task w benchmark_results task_id start finish
      test_type max_level product_id user_id iterations users products in
  (forall registry id answer,
     get_benchmark_results registry id = Ok answer ->
     is_Some (answer !! "results") ->
     registry !! id = Some answer /\
     answer !! "status" = Some (VStr "completed")) /\
  Forall
    (fun doc =>
       exists answer,
         get_benchmark_results (<[task_id := doc]> benchmark_results) task_id
           = Ok answer /\
         answer !! "status" = Some (VStr "running") /\
         answer !! "results" = None)
    (fst task) /\
  exists answer,
    get_benchmark_results (snd task) task_id = Ok answer /\
    match snd run with
    | Ok (pg, neo) =>
        snd task !! task_id = Some answer /\
        answer !! "results" = Some (VResults pg neo)
    | Raise _ =>
        answer !! "status" = Some (VStr "failed") /\
        answer !! "results" = None
    end.
Proof.
  cbv zeta. split; [|split].
  - intros registry id answer. unfold get_benchmark_results, getitem.
    destruct (registry !! id) as [task|] eqn:E.
    + destruct (task !! "status") as [status|] eqn:Es; [|discriminate].
      cbn [rbind]. destruct (is_str status "completed") eqn:Ec.
      * intros [= <-] _. split; [reflexivity|].
        destruct status as [s| | | | |]; try discriminate Ec.
        cbn in Ec. apply String.eqb_eq in Ec as ->. exact Es.
      * intros [= <-] [v Hv]. by simplify_map_eq.
    + intros [= <-] [v Hv]. by simplify_map_eq.
  - apply Forall_forall. intros doc Hin. apply list_elem_of_In in Hin.
    destruct (running_document _ _ _ _ _ _ _ _ _ _ _ _ doc Hin)
      as (Hs & _ & _ & _).
    unfold get_benchmark_results, getitem.
    rewrite lookup_insert_eq, Hs. cbn.
    eexists. split; [reflexivity|]. split; by simplify_map_eq.
  - destruct (task_settles w benchmark_results task_id start finish test_type
                max_level product_id user_id iterations users products)
      as (doc & -> & Hdoc).
    unfold get_benchmark_results, getitem. rewrite lookup_insert_eq.
    destruct (snd (run_benchmark w test_type max_level product_id user_id
                     iterations users products (init true)))
      as [[pg neo]|e]; destruct Hdoc as (Hs & Hr & Hp); rewrite Hs; cbn.
    + exists doc. split; [reflexivity|]. split; [reflexivity | exact Hr].
    + eexists. split; [reflexivity|]. split; by simplify_map_eq.
Qed.

(** Property X13.  [list_benchmarks] has an entry for every task of
    the registry.  For a benchmark task the entry shows, while the run is
    under way, the status "running", no results and the progress 0,
    whatever step the run has reached; when the task is over it shows
    "completed", results and the progress 100 if the run returned, and
    "failed", no results and the progress 0 if it raised. *)
Theorem listing_of_a_benchmark_task (w : world)
    (benchmark_results : gmap string (gmap string value))
    (task_id : string) (start finish : Q) (test_type : string)
    (max_level : Z) (product_id user_id : option string) (iterations : Z)
    (users products : list Z) :
  let run :=
    run_benchmark w test_type max_level product_id user_id iterations
      users products (init true) in
  let task :=
    _run_benchmark_task w benchmark_results task_id start finish
      test_type max_level product_id user_id iterations users products in
  (forall registry id doc,
     registry !! id = Some doc ->
     In (list_entry id doc) (list_benchmarks registry)) /\
  Forall
    (fun doc =>
       l_status (list_entry task_id doc) = VStr "running" /\
       l_has_results (list_entry task_id doc) = false /\
       l_progress (list_entry task_id doc) = VInt 0)
    (fst task) /\
  exists entry,
    In entry (list_benchmarks (snd task)) /\
    l_id entry = task_id /\
    match snd run with
    | Ok _ =>
        l_status entry = VStr "completed" /\
        l_has_results entry = true /\ l_progress entry = VInt 100
    | Raise _ =>
        l_status entry = VStr "failed" /\
        l_has_results entry = false /\ l_progress entry = VInt 0
    end.
Proof.
  cbv zeta. split; [|split].
  - intros registry id doc. apply list_benchmarks_entry.
  - apply Forall_forall. intros doc Hin. apply list_elem_of_In in Hin.
    destruct (running_document _ _ _ _ _ _ _ _ _ _ _ _ doc Hin)
      as (Hs & Hp & Hr & _).
    unfold list_entry, get_is_str. rewrite Hs, Hp. cbn. done.
  - destruct (task_settles w benchmark_results task_id start finish test_type
                max_level product_id user_id iterations users products)
      as (doc & -> & Hdoc).
    exists (list_entry task_id doc).
    split; [apply list_benchmarks_entry, lookup_insert_eq|].
    split; [reflexivity|].
    destruct (snd (run_benchmark w test_type max_level product_id user_id
                     iterations users products (init true)))
      as [[pg neo]|e]; destruct Hdoc as (Hs & Hr & Hp);
      unfold list_entry, get_is_str; rewrite Hs, Hr, Hp; cbn; done.
Qed.

End ListingTheorems.

(** * Comparing two benchmark tasks *)

Section CompareFacts.
Import Benchmark Registry.
Local Open Scope Q_scope.

(** The comparison of two averages never raises; it gives no line
    exactly when one of them is zero. *)
Lemma compare_total (pg n : Q) :
  exists r, Comparator.compare pg n = Ok r /\
    (r = None <-> pg == 0 \/ n == 0).
Proof.
  unfold Comparator.compare, Py.truthy.
  destruct (Qeq_bool pg 0) eqn:Epg.
  { apply Qeq_bool_iff in Epg. exists None. cbn. split; [done|].
    split; auto. }
  destruct (Qeq_bool n 0) eqn:En.
  { apply Qeq_bool_iff in En. exists None. cbn. split; [done|].
    split; auto. }
  apply Qeq_bool_neq in Epg, En. cbn [negb andb].
  destruct (Py.ltb n pg); cbn [rbind].
  - eexists. split; [reflexivity|]. split; [done | tauto].
  - destruct (Py.ltb 0 n) eqn:E0; cbn [Comparator.reciprocal rbind].
    + apply ltb_true in E0.
      rewrite truediv_nonzero.
      * cbn [rbind]. eexists. split; [reflexivity|]. split; [done | tauto].
      * intros H0. apply Epg.
        assert (H1 : pg == pg / n * n) by (field; lra).
        rewrite H1, H0. lra.
    + eexists. split; [reflexivity|]. split; [done | tauto].
Qed.

(** The lines of the answer, for entries with distinct operations. *)
Lemma compare_operations_answer (neo : gmap string stats)
    (entries : list (string * stats)) :
  NoDup entries.*1 ->
  exists acc,
    compare_operations neo entries = Ok acc /\
    forall op,
      match acc !! op with
      | Some line =>
          exists pg n, (op, pg) ∈ entries /\ neo !! op = Some n /\
            Comparator.compare (avg pg) (avg n) = Ok (Some line)
      | None =>
          (forall pg, (op, pg) ∉ entries) \/ neo !! op = None \/
          exists pg n, (op, pg) ∈ entries /\ neo !! op = Some n /\
            (avg pg == 0 \/ avg n == 0)
      end.
Proof.
  induction entries as [|[o p] rest IH]; intros Hnd.
  - exists ∅. split; [reflexivity|]. intros op. rewrite lookup_empty.
    left. intros pg Hin. by apply elem_of_nil in Hin.
  - cbn in Hnd. apply NoDup_cons in Hnd as [Ho Hnd].
    destruct (IH Hnd) as (acc & Hacc & Hlines).
    cbn [compare_operations]. rewrite Hacc. cbn [rbind].
    assert (Hrest : acc !! o = None).
    { specialize (Hlines o). destruct (acc !! o); [|done].
      destruct Hlines as (pg & _ & Hin & _). exfalso. apply Ho.
      apply list_elem_of_fmap. by exists (o, pg). }
    assert (Hother : forall op, op <> o ->
              match acc !! op with
              | Some line =>
                  exists pg n, (op, pg) ∈ (o, p) :: rest /\
                    neo !! op = Some n /\
                    Comparator.compare (avg pg) (avg n) = Ok (Some line)
              | None =>
                  (forall pg, (op, pg) ∉ (o, p) :: rest) \/
                  neo !! op = None \/
                  exists pg n, (op, pg) ∈ (o, p) :: rest /\
                    neo !! op = Some n /\ (avg pg == 0 \/ avg n == 0)
              end).
    { intros op Hne. specialize (Hlines op). destruct (acc !! op).
      - destruct Hlines as (pg & n & Hin & Hn & Hc).
        exists pg, n. split; [by apply elem_of_cons; right | done].
      - destruct Hlines as [Hno | [Hn | (pg & n & Hin & Hn & Hz)]].
        + left. intros pg Hin. apply elem_of_cons in Hin as [[= ? ?] | Hin];
            [done | by apply (Hno pg)].
        + right. by left.
        + right. right. exists pg, n.
          split; [by apply elem_of_cons; right | done]. }
    destruct (neo !! o) as [n|] eqn:En.
    + destruct (compare_total (avg p) (avg n)) as (r & Hr & Hnone).
      rewrite Hr. cbn [rbind]. destruct r as [line|].
      * eexists. split; [reflexivity|]. intros op.
        destruct (decide (op = o)) as [-> | Hne].
        -- rewrite lookup_insert_eq. exists p, n.
           split; [by apply elem_of_cons; left | done].
        -- rewrite lookup_insert_ne by done. by apply Hother.
      * exists acc. split; [reflexivity|]. intros op.
        destruct (decide (op = o)) as [-> | Hne]; [|by apply Hother].
        rewrite Hrest. right. right. exists p, n.
        split; [by apply elem_of_cons; left|]. split; [done|].
        by apply Hnone.
    + exists acc. split; [reflexivity|]. intros op.
      destruct (decide (op = o)) as [-> | Hne]; [|by apply Hother].
      rewrite Hrest. right. by left.
Qed.

End CompareFacts.

Section CompareTheorems.
Import Benchmark Registry.
Local Open Scope Q_scope.

(** Property X14.  [compare_benchmarks] raises 404 when one
    of the two tasks is unknown and 400 when one of them has a status
    other than "completed".  For two completed tasks that carry results
    it always answers, without an exception: there is a line for an
    operation exactly when the first task has it for PostgreSQL, the
    second for Neo4j, and neither average is zero, and the line is the
    comparison of these two averages. *)
Theorem compare_benchmarks_answers
    (benchmark_results : gmap string (gmap string value))
    (pg_task_id neo4j_task_id : string) :
  let answer :=
    compare_benchmarks benchmark_results pg_task_id neo4j_task_id in
  (benchmark_results !! pg_task_id = None \/
   benchmark_results !! neo4j_task_id = None ->
     answer = Raise (HTTPException 404)) /\
  (forall pg_task neo4j_task s1 s2,
     benchmark_results !! pg_task_id = Some pg_task ->
     benchmark_results !! neo4j_task_id = Some neo4j_task ->
     pg_task !! "status" = Some (VStr s1) ->
     neo4j_task !! "status" = Some (VStr s2) ->
     s1 <> "completed" \/ s2 <> "completed" ->
     answer = Raise (HTTPException 400)) /\
  (forall pg_task neo4j_task pg pg' neo' neo,
     benchmark_results !! pg_task_id = Some pg_task ->
     benchmark_results !! neo4j_task_id = Some neo4j_task ->
     pg_task !! "status" = Some (VStr "completed") ->
     neo4j_task !! "status" = Some (VStr "completed") ->
     pg_task !! "results" = Some (VResults pg pg') ->
     neo4j_task !! "results" = Some (VResults neo' neo) ->
     exists operations,
       answer = Ok operations /\
       forall operation,
         match operations !! operation with
         | Some line =>
             exists p n,
               pg !! operation = Some p /\ neo !! operation = Some n /\
               Comparator.compare (avg p) (avg n) = Ok (Some line)
         | None =>
             pg !! operation = None \/ neo !! operation = None \/
             exists p n,
               pg !! operation = Some p /\ neo !! operation = Some n /\
               (avg p == 0 \/ avg n == 0)
         end).
Proof.
  cbv zeta. unfold compare_benchmarks. split; [|split].
  - intros [-> | H]; [reflexivity|]. rewrite H.
    by destruct (benchmark_results !! pg_task_id).
  - intros pg_task neo4j_task s1 s2 -> -> Hs1 Hs2 Hne.
    unfold completed, getitem. rewrite Hs1, Hs2. cbn [rbind is_str].
    destruct (String.eqb s1 "completed") eqn:E1; cbn [negb]; [|reflexivity].
    apply String.eqb_eq in E1.
    destruct (String.eqb s2 "completed") eqn:E2; cbn [negb]; [|reflexivity].
    apply String.eqb_eq in E2. tauto.
  - intros pg_task neo4j_task pg pg' neo' neo -> -> Hs1 Hs2 Hr1 Hr2.
    unfold completed, results_of, getitem. rewrite Hs1, Hs2, Hr1, Hr2.
    cbn [rbind is_str String.eqb negb fst snd].
    change (String.eqb "completed" "completed") with true. cbn [negb].
    destruct (compare_operations_answer neo (map_to_list pg)
                (NoDup_fst_map_to_list pg)) as (acc & Hacc & Hlines).
    exists acc. split; [exact Hacc|]. intros operation.
    specialize (Hlines operation). destruct (acc !! operation).
    + destruct Hlines as (p & n & Hin & Hn & Hc).
      exists p, n. split; [by apply elem_of_map_to_list | done].
    + destruct Hlines as [Hno | [Hn | (p & n & Hin & Hn & Hz)]].
      * left. destruct (pg !! operation) as [p|] eqn:E; [|reflexivity].
        exfalso. apply (Hno p). by apply elem_of_map_to_list.
      * right. by left.
      * right. right. exists p, n.
        split; [by apply elem_of_map_to_list | done].
Qed.

End CompareTheorems.

(** * Following a user, once and again *)

Section FollowAgain.
Import Generator Pairs.

Lemma follow_user_healthy (a b : Z) (st : stores) :
  both_known a b st ->
  follow_user no_faults a b st
  = (mkStores (pg_users st)
       (if bool_decide ((a, b) ∈ pg_follows st) then pg_follows st
        else pg_follows st ++ [(a, b)])
       (neo4j_users st) ({[ (a, b) ]} ∪ neo4j_follows st),
     true).
Proof.
  intros (Ha & Hb & Ha' & Hb').
  unfold follow_user, follow_user_pg, follow_user_neo4j, no_faults.
  cbn [pg_read_fails pg_commit_fails neo4j_fails].
  rewrite (bool_decide_eq_true_2 _ Ha), (bool_decide_eq_true_2 _ Hb).
  cbn [negb].
  destruct (bool_decide ((a, b) ∈ pg_follows st)); cbn;
    rewrite (bool_decide_eq_true_2 _ Ha'), (bool_decide_eq_true_2 _ Hb');
    by destruct st.
Qed.

Lemma follow_effect_known a b st st' ok :
  follow_effect a b st st' ok -> both_known a b st -> both_known a b st'.
Proof.
  intros Heff H. apply follow_effect_grows in Heff as (E1 & E2 & _).
  unfold both_known in *. by rewrite E1, E2.
Qed.

Lemma rows_app a b st extra :
  rows a b (mkStores (pg_users st) (pg_follows st ++ extra)
              (neo4j_users st) (neo4j_follows st))
  = (rows a b st
     + length (List.filter (fun e => bool_decide (e = (a, b))) extra))%nat.
Proof. unfold rows. cbn. by rewrite List.filter_app, length_app. Qed.

Lemma rows_absent a b st : (a, b) ∉ pg_follows st -> rows a b st = O.
Proof.
  intros Hnin. unfold rows.
  induction (pg_follows st) as [|e l IH]; [reflexivity|].
  cbn. apply not_elem_of_cons in Hnin as [Hne Hnin].
  rewrite bool_decide_eq_false_2 by congruence. by apply IH.
Qed.

End FollowAgain.

Section FollowTheorems.
Import Generator Pairs.

(** Property X15.  [follow_user] can be called again.  When
    both users exist in both stores, a call on healthy backends reports
    success and leaves the edge in both stores, whatever an earlier call,
    failed or not, has left behind; it adds no second row for a pair
    that has one, and calling it once more changes nothing. *)
Theorem follow_user_can_be_retried (f : faults) (a b : Z) (st : stores) :
  both_known a b st ->
  let st1 := fst (follow_user f a b st) in
  let st2 := fst (follow_user no_faults a b st1) in
  snd (follow_user no_faults a b st1) = true /\
  committed a b st2 /\
  (rows a b st = O -> rows a b st2 = 1%nat) /\
  (rows a b st <> O -> rows a b st2 = rows a b st) /\
  follow_user no_faults a b st2 = (st2, true).
Proof.
  intros Hknown. cbv zeta.
  pose proof (follow_user_effect f a b st) as Heff.
  pose proof (follow_effect_known _ _ _ _ _ Heff Hknown) as Hknown1.
  rewrite (follow_user_healthy a b _ Hknown1). cbn [fst snd].
  split; [reflexivity|].
  set (st1 := fst (follow_user f a b st)) in *.
  assert (Hin2 : (a, b) ∈
            (if bool_decide ((a, b) ∈ pg_follows st1) then pg_follows st1
             else pg_follows st1 ++ [(a, b)])).
  { destruct (bool_decide ((a, b) ∈ pg_follows st1)) eqn:E.
    - by apply bool_decide_eq_true in E.
    - set_solver. }
  split; [split; cbn; [exact Hin2 | set_solver]|].
  assert (Hrows : forall l,
            length (List.filter (fun e => bool_decide (e = (a, b))) l) = O ->
            (a, b) ∉ l).
  { intros l Hl Hin. induction l as [|e l IH]; [by apply elem_of_nil in Hin|].
    cbn in Hl. destruct (bool_decide (e = (a, b))) eqn:E; [discriminate|].
    apply bool_decide_eq_false in E.
    apply elem_of_cons in Hin as [Heq | Hin]; [congruence | by apply IH]. }
  assert (Hpresent : forall l, (a, b) ∈ l ->
            length (List.filter (fun e => bool_decide (e = (a, b))) l) <> O).
  { intros l Hin Hl. by apply (Hrows l Hl). }
  assert (Hst2 :
    rows a b
      (mkStores (pg_users st1)
         (if bool_decide ((a, b) ∈ pg_follows st1) then pg_follows st1
          else pg_follows st1 ++ [(a, b)])
         (neo4j_users st1) ({[ (a, b) ]} ∪ neo4j_follows st1))
    = if bool_decide ((a, b) ∈ pg_follows st1) then rows a b st1
      else S (rows a b st1)).
  { unfold rows at 1. cbn [pg_follows].
    destruct (bool_decide ((a, b) ∈ pg_follows st1)); [reflexivity|].
    rewrite List.filter_app, length_app. cbn.
    rewrite bool_decide_eq_true_2 by done. unfold rows. cbn. lia. }
  rewrite Hst2.
  assert (Hcases :
    (pg_follows st1 = pg_follows st) \/
    (pg_follows st1 = pg_follows st ++ [(a, b)] /\ (a, b) ∉ pg_follows st)).
  { subst st1. inversion Heff as [Hs Hr | Hnin Hs Hr | Hin Hs Hr | Hnin Hs Hr];
      rewrite <- ?Hs; cbn; auto. }
  assert (Hr1 : rows a b st1 = rows a b st \/
                (rows a b st = O /\ rows a b st1 = 1%nat /\
                 (a, b) ∈ pg_follows st1)).
  { destruct Hcases as [E | [E Hnin]].
    - left. unfold rows. by rewrite E.
    - right. split; [by apply rows_absent|]. split.
      + unfold rows. rewrite E, List.filter_app, length_app. cbn.
        rewrite bool_decide_eq_true_2 by done.
        fold (rows a b st). rewrite (rows_absent _ _ _ Hnin). reflexivity.
      + rewrite E. set_solver. }
  split; [|split].
  - intros H0. destruct (bool_decide ((a, b) ∈ pg_follows st1)) eqn:E.
    + apply bool_decide_eq_true in E.
      destruct Hr1 as [Hr1 | (_ & Hr1 & _)]; [|exact Hr1].
      exfalso. apply (Hpresent _ E). fold (rows a b st1). congruence.
    + apply bool_decide_eq_false in E.
      rewrite (rows_absent _ _ _ E). reflexivity.
  - intros Hn. destruct Hr1 as [Hr1 | (H0 & _)]; [|contradiction].
    destruct (bool_decide ((a, b) ∈ pg_follows st1)) eqn:E; [exact Hr1|].
    apply bool_decide_eq_false in E. rewrite (rows_absent _ _ _ E) in Hr1.
    congruence.
  - rewrite follow_user_healthy.
    + cbn [pg_users pg_follows neo4j_users neo4j_follows].
      rewrite (bool_decide_eq_true_2 _ Hin2). f_equal. f_equal.
      by rewrite (assoc_L (∪)), (idemp_L (∪)).
    + destruct Hknown1 as (?&?&?&?). by repeat split.
Qed.

(** X15 after an attempt made with the graph down. *)
Lemma follow_user_can_be_retried_witness :
  let st1 := fst (follow_user graph_down 1 2 two_users) in
  let st2 := fst (follow_user no_faults 1 2 st1) in
  snd (follow_user no_faults 1 2 st1) = true /\
  committed 1 2 st2 /\
  (rows 1 2 two_users = O -> rows 1 2 st2 = 1%nat) /\
  (rows 1 2 two_users <> O -> rows 1 2 st2 = rows 1 2 two_users) /\
  follow_user no_faults 1 2 st2 = (st2, true).
Proof.
  apply (follow_user_can_be_retried graph_down 1 2 two_users).
  unfold both_known, two_users. cbn.
  repeat split; apply (bool_decide_unpack _); reflexivity.
Defined.

(** Property X16.  The follow endpoint answers 400 to a user
    following themselves and touches neither store; it answers with
    success only when the edge is in both stores; every other outcome is
    the error 404, also when both users exist and a database call failed,
    and then the graph is as it was.  On healthy backends, two different
    users known to both stores are always answered with success. *)
Theorem follow_endpoint_answers (f : faults) (a b : Z) (st : stores) :
  let st' := fst (UsersApi.follow_user f a b st) in
  let answer := snd (UsersApi.follow_user f a b st) in
  (a = b -> answer = Raise (HTTPException 400) /\ st' = st) /\
  (answer = Ok tt -> a <> b /\ committed a b st') /\
  (a <> b -> answer <> Ok tt ->
     answer = Raise (HTTPException 404) /\
     neo4j_follows st' = neo4j_follows st) /\
  (a <> b -> both_known a b st -> f = no_faults -> answer = Ok tt).
Proof.
  cbv zeta. unfold UsersApi.follow_user.
  destruct (a =? b)%Z eqn:E.
  - apply Z.eqb_eq in E. cbn. repeat split; try done.
  - apply Z.eqb_neq in E.
    pose proof (follow_user_effect f a b st) as Heff.
    pose proof (follow_user_healthy a b st) as Hhealthy.
    destruct (follow_user f a b st) as [st' [|]] eqn:Erun; cbn [fst snd] in *.
    + split; [done|]. split.
      * intros _. split; [done|]. by apply follow_effect_committed in Heff.
      * split; [done | done].
    + split; [done|]. split; [done|]. split.
      * intros _ _. split; [done|].
        by apply follow_effect_failed in Heff as [Hg _].
      * intros _ Hknown ->. rewrite Erun in Hhealthy.
        specialize (Hhealthy Hknown). congruence.
Qed.

End FollowTheorems.

(** * A run of [generate_follows] *)

Section Slices.
Import Generator.
Context {A : Type}.

Lemma slices_nil size : slices size (@nil A) = [].
Proof.
  unfold slices. cbn [length]. destruct size as [|n]; [reflexivity|].
  replace (0 + S n - 1)%nat with n by lia.
  by rewrite Nat.div_small by lia.
Qed.

Lemma slices_cons size (l : list A) :
  (0 < size)%nat -> l <> [] ->
  slices size l = take size l :: slices size (drop size l).
Proof.
  intros Hs Hl. unfold slices.
  assert (Hn : ((length l + size - 1) / size
                = S ((length (drop size l) + size - 1) / size))%nat).
  { rewrite length_drop. destruct l as [|x l]; [done|]. cbn [length].
    destruct (le_lt_dec size (S (length l))) as [Hle | Hlt].
    - replace (S (length l) + size - 1)%nat
        with ((S (length l) - size + size - 1) + 1 * size)%nat by lia.
      rewrite Nat.div_add by lia. lia.
    - replace (S (length l) - size + size - 1)%nat with (size - 1)%nat
        by lia.
      rewrite (Nat.div_small (size - 1)) by lia.
      replace (S (length l) + size - 1)%nat
        with (length l + 1 * size)%nat by lia.
      rewrite Nat.div_add by lia. rewrite Nat.div_small by lia.
      reflexivity. }
  rewrite Hn. cbn [seq List.map]. f_equal.
  rewrite <- seq_shift, List.map_map. apply List.map_ext. intros j.
  rewrite drop_drop. f_equal; lia.
Qed.

(** The slices are taken from the front, one after the other. *)
Lemma slices_ind size (P : list A -> list (list A) -> Prop) :
  (0 < size)%nat ->
  P [] [] ->
  (forall l, l <> [] ->
     P (drop size l) (slices size (drop size l)) ->
     P l (take size l :: slices size (drop size l))) ->
  forall l, P l (slices size l).
Proof.
  intros Hs H0 Hstep l.
  remember (length l) as n eqn:En. revert l En.
  induction n as [n IH] using lt_wf_ind. intros l En.
  destruct l as [|x l]; [by rewrite slices_nil|].
  rewrite slices_cons by done. apply Hstep; [done|].
  apply (IH (length (drop size (x :: l)))); [|reflexivity].
  rewrite length_drop. subst n. cbn [length]. lia.
Qed.

Lemma concat_slices size (l : list A) :
  (0 < size)%nat -> concat (slices size l) = l.
Proof.
  intros Hs. apply (slices_ind size (fun l ss => concat ss = l)); [done..|].
  intros l' _ IH. cbn [concat]. rewrite IH. apply take_drop.
Qed.

End Slices.

Section HealthyRun.
Import Generator Pairs.

Lemma grown_refl st : grown st st.
Proof. by repeat split. Qed.

Lemma grown_trans st1 st2 st3 : grown st1 st2 -> grown st2 st3 -> grown st1 st3.
Proof.
  intros (A1 & A2 & A3 & A4) (B1 & B2 & B3 & B4).
  split; [congruence|]. split; [congruence|]. split; auto.
Qed.

Lemma grown_known ids st st' :
  grown st st' -> users_known ids st -> users_known ids st'.
Proof.
  intros (E1 & E2 & _) H u Hu. rewrite E1, E2. by apply H.
Qed.

Lemma grown_committed a b st st' :
  grown st st' -> committed a b st -> committed a b st'.
Proof. intros (_ & _ & G1 & G2) [H1 H2]. split; auto. Qed.

Lemma create_follow_healthy ids a b st :
  users_known ids st -> proper ids (a, b) ->
  snd (_create_follow no_faults a b st) = true /\
  grown st (fst (_create_follow no_faults a b st)) /\
  committed a b (fst (_create_follow no_faults a b st)).
Proof.
  intros Hknown (Hne & Ha & Hb). cbn [fst snd] in Hne, Ha, Hb.
  destruct (Hknown a Ha) as [Ha1 Ha2]. destruct (Hknown b Hb) as [Hb1 Hb2].
  destruct (create_follow_effect no_faults a b st) as [[Heq _] | [_ Heff]];
    [done|].
  unfold _create_follow in *.
  destruct (a =? b)%Z eqn:E; [by apply Z.eqb_eq in E|].
  rewrite follow_user_healthy in * by done. cbn [fst snd] in *.
  split; [reflexivity|]. split.
  - by apply follow_effect_grows in Heff.
  - by apply follow_effect_committed in Heff.
Qed.

Lemma gather_healthy ids edges st :
  users_known ids st -> Forall (proper ids) edges ->
  success_count (snd (gather healthy edges st)) = Z.of_nat (length edges) /\
  grown st (fst (gather healthy edges st)) /\
  (forall a b, In (a, b) edges ->
     committed a b (fst (gather healthy edges st))).
Proof.
  revert st. induction edges as [|[a b] rest IH]; intros st Hknown Hall.
  - cbn. split; [reflexivity|]. split; [apply grown_refl | intros ? ? []].
  - apply Forall_cons in Hall as [He Hrest].
    rewrite gather_fst_snd. cbn [fst snd]. change (healthy a b) with no_faults.
    destruct (create_follow_healthy ids a b st Hknown He)
      as (Hok & Hgrown & Hcommitted).
    set (st1 := fst (_create_follow no_faults a b st)) in *.
    destruct (IH st1 (grown_known _ _ _ Hgrown Hknown) Hrest)
      as (Hcount & Hgrown' & Hall').
    rewrite Hok. split; [|split].
    + unfold success_count in *. cbn [List.filter length].
      rewrite Nat2Z.inj_succ, Hcount. lia.
    + by eapply grown_trans.
    + intros x y [[= <- <-] | Hin]; [|by apply Hall'].
      by eapply grown_committed.
Qed.

Lemma run_sub_batches_healthy ids sub_batches st total :
  users_known ids st -> Forall (Forall (proper ids)) sub_batches ->
  snd (run_sub_batches healthy sub_batches st total)
  = (total + Z.of_nat (length (concat sub_batches)))%Z /\
  grown st (fst (run_sub_batches healthy sub_batches st total)) /\
  (forall a b, In (a, b) (concat sub_batches) ->
     committed a b (fst (run_sub_batches healthy sub_batches st total))).
Proof.
  revert st total.
  induction sub_batches as [|sb rest IH]; intros st total Hknown Hall.
  - cbn. split; [lia|]. split; [apply grown_refl | intros ? ? []].
  - apply Forall_cons in Hall as [Hsb Hrest]. cbn [run_sub_batches concat].
    destruct (gather_healthy ids sb st Hknown Hsb)
      as (Hcount & Hgrown & Hcommitted).
    destruct (gather healthy sb st) as [st1 results]. cbn [fst snd] in *.
    destruct (IH st1 (total + success_count results)%Z
                (grown_known _ _ _ Hgrown Hknown) Hrest)
      as (Htotal & Hgrown' & Hcommitted').
    split; [|split].
    + rewrite Htotal, Hcount, length_app. lia.
    + by eapply grown_trans.
    + intros a b Hin. apply in_app_or in Hin as [Hin | Hin].
      * eapply grown_committed; [exact Hgrown'|]. by apply Hcommitted.
      * by apply Hcommitted'.
Qed.

Lemma Forall_slices {A} (P : A -> Prop) size (l : list A) :
  Forall P l -> Forall (Forall P) (slices size l).
Proof.
  intros H. unfold slices. apply Forall_forall. intros s Hs.
  apply list_elem_of_In, in_map_iff in Hs as (j & <- & _).
  by apply Forall_take, Forall_drop.
Qed.

Lemma randint_in_range a b r :
  (a <= b)%Z ->
  exists n r', randint a b r = (Ok n, r') /\ (a <= n <= b)%Z.
Proof.
  intros Hab. unfold randint.
  destruct (b <? a)%Z eqn:E; [apply Z.ltb_lt in E; lia|].
  destruct (draw r) as [x r']. eexists _, _. split; [reflexivity|].
  pose proof (Z.mod_pos_bound (Z.of_nat x) (b - a + 1)). lia.
Qed.

Lemma sample_length {A} (population : list A) k r :
  (k <= length population)%nat ->
  length (fst (sample population k r)) = k.
Proof.
  revert population r. induction k as [|k IH]; intros population r Hk;
    [reflexivity|].
  cbn [sample]. destruct (draw r) as [x r'].
  assert (Hi : (x mod length population < length population)%nat)
    by (apply Nat.mod_upper_bound; lia).
  destruct (lookup_lt_is_Some_2 population _ Hi) as [a Ha]. rewrite Ha.
  pose proof (IH (delete (x mod length population)%nat population) r') as IH'.
  destruct (sample (delete (x mod length population)%nat population) k r')
    as [rest r''].
  cbn [fst length] in *. rewrite IH'; [reflexivity|].
  rewrite length_delete by (by eexists). lia.
Qed.

(** A user other than [u], when the list has two different users. *)
Lemma another_user (ids : list Z) (u : Z) :
  NoDup ids -> (2 <= length ids)%nat -> exists v, In v ids /\ v <> u.
Proof.
  intros Hnd Hlen. destruct ids as [|x [|y rest]]; cbn in Hlen; try lia.
  apply NoDup_cons in Hnd as [Hx _].
  destruct (decide (x = u)) as [-> | Hne].
  - exists y. split; [cbn; auto|]. intros ->. apply Hx. set_solver.
  - exists x. split; [cbn; auto | done].
Qed.

Lemma follows_of_user_healthy ids max_follows u r :
  NoDup ids -> (2 <= length ids)%nat -> (1 <= max_follows)%Z ->
  exists edges r',
    follows_of_user ids max_follows u r = (Ok edges, r') /\
    (1 <= Z.of_nat (length edges) <= max_follows)%Z.
Proof.
  intros Hnd Hlen Hmax. unfold follows_of_user.
  destruct (randint_in_range 1
              (Z.min max_follows (Z.of_nat (length ids) - 1)) r)
    as (num & r1 & -> & Hnum); [lia|].
  set (pool0 := potential_follows ids u).
  assert (Hpool0 : (1 <= length pool0)%nat).
  { destruct (another_user ids u Hnd Hlen) as (v & Hv & Hne).
    assert (Hin : In v pool0).
    { unfold pool0, potential_follows. apply filter_In. split; [done|].
      by apply negb_true_iff, Z.eqb_neq. }
    destruct pool0; [destruct Hin | cbn; lia]. }
  assert (Hpool : forall p : list Z * rng,
            p = (if (100 <? length pool0)%nat then sample pool0 100 r1
                 else (pool0, r1)) ->
            (1 <= length (fst p))%nat).
  { intros p ->. destruct (100 <? length pool0)%nat eqn:E; [|exact Hpool0].
    apply Nat.ltb_lt in E. rewrite sample_length by lia. lia. }
  destruct (if (100 <? length pool0)%nat then sample pool0 100 r1
            else (pool0, r1)) as [pool r2].
  specialize (Hpool (pool, r2) eq_refl). cbn [fst] in Hpool.
  destruct pool as [|p0 pool']; [cbn in Hpool; lia|].
  destruct (0 <? num)%Z eqn:E; [|apply Z.ltb_ge in E; lia].
  pose proof (sample_length (p0 :: pool')
                (Nat.min (Z.to_nat num) (length (p0 :: pool'))) r2
                (Nat.le_min_r _ _)) as Hs.
  destruct (sample (p0 :: pool')
              (Nat.min (Z.to_nat num) (length (p0 :: pool'))) r2)
    as [follows r3].
  cbn [fst] in Hs. eexists _, _. split; [reflexivity|].
  rewrite length_map, Hs. lia.
Qed.

Lemma follows_of_user_proper ids max_follows u r edges r' :
  In u ids ->
  follows_of_user ids max_follows u r = (Ok edges, r') ->
  Forall (proper ids) edges /\ forall e, In e edges -> e.1 = u.
Proof.
  intros Hu Hrun.
  pose proof (follows_of_user_distinct ids max_follows u r edges r' Hrun)
    as H.
  split.
  - apply Forall_forall. intros [a b] Hin. apply list_elem_of_In in Hin.
    destruct (H a b Hin) as (-> & Hne & Hb). by repeat split; cbn.
  - intros [a b] Hin. by destruct (H a b Hin) as (-> & _).
Qed.

Lemma batch_follows_of_healthy ids max_follows batch r :
  NoDup ids -> (2 <= length ids)%nat -> (1 <= max_follows)%Z ->
  (forall u, In u batch -> In u ids) ->
  exists edges r',
    batch_follows_of ids max_follows batch r = (Ok edges, r') /\
    (Z.of_nat (length batch) <= Z.of_nat (length edges)
     <= Z.of_nat (length batch) * max_follows)%Z /\
    Forall (proper ids) edges /\
    (forall u, In u batch -> exists v, In (u, v) edges).
Proof.
  intros Hnd Hlen Hmax. revert r.
  induction batch as [|u rest IH]; intros r Hsub.
  - exists [], r. cbn. split; [reflexivity|]. split; [lia|].
    split; [constructor | intros ? []].
  - cbn [batch_follows_of].
    destruct (follows_of_user_healthy ids max_follows u r Hnd Hlen Hmax)
      as (mine & r1 & Hmine & Hcount).
    destruct (follows_of_user_proper ids max_follows u r mine r1
                (Hsub u (or_introl eq_refl)) Hmine) as [Hproper Hfrom].
    rewrite Hmine.
    destruct (IH r1 (fun v Hv => Hsub v (or_intror Hv)))
      as (others & r2 & -> & Hcount' & Hproper' & Hall).
    eexists _, _. split; [reflexivity|]. split; [|split].
    + rewrite length_app. cbn [length]. nia.
    + by apply Forall_app.
    + intros v [<- | Hv].
      * destruct mine as [|[a b] mine']; [cbn in Hcount; lia|].
        exists b. apply in_or_app. left.
        rewrite <- (Hfrom (a, b) (or_introl eq_refl)). cbn. auto.
      * destruct (Hall v Hv) as [x Hx]. exists x. apply in_or_app. auto.
Qed.

Lemma run_batches_healthy ids max_follows batches st r total :
  NoDup ids -> (2 <= length ids)%nat -> (1 <= max_follows)%Z ->
  users_known ids st ->
  (forall u, In u (concat batches) -> In u ids) ->
  exists st' r' total',
    run_batches healthy ids max_follows batches st r total
    = (st', r', total', None) /\
    grown st st' /\
    (total + Z.of_nat (length (concat batches)) <= total'
     <= total + Z.of_nat (length (concat batches)) * max_follows)%Z /\
    (forall u, In u (concat batches) ->
       exists v, proper ids (u, v) /\ committed u v st').
Proof.
  intros Hnd Hlen Hmax. revert st r total.
  induction batches as [|batch rest IH]; intros st r total Hknown Hsub.
  - exists st, r, total. cbn. split; [reflexivity|].
    split; [apply grown_refl|]. split; [lia | intros ? []].
  - cbn [run_batches concat] in *.
    destruct (batch_follows_of_healthy ids max_follows batch r Hnd Hlen Hmax
                (fun u Hu => Hsub u (in_or_app _ _ _ (or_introl Hu))))
      as (edges & r1 & -> & Hcount & Hproper & Hall).
    destruct (run_sub_batches_healthy ids (slices 100 edges) st total Hknown
                (Forall_slices _ _ _ Hproper))
      as (Htotal & Hgrown & Hcommitted).
    rewrite concat_slices in Htotal, Hcommitted by lia.
    destruct (run_sub_batches healthy (slices 100 edges) st total)
      as [st1 total1]. cbn [fst snd] in *.
    destruct (IH st1 r1 total1 (grown_known _ _ _ Hgrown Hknown)
                (fun u Hu => Hsub u (in_or_app _ _ _ (or_intror Hu))))
      as (st' & r' & total' & -> & Hgrown' & Hbounds & Hall').
    exists st', r', total'. split; [reflexivity|].
    split; [by eapply grown_trans|]. split.
    + rewrite length_app. nia.
    + intros u Hu. apply in_app_or in Hu as [Hu | Hu]; [|by apply Hall'].
      destruct (Hall u Hu) as [v Hv]. exists v. split.
      * rewrite Forall_forall in Hproper. apply Hproper.
        by apply list_elem_of_In.
      * eapply grown_committed; [exact Hgrown'|]. by apply Hcommitted.
Qed.

Lemma first_user_rejected ids max_follows u r :
  (max_follows <= 0)%Z ->
  follows_of_user ids max_follows u r = (Raise ValueError, r).
Proof.
  intros Hmax. unfold follows_of_user, randint.
  destruct (Z.min max_follows (Z.of_nat (length ids) - 1) <? 1)%Z eqn:E;
    [reflexivity|].
  apply Z.ltb_ge in E. lia.
Qed.

End HealthyRun.

Section GenerateFollowsTheorems.
Import Generator Pairs.

(** Property X17.  On healthy backends, with at least two
    users, no identifier twice, every user known to both stores and a
    limit of at least one, [generate_follows] returns without raising; the
    number it returns is the counter it leaves, at least one per user and
    at most the limit per user; and every user then follows some other
    user of the list in both stores. *)
Theorem generate_follows_on_healthy_stores (max_follows_per_user : Z)
    (g : DataGenerator) :
  NoDup (user_ids g) -> (2 <= length (user_ids g))%nat ->
  (1 <= max_follows_per_user)%Z ->
  users_known (user_ids g) (db g) ->
  let g' := fst (generate_follows healthy max_follows_per_user g) in
  exists total,
    snd (generate_follows healthy max_follows_per_user g) = Ok total /\
    follow_count g' = total /\
    user_ids g' = user_ids g /\
    (Z.of_nat (length (user_ids g)) <= total
     <= Z.of_nat (length (user_ids g)) * max_follows_per_user)%Z /\
    (forall u, In u (user_ids g) ->
       exists v, In v (user_ids g) /\ v <> u /\ committed u v (db g')).
Proof.
  intros Hnd Hlen Hmax Hknown. cbv zeta. unfold generate_follows.
  destruct (length (user_ids g) <? 2)%nat eqn:E;
    [apply Nat.ltb_lt in E; lia|].
  destruct (run_batches_healthy (user_ids g) max_follows_per_user
              (slices 1000 (user_ids g)) (db g) (random g) 0 Hnd Hlen Hmax
              Hknown)
    as (st' & r' & total & -> & _ & Hbounds & Hall).
  { intros u. by rewrite concat_slices by lia. }
  rewrite concat_slices in Hbounds, Hall by lia.
  exists total. cbn [fst snd follow_count user_ids db].
  split; [reflexivity|]. split; [reflexivity|]. split; [reflexivity|].
  split; [lia|].
  intros u Hu. destruct (Hall u Hu) as (v & (Hne & _ & Hv) & Hc).
  exists v. cbn in Hne, Hv. split; [done|]. split; [congruence | done].
Qed.

(** X17 on three users who follow nobody yet. *)
Lemma generate_follows_on_healthy_stores_witness :
  let g' := fst (generate_follows healthy 2 three_users) in
  exists total,
    snd (generate_follows healthy 2 three_users) = Ok total /\
    follow_count g' = total /\
    user_ids g' = user_ids three_users /\
    (Z.of_nat (length (user_ids three_users)) <= total
     <= Z.of_nat (length (user_ids three_users)) * 2)%Z /\
    (forall u, In u (user_ids three_users) ->
       exists v, In v (user_ids three_users) /\ v <> u /\
                 committed u v (db g')).
Proof.
  apply (generate_follows_on_healthy_stores 2 three_users).
  - apply (bool_decide_unpack _). reflexivity.
  - cbn. lia.
  - lia.
  - intros u Hu. cbn in Hu.
    destruct Hu as [<- | [<- | [<- | []]]];
      split; apply (bool_decide_unpack _); reflexivity.
Defined.

(** Property X18.  With at least two users and a limit of
    zero or less, [generate_follows] raises [ValueError] at the first
    user: it writes to neither store, draws no random number and leaves
    the counter at zero.  With fewer than two users it returns 0 and
    leaves the generator as it was, the counter included. *)
Theorem generate_follows_without_a_range (fault_of : Z -> Z -> faults)
    (max_follows_per_user : Z) (g : DataGenerator) :
  ((2 <= length (user_ids g))%nat -> (max_follows_per_user <= 0)%Z ->
     generate_follows fault_of max_follows_per_user g
     = (mkGen (user_ids g) 0 (db g) (random g), Raise ValueError)) /\
  ((length (user_ids g) < 2)%nat ->
     generate_follows fault_of max_follows_per_user g = (g, Ok 0%Z)).
Proof.
  unfold generate_follows. split.
  - intros Hlen Hmax.
    destruct (length (user_ids g) <? 2)%nat eqn:E;
      [apply Nat.ltb_lt in E; lia|].
    destruct (user_ids g) as [|u rest] eqn:Eids; [cbn in Hlen; lia|].
    rewrite slices_cons by (done || lia).
    cbn [take run_batches batch_follows_of].
    by rewrite first_user_rejected.
  - intros Hlen. by rewrite (proj2 (Nat.ltb_lt _ _) Hlen).
Qed.

(** X18 on three users and a limit of zero. *)
Lemma generate_follows_without_a_range_witness :
  generate_follows healthy 0 three_users
  = (mkGen (user_ids three_users) 0 (db three_users) (random three_users),
     Raise ValueError).
Proof.
  apply (generate_follows_without_a_range healthy 0 three_users).
  - cbn. lia.
  - lia.
Defined.

End GenerateFollowsTheorems.

(** * Purchases in the two stores *)

Section PurchaseFacts.
Import Purchases.

(** What one [_create_purchase] can do to the stores. *)
Lemma create_purchase_effect c u p st :
  let st' := fst (_create_purchase c u p st) in
  let r := snd (_create_purchase c u p st) in
  let row := mkPurchase (assigned_id c) u p in
  (r = None /\ neo4j_bought st' = neo4j_bought st /\
   (pg_purchases st' = pg_purchases st \/
    pg_purchases st' = pg_purchases st ++ [row])) \/
  (r = Some row /\ u ∈ pg_users st /\ p ∈ pg_products st /\
   pg_purchases st' = pg_purchases st ++ [row] /\
   ((u ∈ neo4j_users st /\ p ∈ neo4j_products st /\
     neo4j_bought st' = neo4j_bought st ++ [(u, p, assigned_id c)]) \/
    (~ (u ∈ neo4j_users st /\ p ∈ neo4j_products st) /\
     neo4j_bought st' = neo4j_bought st))).
Proof.
  cbv zeta. unfold _create_purchase, create_purchase, match_create_bought.
  destruct (select_fails c); [left; cbn; auto|].
  destruct (bool_decide (u ∈ pg_users st)) eqn:Eu; [|left; cbn; auto].
  destruct (bool_decide (p ∈ pg_products st)) eqn:Ep; [|left; cbn; auto].
  apply bool_decide_eq_true in Eu, Ep. cbn [negb orb].
  destruct (commit_fails c); [left; cbn; auto|].
  destruct (refresh_fails c); [left; cbn; auto|].
  destruct (graph_fails c); [left; cbn; auto|].
  right. cbn [user_id product_id id with_purchase neo4j_users
              neo4j_products].
  destruct (bool_decide (u ∈ neo4j_users st)) eqn:Eu';
    destruct (bool_decide (p ∈ neo4j_products st)) eqn:Ep'; cbn;
    repeat (split; [done|]);
    try apply bool_decide_eq_true in Eu';
    try apply bool_decide_eq_true in Ep';
    try apply bool_decide_eq_false in Eu';
    try apply bool_decide_eq_false in Ep';
    first [ by left | right; split; [tauto | done] ].
Qed.

Lemma create_purchase_sets c u p st :
  let st' := fst (_create_purchase c u p st) in
  pg_users st' = pg_users st /\ pg_products st' = pg_products st /\
  neo4j_users st' = neo4j_users st /\ neo4j_products st' = neo4j_products st.
Proof.
  cbv zeta. unfold _create_purchase, create_purchase, match_create_bought.
  destruct (select_fails c); [done|].
  destruct (_ || _); [done|].
  destruct (commit_fails c); [done|].
  destruct (refresh_fails c); [done|].
  destruct (graph_fails c); [done|].
  cbn. by destruct (_ && _).
Qed.

(** The new edges are at most the purchases reported, and these are at
    most the new rows. *)
Lemma create_purchase_counts c u p st :
  let st' := fst (_create_purchase c u p st) in
  let r := snd (_create_purchase c u p st) in
  (Z.of_nat (length (neo4j_bought st')) - Z.of_nat (length (neo4j_bought st))
   <= success_count [r]
   <= Z.of_nat (length (pg_purchases st')) - Z.of_nat (length (pg_purchases st)))%Z
  /\ (length (neo4j_bought st) <= length (neo4j_bought st'))%nat.
Proof.
  cbv zeta.
  destruct (create_purchase_effect c u p st)
    as [(-> & -> & [-> | ->]) | (-> & _ & _ & -> & [(_ & _ & ->) | (_ & ->)])];
    unfold success_count; cbn; rewrite ?length_app; cbn; lia.
Qed.

Lemma purchases_gather_fst_snd conditions_of u p rest st :
  gather conditions_of ((u, p) :: rest) st =
  (fst (gather conditions_of rest
          (fst (_create_purchase (conditions_of u p) u p st))),
   snd (_create_purchase (conditions_of u p) u p st)
   :: snd (gather conditions_of rest
             (fst (_create_purchase (conditions_of u p) u p st)))).
Proof.
  cbn [gather]. destruct (_create_purchase _ u p st) as [st1 r].
  cbn [fst snd]. by destruct (gather conditions_of rest st1).
Qed.

Lemma success_count_cons r rs :
  success_count (r :: rs) = (success_count [r] + success_count rs)%Z.
Proof.
  unfold success_count. cbn.
  destruct (bool_decide (is_Some r)); cbn [length]; lia.
Qed.

Lemma success_count_one r : (0 <= success_count [r] <= 1)%Z.
Proof.
  unfold success_count. cbn. destruct (bool_decide (is_Some r)); cbn; lia.
Qed.

Lemma gather_counts conditions_of sub_batch st :
  between st (fst (gather conditions_of sub_batch st))
    (success_count (snd (gather conditions_of sub_batch st))) /\
  (0 <= success_count (snd (gather conditions_of sub_batch st))
   <= Z.of_nat (length sub_batch))%Z.
Proof.
  revert st. induction sub_batch as [|[u p] rest IH]; intros st.
  - unfold between, success_count. cbn. lia.
  - rewrite purchases_gather_fst_snd. cbn [fst snd]. rewrite success_count_cons.
    destruct (create_purchase_counts (conditions_of u p) u p st) as [H1 _].
    pose proof (success_count_one
                  (snd (_create_purchase (conditions_of u p) u p st))).
    destruct (IH (fst (_create_purchase (conditions_of u p) u p st)))
      as [H2 H3].
    unfold between in *. cbn [length]. lia.
Qed.

Lemma run_sub_batches_counts conditions_of sub_batches st total :
  let st' := fst (run_sub_batches conditions_of sub_batches st total) in
  let total' := snd (run_sub_batches conditions_of sub_batches st total) in
  between st st' (total' - total) /\
  (0 <= total' - total <= Z.of_nat (length (concat sub_batches)))%Z.
Proof.
  cbv zeta. revert st total.
  induction sub_batches as [|sb rest IH]; intros st total.
  - unfold between. cbn. lia.
  - cbn [run_sub_batches concat].
    destruct (gather_counts conditions_of sb st) as [H1 H2].
    destruct (gather conditions_of sb st) as [st1 results].
    cbn [fst snd] in *.
    destruct (IH st1 (total + success_count results)%Z) as [H3 H4].
    unfold between in *. rewrite length_app. lia.
Qed.

Lemma randint_from_zero (b : Z) r :
  (0 <= b)%Z ->
  exists n r', Generator.randint 0 b r = (Ok n, r') /\ (0 <= n <= b)%Z.
Proof. intros Hb. by apply randint_in_range. Qed.

Lemma purchases_of_user_length product_sample max_purchases u r :
  (0 <= max_purchases)%Z ->
  exists pairs r',
    purchases_of_user product_sample max_purchases u r = (Ok pairs, r') /\
    (Z.of_nat (length pairs) <= max_purchases)%Z /\
    (forall e, In e pairs -> e.1 = u /\ In e.2 product_sample).
Proof.
  intros Hmax. unfold purchases_of_user.
  destruct (randint_from_zero max_purchases r Hmax)
    as (num & r1 & -> & Hnum).
  destruct (num =? 0)%Z.
  { eexists _, _. split; [reflexivity|]. split; [cbn; lia | intros ? []]. }
  destruct (0 <? length product_sample)%nat.
  2: { eexists _, _. split; [reflexivity|]. split; [cbn; lia | intros ? []]. }
  pose proof (sample_length product_sample
                (Nat.min (Z.to_nat num) (length product_sample)) r1
                (Nat.le_min_r _ _)) as Hlen.
  pose proof (fun x => sample_subset product_sample
                (Nat.min (Z.to_nat num) (length product_sample)) r1 x)
    as Hsub.
  destruct (Generator.sample product_sample
              (Nat.min (Z.to_nat num) (length product_sample)) r1)
    as [purchases r2].
  cbn [fst] in *. eexists _, _. split; [reflexivity|]. split.
  - rewrite length_map, Hlen. lia.
  - intros e He. apply in_map_iff in He as (x & <- & Hx). cbn. auto.
Qed.

Lemma batch_purchases_of_length product_sample max_purchases batch r :
  (0 <= max_purchases)%Z ->
  exists pairs r',
    batch_purchases_of product_sample max_purchases batch r
    = (Ok pairs, r') /\
    (Z.of_nat (length pairs) <= Z.of_nat (length batch) * max_purchases)%Z.
Proof.
  intros Hmax. revert r. induction batch as [|u rest IH]; intros r.
  - exists [], r. cbn. split; [reflexivity | lia].
  - cbn [batch_purchases_of].
    destruct (purchases_of_user_length product_sample max_purchases u r Hmax)
      as (mine & r1 & -> & Hmine & _).
    destruct (IH r1) as (others & r2 & -> & Hothers).
    eexists _, _. split; [reflexivity|].
    rewrite length_app. cbn [length]. nia.
Qed.

Lemma run_batches_counts conditions_of product_sample max_purchases
    batches st r total :
  (0 <= max_purchases)%Z ->
  exists st' r' total',
    run_batches conditions_of product_sample max_purchases batches st r total
    = (st', r', total', None) /\
    between st st' (total' - total) /\
    (0 <= total' - total
     <= Z.of_nat (length (concat batches)) * max_purchases)%Z.
Proof.
  intros Hmax. revert st r total.
  induction batches as [|batch rest IH]; intros st r total.
  - exists st, r, total. unfold between. cbn. split; [reflexivity | lia].
  - cbn [run_batches concat].
    destruct (batch_purchases_of_length product_sample max_purchases batch r
                Hmax) as (pairs & r1 & -> & Hpairs).
    pose proof (run_sub_batches_counts conditions_of
                  (Generator.slices 100 pairs) st total) as [H1 H2].
    rewrite concat_slices in H2 by lia.
    destruct (run_sub_batches conditions_of (Generator.slices 100 pairs)
                st total) as [st1 total1]. cbn [fst snd] in *.
    destruct (IH st1 r1 total1) as (st' & r' & total' & -> & H3 & H4).
    exists st', r', total'. split; [reflexivity|].
    unfold between in *. rewrite length_app. nia.
Qed.

Lemma sample_above_length limit ids r :
  (length (fst (sample_above limit ids r)) <= length ids)%nat.
Proof.
  unfold sample_above.
  destruct (limit <? Z.of_nat (length ids))%Z eqn:E; [|done].
  apply Z.ltb_lt in E. rewrite sample_length; lia.
Qed.

Lemma sample_above_nonempty limit ids r :
  (0 < limit)%Z -> ids <> [] -> fst (sample_above limit ids r) <> [].
Proof.
  intros Hl Hne. unfold sample_above.
  destruct (limit <? Z.of_nat (length ids))%Z eqn:E; [|done].
  apply Z.ltb_lt in E.
  pose proof (sample_length ids (Z.to_nat limit) r ltac:(lia)) as Hlen.
  intros Hnil. rewrite Hnil in Hlen. cbn in Hlen. lia.
Qed.

Lemma sample_above_nil limit r : sample_above limit [] r = ([], r).
Proof.
  unfold sample_above. cbn [length].
  destruct (limit <? Z.of_nat 0)%Z eqn:E; [|reflexivity].
  apply Z.ltb_lt in E. by replace (Z.to_nat limit) with O by lia.
Qed.

Lemma batch_without_products max_purchases batch r :
  (0 <= max_purchases)%Z ->
  exists r', batch_purchases_of [] max_purchases batch r = (Ok [], r').
Proof.
  intros Hmax. revert r. induction batch as [|u rest IH]; intros r.
  - by exists r.
  - cbn [batch_purchases_of]. unfold purchases_of_user.
    destruct (randint_from_zero max_purchases r Hmax)
      as (num & r1 & -> & _).
    destruct (IH r1) as [r2 Hrest].
    destruct (num =? 0)%Z; cbn; rewrite Hrest; by eexists.
Qed.

Lemma run_batches_without_products conditions_of max_purchases batches
    st r total :
  (0 <= max_purchases)%Z ->
  exists r',
    run_batches conditions_of [] max_purchases batches st r total
    = (st, r', total, None).
Proof.
  intros Hmax. revert r. induction batches as [|batch rest IH]; intros r.
  - by exists r.
  - cbn [run_batches].
    destruct (batch_without_products max_purchases batch r Hmax)
      as [r1 ->].
    rewrite slices_nil. cbn [run_sub_batches]. apply IH.
Qed.

End PurchaseFacts.

Section PurchaseTheorems.
Import Purchases.

(** Property X19.  What [_create_purchase] reports and what
    it leaves.  A purchase that is reported is the new row of the
    relational store; the graph holds it too when it has both nodes, and
    is unchanged otherwise, for [create_purchase] does not look at what
    its statement matched.  A purchase that is not reported leaves the
    graph as it was, and the relational store as it was or with the new
    row; a failing graph call after a good commit is such a case. *)
Theorem purchase_reported_and_stored (c : conditions) (u p : Z)
    (st : stores) :
  let st' := fst (_create_purchase c u p st) in
  let r := snd (_create_purchase c u p st) in
  let row := mkPurchase (assigned_id c) u p in
  (forall x, r = Some x ->
     x = row /\ pg_purchases st' = pg_purchases st ++ [row] /\
     (u ∈ neo4j_users st /\ p ∈ neo4j_products st -> in_both row st') /\
     (~ (u ∈ neo4j_users st /\ p ∈ neo4j_products st) ->
        neo4j_bought st' = neo4j_bought st)) /\
  (r = None ->
     neo4j_bought st' = neo4j_bought st /\
     (pg_purchases st' = pg_purchases st \/
      pg_purchases st' = pg_purchases st ++ [row])) /\
  (u ∈ pg_users st -> p ∈ pg_products st ->
   select_fails c = false -> commit_fails c = false ->
   refresh_fails c = true \/ graph_fails c = true ->
     r = None /\ pg_purchases st' = pg_purchases st ++ [row]) /\
  (u ∈ pg_users st -> p ∈ pg_products st -> c = healthy (assigned_id c) ->
     r = Some row).
Proof.
  cbv zeta. split; [|split; [|split]].
  - intros x Hx.
    destruct (create_purchase_effect c u p st)
      as [(Hr & _) | (Hr & _ & _ & Hpg & Hgraph)]; [congruence|].
    split; [congruence|]. split; [exact Hpg|]. split.
    + intros Hnodes. destruct Hgraph as [(_ & _ & Hg) | (Hn & _)]; [|tauto].
      split; cbn; [rewrite Hpg | rewrite Hg];
        apply elem_of_app; right; by apply list_elem_of_singleton.
    + intros Hnodes. destruct Hgraph as [(Hu & Hp & _) | (_ & Hg)]; tauto.
  - intros Hr.
    destruct (create_purchase_effect c u p st)
      as [(_ & Hg & Hpg) | (Hr' & _)]; [tauto | congruence].
  - intros Hu Hp Hs Hc Hfail.
    unfold _create_purchase, create_purchase. rewrite Hs, Hc.
    rewrite (bool_decide_eq_true_2 _ Hu), (bool_decide_eq_true_2 _ Hp).
    cbn [negb orb].
    destruct (refresh_fails c); [done|].
    destruct Hfail as [? | ->]; done.
  - intros Hu Hp ->. unfold _create_purchase, create_purchase, healthy.
    cbn [select_fails commit_fails refresh_fails graph_fails assigned_id].
    rewrite (bool_decide_eq_true_2 _ Hu), (bool_decide_eq_true_2 _ Hp).
    reflexivity.
Qed.

(** Property X20.  The endpoint that records a purchase
    answers 404 exactly when the reads succeed and the user or the
    product is unknown.  When it answers with a purchase, this is the new
    row; it never answers with nothing.  Whenever it raises, the graph is
    as it was; and when the graph call fails after a good commit, the
    request fails although the row stays in the relational store.  The
    endpoint that lists a user's purchases never answers with a list:
    for a known user its call of the service raises [TypeError], since
    the service takes no [skip] and no [limit]. *)
Theorem purchase_endpoint_answers (c : conditions) (u p : Z) (st : stores) :
  let st' := fst (create_purchase_endpoint c u p st) in
  let r := snd (create_purchase_endpoint c u p st) in
  let row := mkPurchase (assigned_id c) u p in
  (r = Raise (HTTPException 404) <->
     select_fails c = false /\ (u ∉ pg_users st \/ p ∉ pg_products st)) /\
  (forall x, r = Ok x ->
     x = Some row /\ pg_purchases st' = pg_purchases st ++ [row]) /\
  (forall e, r = Raise e -> neo4j_bought st' = neo4j_bought st) /\
  (u ∈ pg_users st -> p ∈ pg_products st ->
   select_fails c = false -> commit_fails c = false ->
   refresh_fails c = false -> graph_fails c = true ->
     r = Raise BackendError /\
     pg_purchases st' = pg_purchases st ++ [row]) /\
  (forall skip limit,
     (forall rows,
        get_user_purchases_endpoint c u skip limit st <> Ok rows) /\
     (select_fails c = false -> u ∈ pg_users st ->
        get_user_purchases_endpoint c u skip limit st = Raise TypeError)).
Proof.
  cbv zeta.
  assert (Hlist : forall skip limit,
     (forall rows,
        get_user_purchases_endpoint c u skip limit st <> Ok rows) /\
     (select_fails c = false -> u ∈ pg_users st ->
        get_user_purchases_endpoint c u skip limit st = Raise TypeError)).
  { intros skip limit. unfold get_user_purchases_endpoint. split.
    - intros rows. destruct (select_fails c); [done|].
      by destruct (bool_decide (u ∈ pg_users st)).
    - intros -> Hu. by rewrite (bool_decide_eq_true_2 _ Hu). }
  assert (Hjoin : forall A B C D E : Prop,
            A /\ B /\ C /\ D -> E -> A /\ B /\ C /\ D /\ E) by tauto.
  apply Hjoin; [|exact Hlist]. clear Hlist Hjoin.
  unfold create_purchase_endpoint, create_purchase,
    match_create_bought.
  destruct (select_fails c).
  { cbn. split; [split; [done | by intros [? _]]|]. by repeat split. }
  destruct (bool_decide (u ∈ pg_users st)) eqn:Eu; cbn [negb orb].
  2: { apply bool_decide_eq_false in Eu. cbn.
       split; [split; [auto | done]|]. by repeat split. }
  apply bool_decide_eq_true in Eu.
  destruct (bool_decide (p ∈ pg_products st)) eqn:Ep; cbn [negb orb].
  2: { apply bool_decide_eq_false in Ep. cbn.
       split; [split; [auto | done]|]. by repeat split. }
  apply bool_decide_eq_true in Ep.
  assert (Hno : ~ (false = false /\ (u ∉ pg_users st \/ p ∉ pg_products st)))
    by (intros [_ [? | ?]]; done).
  destruct (commit_fails c).
  { cbn. split; [split; [done | by intros ?]|]. by repeat split. }
  destruct (refresh_fails c).
  { cbn. split; [split; [done | by intros ?]|]. by repeat split. }
  destruct (graph_fails c).
  { cbn. split; [split; [done | by intros ?]|]. by repeat split. }
  cbn [fst snd]. split; [split; [done | by intros ?]|].
  split; [|split; [done | done]].
  intros x [= <-]. split; [reflexivity|].
  cbn. by destruct (_ && _).
Qed.

(** Property X21.  For a limit that is not negative,
    [generate_purchases] returns without raising whatever the backends
    do.  The number it returns is the counter it leaves; it is at least
    the number of edges the run added to the graph, at most the number
    of rows it added to the relational store, and at most the limit
    for each user. *)
Theorem generate_purchases_count (conditions_of : Z -> Z -> conditions)
    (max_purchases_per_user : Z) (g : DataGenerator) :
  (0 <= max_purchases_per_user)%Z ->
  let g' := fst (generate_purchases conditions_of max_purchases_per_user g) in
  exists total,
    snd (generate_purchases conditions_of max_purchases_per_user g)
    = Ok total /\
    purchase_count g' = total /\
    (Z.of_nat (length (neo4j_bought (db g')))
     - Z.of_nat (length (neo4j_bought (db g))) <= total)%Z /\
    (total <= Z.of_nat (length (pg_purchases (db g')))
              - Z.of_nat (length (pg_purchases (db g))))%Z /\
    (0 <= total
     <= Z.of_nat (length (user_ids g)) * max_purchases_per_user)%Z.
Proof.
  intros Hmax. cbv zeta. unfold generate_purchases.
  pose proof (sample_above_length 100000 (user_ids g) (random g)) as Hlen.
  destruct (sample_above 100000 (user_ids g) (random g))
    as [user_sample r1].
  destruct (sample_above 10000 (product_ids g) r1) as [product_sample r2].
  destruct (run_batches_counts conditions_of product_sample
              max_purchases_per_user (Generator.slices 1000 user_sample)
              (db g) r2 0 Hmax)
    as (st' & r' & total & -> & Hbetween & Hbound).
  rewrite concat_slices in Hbound by lia.
  exists total. cbn [fst snd purchase_count db] in *.
  unfold between in Hbetween.
  split; [reflexivity|]. split; [reflexivity|]. nia.
Qed.

(** X21 for two shoppers, every graph call failing. *)
Lemma generate_purchases_count_witness :
  let conditions_of := fun _ _ : Z => mkConditions false false false true 1 in
  let g' := fst (generate_purchases conditions_of 2 shoppers) in
  exists total,
    snd (generate_purchases conditions_of 2 shoppers) = Ok total /\
    purchase_count g' = total /\
    (Z.of_nat (length (neo4j_bought (db g')))
     - Z.of_nat (length (neo4j_bought (db shoppers))) <= total)%Z /\
    (total <= Z.of_nat (length (pg_purchases (db g')))
              - Z.of_nat (length (pg_purchases (db shoppers))))%Z /\
    (0 <= total <= Z.of_nat (length (user_ids shoppers)) * 2)%Z.
Proof.
  apply (generate_purchases_count
           (fun _ _ : Z => mkConditions false false false true 1) 2 shoppers).
  lia.
Defined.

(** Property X22.  With a negative limit and at least one
    user, [generate_purchases] raises [ValueError] at the first user,
    writes nothing and leaves the counter at zero.  With no product and a
    limit that is not negative it returns 0 and writes nothing. *)
Theorem generate_purchases_edge_cases (conditions_of : Z -> Z -> conditions)
    (max_purchases_per_user : Z) (g : DataGenerator) :
  let g' := fst (generate_purchases conditions_of max_purchases_per_user g) in
  let r := snd (generate_purchases conditions_of max_purchases_per_user g) in
  ((max_purchases_per_user < 0)%Z -> user_ids g <> [] ->
     r = Raise ValueError /\ db g' = db g /\ purchase_count g' = 0%Z) /\
  ((0 <= max_purchases_per_user)%Z -> product_ids g = [] ->
     r = Ok 0%Z /\ db g' = db g /\ purchase_count g' = 0%Z).
Proof.
  cbv zeta. unfold generate_purchases. split.
  - intros Hmax Hne.
    pose proof (sample_above_nonempty 100000 (user_ids g) (random g)
                  ltac:(lia) Hne) as Hsample.
    destruct (sample_above 100000 (user_ids g) (random g))
      as [user_sample r1]. cbn [fst] in Hsample.
    destruct (sample_above 10000 (product_ids g) r1) as [product_sample r2].
    destruct user_sample as [|u rest]; [done|].
    rewrite slices_cons by (done || lia).
    cbn [take run_batches batch_purchases_of].
    unfold purchases_of_user, Generator.randint.
    destruct (max_purchases_per_user <? 0)%Z eqn:E;
      [|apply Z.ltb_ge in E; lia].
    by cbn.
  - intros Hmax Hnone. rewrite Hnone.
    destruct (sample_above 100000 (user_ids g) (random g))
      as [user_sample r1].
    rewrite sample_above_nil.
    destruct (run_batches_without_products conditions_of
                max_purchases_per_user (Generator.slices 1000 user_sample)
                (db g) r1 0 Hmax) as [r' ->].
    by cbn.
Qed.

End PurchaseTheorems.

(** * The comparative test of the command line *)

Section TesterFacts.
Import Benchmark Tester.
Local Open Scope Q_scope.

Lemma measure_responsive postgres_func neo4j_func indices pts nts :
  responsive postgres_func -> responsive neo4j_func ->
  exists pts' nts',
    measure postgres_func neo4j_func indices pts nts
    = Ok (pts ++ pts', nts ++ nts') /\
    length pts' = length indices /\ length nts' = length indices /\
    (forall t, In t pts' -> 0 < t) /\ (forall t, In t nts' -> 0 < t).
Proof.
  intros Hp Hn. revert pts nts.
  induction indices as [|i rest IH]; intros pts nts.
  - exists [], []. cbn. rewrite !app_nil_r.
    split; [reflexivity|]. by repeat split; try intros ? [].
  - cbn [measure].
    destruct (Hp i) as (tp & -> & Htp). destruct (Hn i) as (tn & -> & Htn).
    destruct (IH (pts ++ [tp]) (nts ++ [tn]))
      as (pts' & nts' & -> & Hlp & Hln & Hpp & Hnp).
    exists (tp :: pts'), (tn :: nts').
    rewrite <- !app_assoc. cbn [app length].
    split; [reflexivity|]. split; [lia|]. split; [lia|].
    split; intros t [<- | Ht]; auto.
Qed.

Lemma measure_failure postgres_func neo4j_func indices pts nts i :
  In i indices ->
  postgres_func i = Fails \/ neo4j_func i = Fails ->
  measure postgres_func neo4j_func indices pts nts = Raise BackendError.
Proof.
  revert pts nts. induction indices as [|j rest IH]; intros pts nts Hin Hf;
    [destruct Hin|].
  cbn [measure].
  destruct (postgres_func j) as [tp|] eqn:Ep; [|reflexivity].
  destruct (neo4j_func j) as [tn|] eqn:En; [|reflexivity].
  destruct Hin as [-> | Hin]; [destruct Hf; congruence|].
  by apply IH.
Qed.

(** The mean of positive numbers is positive. *)
Lemma mean_positive (xs : list Q) :
  xs <> [] -> (forall t, In t xs -> 0 < t) ->
  exists a, Statistics.mean xs = Ok a /\ 0 < a.
Proof.
  intros Hne Hpos. destruct xs as [|x rest]; [done|].
  destruct (fold_min_bounds rest x) as (Hm1 & Hm2 & Hm3). cbv zeta in *.
  set (m := fold_left (fun m y => if Py.ltb y m then y else m) rest x) in *.
  assert (Hm : 0 < m).
  { destruct Hm3 as [-> | Hin]; apply Hpos; [by left | by right]. }
  pose proof (fold_max_bounds rest x) as (HM1 & HM2 & _). cbv zeta in *.
  set (M := fold_left (fun m y => if Py.ltb m y then y else m) rest x) in *.
  destruct (Statistics.mean (x :: rest)) as [a|] eqn:Ea; [|discriminate].
  exists a. split; [reflexivity|].
  destruct (mean_bounds m M (x :: rest) a) as [Hlo _]; [|exact Ea|lra].
  intros y [<- | Hy]; split; auto.
Qed.

Lemma median_defined (xs : list Q) :
  xs <> [] -> exists a, Statistics.median xs = Ok a.
Proof.
  intros Hne. unfold Statistics.median.
  pose proof (length_sorted xs) as Hlen.
  destruct (length (Statistics.sorted xs)) as [|n] eqn:E.
  - destruct xs; [done | cbn in Hlen; lia].
  - destruct (Nat.odd (S n)); eauto.
Qed.

(** The verdict on two positive averages. *)
Lemma verdict_positive (pg neo : Q) :
  0 < pg -> 0 < neo ->
  exists b s,
    verdict pg neo = Ok (b, s) /\ 1 <= s /\
    (b = PostgreSQL -> pg < neo /\ s = neo / pg) /\
    (b = Neo4j -> neo <= pg /\ s = pg / neo).
Proof.
  intros Hpg Hneo. unfold verdict.
  destruct (Py.ltb pg neo) eqn:E.
  - apply ltb_true in E. rewrite truediv_nonzero by lra. cbn [rbind].
    eexists _, _. split; [reflexivity|]. split.
    + apply Qle_shift_div_l; lra.
    + split; [done | discriminate].
  - apply ltb_false in E. rewrite truediv_nonzero by lra. cbn [rbind].
    eexists _, _. split; [reflexivity|]. split.
    + apply Qle_shift_div_l; lra.
    + split; [discriminate | done].
Qed.

End TesterFacts.

Section TesterTheorems.
Import Benchmark Tester.
Local Open Scope Q_scope.

(** Property X23.  When every call returns after a positive
    time and there is at least one iteration, [run_comparative_test]
    returns the result it stores under the test's name, with one time per
    iteration and backend.  The backend it names has the smaller average,
    the speedup is the larger average over the smaller one and is at
    least 1, and on equal averages it names Neo4j. *)
Theorem comparative_test_verdict (name : string)
    (postgres_func neo4j_func : nat -> response) (iterations : Z)
    (results : gmap string test_result) :
  responsive postgres_func -> responsive neo4j_func ->
  (1 <= iterations)%Z ->
  exists t,
    run_comparative_test name postgres_func neo4j_func iterations results
    = (<[name := t]> results, Ok t) /\
    length (times (postgresql t)) = Z.to_nat iterations /\
    length (times (neo4j t)) = Z.to_nat iterations /\
    0 < faster_avg t /\ faster_avg t <= slower_avg t /\
    speedup t = slower_avg t / faster_avg t /\
    1 <= speedup t /\
    (avg_time (postgresql t) == avg_time (neo4j t) -> faster t = Neo4j).
Proof.
  intros Hp Hn Hit. unfold run_comparative_test.
  destruct (measure_responsive postgres_func neo4j_func
              (Py.range iterations) [] [] Hp Hn)
    as (pts & nts & -> & Hlp & Hln & Hpp & Hnp).
  cbn [app rbind].
  assert (Hlen : length (Py.range iterations) = Z.to_nat iterations)
    by (unfold Py.range; apply length_seq).
  rewrite Hlen in Hlp, Hln.
  assert (Hpne : pts <> []) by (intros ->; cbn in Hlp; lia).
  assert (Hnne : nts <> []) by (intros ->; cbn in Hln; lia).
  destruct (mean_positive pts Hpne Hpp) as (pa & -> & Hpa).
  destruct (mean_positive nts Hnne Hnp) as (na & -> & Hna).
  destruct (median_defined pts Hpne) as (pm & ->).
  destruct (median_defined nts Hnne) as (nm & ->).
  cbn [rbind].
  destruct pts as [|p0 pts]; [done|]. destruct nts as [|n0 nts]; [done|].
  cbn [Statistics.min Statistics.max rbind].
  destruct (verdict_positive pa na Hpa Hna) as (b & s & -> & Hs & Hpg & Hneo).
  cbn [rbind]. eexists. split; [reflexivity|].
  cbn [times postgresql neo4j avg_time speedup].
  split; [exact Hlp|]. split; [exact Hln|].
  unfold faster_avg, slower_avg. cbn [faster postgresql neo4j avg_time].
  destruct b.
  - destruct (Hpg eq_refl) as [Hlt ->].
    split; [exact Hpa|]. split; [lra|]. split; [reflexivity|].
    split; [exact Hs|]. intros Heq. lra.
  - destruct (Hneo eq_refl) as [Hle ->].
    split; [exact Hna|]. split; [exact Hle|]. split; [reflexivity|].
    split; [exact Hs|]. reflexivity.
Qed.

(** X23 on two steady backends, the graph twice as fast. *)
Lemma comparative_test_verdict_witness :
  exists t,
    run_comparative_test "Viral Products (Level 1)"
      (fun _ => Returns (2 # 10)) (fun _ => Returns (1 # 10)) 3 ∅
    = (<["Viral Products (Level 1)" := t]> ∅, Ok t) /\
    length (times (postgresql t)) = Z.to_nat 3 /\
    length (times (neo4j t)) = Z.to_nat 3 /\
    0 < faster_avg t /\ faster_avg t <= slower_avg t /\
    speedup t = slower_avg t / faster_avg t /\
    1 <= speedup t /\
    (avg_time (postgresql t) == avg_time (neo4j t) -> faster t = Neo4j).
Proof.
  apply (comparative_test_verdict "Viral Products (Level 1)"
           (fun _ => Returns (2 # 10)) (fun _ => Returns (1 # 10)) 3 ∅).
  - intros i. exists (2 # 10). split; [reflexivity | reflexivity].
  - intros i. exists (1 # 10). split; [reflexivity | reflexivity].
  - lia.
Defined.

(** Property X24.  A comparative test stores nothing unless
    it returns.  With no iteration it makes no call and raises
    [StatisticsError]; when a call of an iteration raises, the test
    raises and the times taken so far are lost. *)
Theorem comparative_test_failures (name : string)
    (postgres_func neo4j_func : nat -> response) (iterations : Z)
    (results : gmap string test_result) :
  let run :=
    run_comparative_test name postgres_func neo4j_func iterations results in
  (forall e, snd run = Raise e -> fst run = results) /\
  ((iterations <= 0)%Z -> run = (results, Raise StatisticsError)) /\
  (forall i, (i < Z.to_nat iterations)%nat ->
     postgres_func i = Fails \/ neo4j_func i = Fails ->
     run = (results, Raise BackendError)).
Proof.
  cbv zeta. unfold run_comparative_test. split; [|split].
  - intros e. by destruct (rbind _ _).
  - intros Hit. by rewrite range_nonpos.
  - intros i Hi Hf.
    rewrite (measure_failure _ _ _ [] [] i); [reflexivity| |exact Hf].
    unfold Py.range. apply in_seq. lia.
Qed.



End TesterTheorems.

(** * Data generation and its report *)

Section GenerationFacts.
Import Generation.
Local Open Scope Q_scope.

Lemma fsum_app (xs ys : list Q) :
  Statistics.fsum (xs ++ ys) == Statistics.fsum xs + Statistics.fsum ys.
Proof.
  unfold Statistics.fsum.
  induction xs as [|x xs IH]; cbn [app fold_right]; [lra|].
  rewrite IH. lra.
Qed.

Lemma fallback_errors attempt_of indices created e :
  (0 <= neo4j_errors (snd (fallback attempt_of indices created e))
        - neo4j_errors e
   <= postgresql_errors (snd (fallback attempt_of indices created e))
      - postgresql_errors e)%Z.
Proof.
  revert created e.
  induction indices as [|j rest IH]; intros created e; cbn [fallback].
  - cbn. lia.
  - destruct (attempt_of j) as [id| |].
    + apply IH.
    + pose proof (IH created
                    (mkErrors (postgresql_errors e + 1) (neo4j_errors e)))
        as H. cbn in H. lia.
    + pose proof (IH created
                    (mkErrors (postgresql_errors e + 1)
                       (neo4j_errors e + 1))) as H. cbn in H. lia.
Qed.

Lemma after_batch_kept size run p :
  kept p (after_batch size run p) [elapsed run].
Proof.
  unfold kept, after_batch, _create_batch.
  destruct (batch_call run) as [created|].
  - cbn. rewrite length_app. split; [lia|].
    split; [lra|]. split; [lra | lia].
  - pose proof (fallback_errors (attempt_of run) (seq 0 size) []
                  (mkErrors (postgresql_errors (errs p) + 1)
                     (neo4j_errors (errs p) + 1))) as H.
    destruct (fallback _ _ _ _) as [created e']. cbn in *.
    rewrite length_app. split; [lia|]. split; [lra|]. split; [lra | lia].
Qed.

Lemma kept_refl p : kept p p [].
Proof. unfold kept. cbn. split; [lia|]. split; [lra|]. split; [lra | lia]. Qed.

Lemma kept_trans p0 p1 p2 ts1 ts2 :
  kept p0 p1 ts1 -> kept p1 p2 ts2 -> kept p0 p2 (ts1 ++ ts2).
Proof.
  intros (A1 & A2 & A3 & A4) (B1 & B2 & B3 & B4). unfold kept.
  rewrite fsum_app. split; [lia|].
  split; [rewrite B2, A2; lra|]. split; [rewrite B3, A3; lra | lia].
Qed.

Lemma full_batches_kept service indices p :
  kept p (full_batches service indices p)
    (List.map (fun i => elapsed (service i)) indices).
Proof.
  revert p. induction indices as [|i rest IH]; intros p.
  - apply kept_refl.
  - cbn [full_batches List.map].
    apply (kept_trans _ _ _ [elapsed (service i)] _
             (after_batch_kept 1000 (service i) p) (IH _)).
Qed.

Lemma length_batch_sizes count :
  length (batch_sizes count)
  = (Z.to_nat (count / 1000)
     + if (0 <? count mod 1000)%Z then 1 else 0)%nat.
Proof.
  unfold batch_sizes, Py.range.
  rewrite length_app, length_map, length_seq.
  by destruct (0 <? count mod 1000)%Z.
Qed.

(** The progress at the end of [generate]. *)
Lemma generate_progress service count e :
  exists p,
    generate service count e
    = mkGenerated (ids p) (created_count p)
        (metrics_of (created_count p) (pg_total_time p))
        (metrics_of (created_count p) (neo4j_total_time p)) (errs p) /\
    kept (mkProgress [] 0 0 0 e) p
      (List.map (fun i => elapsed (service i))
         (seq 0 (length (batch_sizes count)))).
Proof.
  unfold generate. rewrite length_batch_sizes.
  pose proof (full_batches_kept service (Py.range (count / 1000))
                (mkProgress [] 0 0 0 e)) as H.
  set (p := full_batches service (Py.range (count / 1000))
              (mkProgress [] 0 0 0 e)) in *.
  destruct (0 <? count mod 1000)%Z.
  - eexists. split; [reflexivity|].
    rewrite seq_app, List.map_app. cbn [seq List.map Nat.add].
    eapply kept_trans; [exact H|].
    unfold Py.range. rewrite length_seq. apply after_batch_kept.
  - exists p. split; [reflexivity|]. by rewrite Nat.add_0_r.
Qed.

Lemma full_batches_obliging service indices p :
  (forall i, In i indices ->
     exists created,
       batch_call (service i) = Some created /\ length created = 1000%nat) ->
  created_count (full_batches service indices p)
  = (created_count p + 1000 * Z.of_nat (length indices))%Z /\
  errs (full_batches service indices p) = errs p.
Proof.
  revert p. induction indices as [|i rest IH]; intros p H.
  - cbn. split; [lia | reflexivity].
  - cbn [full_batches].
    destruct (H i (or_introl eq_refl)) as (created & Hcall & Hlen).
    destruct (IH (after_batch 1000 (service i) p)
                (fun j Hj => H j (or_intror Hj))) as [H1 H2].
    rewrite H1, H2. unfold after_batch, _create_batch. rewrite Hcall.
    cbn. rewrite Hlen. split; [lia | reflexivity].
Qed.

Lemma batch_sizes_full count i :
  (i < Z.to_nat (count / 1000))%nat ->
  batch_sizes count !! i = Some 1000%nat.
Proof.
  intros Hi. unfold batch_sizes, Py.range.
  rewrite lookup_app_l by (rewrite length_map, length_seq; lia).
  change (List.map ?f ?l) with (f <$> l).
  rewrite list_lookup_fmap, lookup_seq_lt by lia. reflexivity.
Qed.

Lemma batch_sizes_last count :
  (0 < count mod 1000)%Z ->
  batch_sizes count !! Z.to_nat (count / 1000)
  = Some (Z.to_nat (count mod 1000)).
Proof.
  intros Hr. unfold batch_sizes, Py.range.
  rewrite (proj2 (Z.ltb_lt _ _) Hr).
  rewrite lookup_app_r by (rewrite length_map, length_seq; lia).
  rewrite length_map, length_seq, Nat.sub_diag. reflexivity.
Qed.

(** The verdict on times that are six and four tenths of a whole. *)
Lemma fixed_split_verdict (pg neo : op_metrics) (whole : Q) :
  total_time pg == whole * (6 # 10) -> total_time neo == whole * (4 # 10) ->
  (0 < whole ->
     exists s, faster_and_speedup pg neo = Ok ("neo4j", s) /\ s == 3 # 2) /\
  (whole == 0 -> faster_and_speedup pg neo = Raise ZeroDivisionError).
Proof.
  intros Hpg Hneo. unfold faster_and_speedup. split.
  - intros Hw.
    assert (Hlt : Py.ltb (total_time pg) (total_time neo) = false)
      by (apply ltb_false; lra).
    rewrite Hlt, !truediv_nonzero by lra. cbn [rbind].
    eexists. split; [reflexivity|]. unfold max.
    assert (H1 : total_time pg / total_time neo == 3 # 2)
      by (rewrite Hpg, Hneo; field; lra).
    assert (H2 : total_time neo / total_time pg == 2 # 3)
      by (rewrite Hpg, Hneo; field; lra).
    assert (Hm : Py.ltb (total_time pg / total_time neo)
                   (total_time neo / total_time pg) = false)
      by (apply ltb_false; lra).
    by rewrite Hm.
  - intros Hw. unfold Py.truediv.
    assert (H0 : Qeq_bool (total_time neo) 0 = true)
      by (apply Qeq_bool_iff; lra).
    by rewrite H0.
Qed.

Lemma fixed_split_defined (pg neo : op_metrics) (whole : Q) :
  total_time pg == whole * (6 # 10) -> total_time neo == whole * (4 # 10) ->
  ~ whole == 0 -> exists v, faster_and_speedup pg neo = Ok v.
Proof.
  intros Hpg Hneo Hw. unfold faster_and_speedup.
  rewrite !truediv_nonzero by (intros H0; apply Hw; lra).
  cbn [rbind]. by eexists.
Qed.

Lemma fsum_positive (xs : list Q) :
  xs <> [] -> (forall x, In x xs -> 0 < x) -> 0 < Statistics.fsum xs.
Proof.
  intros Hne Hpos. destruct xs as [|x xs]; [done|]. clear Hne.
  revert x Hpos. induction xs as [|y ys IH]; intros x Hpos.
  - cbn. specialize (Hpos x (or_introl eq_refl)). lra.
  - change (Statistics.fsum (x :: y :: ys))
      with (x + Statistics.fsum (y :: ys)).
    specialize (IH y (fun z Hz => Hpos z (or_intror Hz))).
    specialize (Hpos x (or_introl eq_refl)). lra.
Qed.

Lemma wall_time_positive service count :
  takes_time service -> (1 <= count)%Z -> 0 < wall_time service count.
Proof.
  intros Ht Hc. unfold wall_time. apply fsum_positive.
  - rewrite length_batch_sizes.
    assert (Hpos : (0 < Z.to_nat (count / 1000)
                        + (if (0 <? count mod 1000)%Z then 1 else 0))%nat).
    { destruct (0 <? count mod 1000)%Z eqn:E; [lia|].
      apply Z.ltb_ge in E.
      pose proof (Z.mod_pos_bound count 1000 ltac:(lia)).
      pose proof (Z.div_mod count 1000 ltac:(lia)). lia. }
    destruct (_ + _)%nat; [lia | discriminate].
  - intros x Hx. apply in_map_iff in Hx as (i & <- & _). apply Ht.
Qed.

Lemma wall_time_nothing service : wall_time service 0 = 0.
Proof. reflexivity. Qed.

(** The times of a generation are the fixed split of its wall time. *)
Lemma generate_times service count e :
  total_time (g_postgresql (generate service count e))
  == wall_time service count * (6 # 10) /\
  total_time (g_neo4j (generate service count e))
  == wall_time service count * (4 # 10).
Proof.
  destruct (generate_progress service count e)
    as (p & -> & (_ & Hpg & Hneo & _)).
  cbn in *. unfold wall_time. split; lra.
Qed.



End GenerationFacts.

Section GenerationTheorems.
Import Generation Registry.
Local Open Scope Q_scope.

(** Property X26.  When the service creates every row of
    every batch it is asked for, [generate_users] leaves as many
    identifiers as its counter says and no error.  For a count that is
    not negative this is the count asked for, in batches of 1000 and a
    remainder; for a negative count it is the count modulo 1000, since
    the loop over the batches is empty and the remainder is not: a count
    of -1 creates 999 users. *)
Theorem generate_creates_the_rows_asked_for (service : nat -> batch_run)
    (count : Z) (e : errors) :
  obliging service count ->
  let g := generate_users service count e in
  g_count g = Z.of_nat (length (g_ids g)) /\
  g_errors g = e /\
  ((0 <= count)%Z -> g_count g = count) /\
  ((count < 0)%Z -> g_count g = (count mod 1000)%Z).
Proof.
  intros Hob. cbv zeta. unfold generate_users, generate.
  pose proof (full_batches_kept service (Py.range (count / 1000))
                (mkProgress [] 0 0 0 e)) as (Hk & _).
  destruct (full_batches_obliging service (Py.range (count / 1000))
              (mkProgress [] 0 0 0 e)) as [Hc He].
  { intros i Hi. unfold Py.range in Hi. apply in_seq in Hi.
    apply Hob, batch_sizes_full. lia. }
  set (p := full_batches service (Py.range (count / 1000))
              (mkProgress [] 0 0 0 e)) in *.
  assert (Hlen : length (Py.range (count / 1000)) = Z.to_nat (count / 1000))
    by (unfold Py.range; apply length_seq).
  rewrite Hlen in *. cbn [created_count ids errs length] in Hk, Hc, He.
  pose proof (Z.mod_pos_bound count 1000 ltac:(lia)) as Hmod.
  pose proof (Z.div_mod count 1000 ltac:(lia)) as Hdiv.
  assert (Hneg : (count < 0 -> count / 1000 < 0)%Z)
    by (intros; apply Z.div_lt_upper_bound; lia).
  assert (Hpos : (0 <= count -> 0 <= count / 1000)%Z)
    by (intros; apply Z.div_pos; lia).
  destruct (0 <? count mod 1000)%Z eqn:E.
  - apply Z.ltb_lt in E.
    destruct (Hob _ _ (batch_sizes_last count E)) as (created & Hcall & Hl).
    unfold after_batch, _create_batch. rewrite Hcall.
    cbn [g_count g_ids g_errors created_count ids errs].
    rewrite length_app, Hl. split; [lia|]. split; [exact He|]. split; lia.
  - apply Z.ltb_ge in E. cbn [g_count g_ids g_errors].
    split; [lia|]. split; [exact He|]. split; lia.
Qed.

(** X26 for a count of -1. *)
Lemma generate_creates_the_rows_asked_for_witness :
  let g := generate_users (prompt (-1)) (-1) no_errors in
  g_count g = Z.of_nat (length (g_ids g)) /\
  g_errors g = no_errors /\
  ((0 <= -1)%Z -> g_count g = (-1)%Z) /\
  ((-1 < 0)%Z -> g_count g = ((-1) mod 1000)%Z).
Proof.
  apply (generate_creates_the_rows_asked_for (prompt (-1)) (-1) no_errors).
  intros i size Hi. destruct i as [|i]; [|discriminate].
  injection Hi as <-. eexists. split; [reflexivity|].
  vm_compute. reflexivity.
Defined.

(** The comparison of two generations that took time. *)
Lemma compare_fixed (users products : generated) (wu wp : Q) :
  total_time (g_postgresql users) == wu * (6 # 10) ->
  total_time (g_neo4j users) == wu * (4 # 10) ->
  total_time (g_postgresql products) == wp * (6 # 10) ->
  total_time (g_neo4j products) == wp * (4 # 10) ->
  (0 < wu -> 0 < wp ->
     exists c, compare users products = Ok c /\
       faster_db c = "neo4j" /\ overall_speedup c == 3 # 2 /\
       users_faster c = "neo4j" /\ users_speedup c == 3 # 2 /\
       products_faster c = "neo4j" /\ products_speedup c == 3 # 2) /\
  (wu == 0 \/ wp == 0 -> compare users products = Raise ZeroDivisionError)
  /\ (~ wu == 0 -> ~ wp == 0 -> exists c, compare users products = Ok c).
Proof.
  intros Hu1 Hu2 Hp1 Hp2. unfold compare.
  destruct (fixed_split_verdict _ _ wu Hu1 Hu2) as [Hu Hu0].
  destruct (fixed_split_verdict _ _ wp Hp1 Hp2) as [Hp Hp0].
  split; [|split].
  3: { intros Hwu Hwp.
       destruct (fixed_split_defined _ _ wu Hu1 Hu2 Hwu) as ([? ?] & ->).
       destruct (fixed_split_defined _ _ wp Hp1 Hp2 Hwp) as ([? ?] & ->).
       cbn [rbind]. by eexists. }
  - intros Hwu Hwp. destruct (Hu Hwu) as (su & -> & Hsu).
    destruct (Hp Hwp) as (sp & -> & Hsp). cbn [rbind].
    eexists. split; [reflexivity|]. by cbn.
  - intros [H0 | H0].
    + by rewrite (Hu0 H0).
    + rewrite (Hp0 H0).
      destruct (faster_and_speedup (g_postgresql users) (g_neo4j users))
        as [[? ?]|e] eqn:E; [reflexivity|].
      unfold faster_and_speedup, Py.truediv in E.
      destruct (Qeq_bool (total_time (g_neo4j users)) 0);
        [by injection E as <-|].
      destruct (Qeq_bool (total_time (g_postgresql users)) 0);
        [by injection E as <-|]. discriminate.
Qed.

(** Property X27.  When the batches take time, at least
    one user and one product are asked for and nothing raises, the task
    ends as completed with progress 100, and its report names neo4j as
    the faster database with a speedup of 3/2 (in exact arithmetic),
    overall and for users and products, whatever the two databases did:
    the verdict follows from the fixed split of the wall time. *)
Theorem generation_report_names_neo4j (task_id : string)
    (start finish duration : Q) (users products : Z)
    (user_service product_service : nat -> batch_run)
    (generated_follows generated_purchases : Z) :
  takes_time user_service -> takes_time product_service ->
  (1 <= users)%Z -> (1 <= products)%Z ->
  let run :=
    _generate_data_task task_id start finish duration users products
      user_service product_service
      (mkSurroundings (Ok generated_follows) (Ok generated_purchases) false)
  in
  snd (fst run) !! "status" = Some (VStr "completed") /\
  snd (fst run) !! "progress" = Some (VInt 100) /\
  exists nu np c e,
    snd run = Completed nu np generated_follows generated_purchases c e /\
    faster_db c = "neo4j" /\ overall_speedup c == 3 # 2 /\
    users_faster c = "neo4j" /\ users_speedup c == 3 # 2 /\
    products_faster c = "neo4j" /\ products_speedup c == 3 # 2.
Proof.
  intros Hu Hp Hnu Hnp. cbv zeta. unfold _generate_data_task.
  cbn [follows_call purchases_call save_raises].
  unfold generate_users, generate_products.
  destruct (generate_times user_service users no_errors) as [Hu1 Hu2].
  destruct (generate_times product_service products
              (g_errors (generate user_service users no_errors)))
    as [Hp1 Hp2].
  destruct (compare_fixed _ _ _ _ Hu1 Hu2 Hp1 Hp2) as (Hc & _ & _).
  destruct (Hc (wall_time_positive _ _ Hu Hnu)
              (wall_time_positive _ _ Hp Hnp))
    as (c & -> & Hfixed).
  cbn [fst snd]. split; [by simplify_map_eq|].
  split; [unfold set_message, set_progress; by simplify_map_eq|].
  eexists _, _, c, _. split; [reflexivity | exact Hfixed].
Qed.

(** X27 for 1500 users and 20 products. *)
Lemma generation_report_names_neo4j_witness :
  let run :=
    _generate_data_task "generate_1" 0 9 9 1500 20
      (prompt 1500) (prompt 20) (mkSurroundings (Ok 5%Z) (Ok 3%Z) false) in
  snd (fst run) !! "status" = Some (VStr "completed") /\
  snd (fst run) !! "progress" = Some (VInt 100) /\
  exists nu np c e,
    snd run = Completed nu np 5 3 c e /\
    faster_db c = "neo4j" /\ overall_speedup c == 3 # 2 /\
    users_faster c = "neo4j" /\ users_speedup c == 3 # 2 /\
    products_faster c = "neo4j" /\ products_speedup c == 3 # 2.
Proof.
  apply (generation_report_names_neo4j "generate_1" 0 9 9 1500 20
           (prompt 1500) (prompt 20) 5 3).
  - intros i. reflexivity.
  - intros i. reflexivity.
  - lia.
  - lia.
Defined.

(** Property X28.  The document a generation task
    leaves has the status of its report, "completed" or "error", and the
    documents found while it runs say "running" with progress 0, 40, 60
    and 80.  The task ends in error exactly when [generate_follows] or
    [generate_purchases] raises, when the batches of the users or of the
    products took no time at all (as when none is asked for), or when
    the metrics file cannot be written. *)
Theorem generation_task_outcome (task_id : string)
    (start finish duration : Q) (users products : Z)
    (user_service product_service : nat -> batch_run) (s : surroundings) :
  let run :=
    _generate_data_task task_id start finish duration users products
      user_service product_service s in
  snd (fst run) !! "status" = Some (VStr (report_status (snd run))) /\
  snd (fst run) !! "task_id" = Some (VStr task_id) /\
  Forall (fun d => d !! "status" = Some (VStr "running")) (fst (fst run)) /\
  (exists n, firstn n [VInt 0; VInt 40; VInt 60; VInt 80]
             = omap (fun d => d !! "progress") (fst (fst run))) /\
  (snd run = Errored <->
     is_ok (follows_call s) = false \/ is_ok (purchases_call s) = false \/
     wall_time user_service users == 0 \/
     wall_time product_service products == 0 \/
     save_raises s = true).
Proof.
  cbv zeta. unfold _generate_data_task, generate_users, generate_products.
  destruct (generate_times user_service users no_errors) as [Hu1 Hu2].
  destruct (generate_times product_service products
              (g_errors (generate user_service users no_errors)))
    as [Hp1 Hp2].
  destruct (compare_fixed _ _ _ _ Hu1 Hu2 Hp1 Hp2) as (_ & Hc0 & Hd).
  unfold on_exception, set_message, set_progress, new_generation_task.
  destruct (follows_call s) as [nf|ef].
  2: { cbn [fst snd report_status is_ok].
       split; [by simplify_map_eq|]. split; [by simplify_map_eq|].
       split; [repeat constructor; by simplify_map_eq|].
       split; [exists 3%nat; cbn; by simplify_map_eq|].
       split; [auto | done]. }
  destruct (purchases_call s) as [np|ep].
  2: { cbn [fst snd report_status is_ok].
       split; [by simplify_map_eq|]. split; [by simplify_map_eq|].
       split; [repeat constructor; by simplify_map_eq|].
       split; [exists 4%nat; cbn; by simplify_map_eq|].
       split; [auto | done]. }
  cbn [is_ok].
  destruct (Qeq_dec (wall_time user_service users) 0) as [Hwu | Hwu];
    [rewrite (Hc0 (or_introl Hwu)); cbn [fst snd report_status];
     split; [by simplify_map_eq|]; split; [by simplify_map_eq|];
     split; [repeat constructor; by simplify_map_eq|];
     split; [exists 4%nat; cbn; by simplify_map_eq|];
     split; [auto | done]|].
  destruct (Qeq_dec (wall_time product_service products) 0) as [Hwp | Hwp];
    [rewrite (Hc0 (or_intror Hwp)); cbn [fst snd report_status];
     split; [by simplify_map_eq|]; split; [by simplify_map_eq|];
     split; [repeat constructor; by simplify_map_eq|];
     split; [exists 4%nat; cbn; by simplify_map_eq|];
     split; [auto 6 | done]|].
  destruct (Hd Hwu Hwp) as (c & ->).
  destruct (save_raises s) eqn:Es; cbn [fst snd report_status].
  - split; [by simplify_map_eq|]. split; [by simplify_map_eq|].
    split; [repeat constructor; by simplify_map_eq|].
    split; [exists 4%nat; cbn; by simplify_map_eq|].
    split; [auto 6 | done].
  - split; [by simplify_map_eq|]. split; [by simplify_map_eq|].
    split; [repeat constructor; by simplify_map_eq|].
    split; [exists 4%nat; cbn; by simplify_map_eq|].
    split; [discriminate|].
    intros [? | [? | [H0 | [H0 | ?]]]]; try discriminate; contradiction.
Qed.



(** Property X30.  The endpoints of the benchmark tasks
    also answer for a generation task, which carries no results.  Its
    entry in the listing never shows results, also when the task is
    completed and its own document says [has_results]; for a completed
    task the entry shows "completed" and 100, the results endpoint
    answers with the stored document, and comparing the task raises
    [KeyError]. *)
Theorem generation_task_in_benchmark_endpoints (task_id : string)
    (start finish duration : Q) (users products : Z)
    (user_service product_service : nat -> batch_run) (s : surroundings)
    (benchmark_results : gmap string (gmap string value)) :
  let run :=
    _generate_data_task task_id start finish duration users products
      user_service product_service s in
  let final := snd (fst run) in
  let registry := <[task_id := final]> benchmark_results in
  final !! "results" = None /\
  Endpoints.l_has_results (Endpoints.list_entry task_id final) = false /\
  (snd run <> Errored ->
     final !! "has_results" = Some (VBool true) /\
     Endpoints.l_status (Endpoints.list_entry task_id final)
     = VStr "completed" /\
     Endpoints.l_progress (Endpoints.list_entry task_id final) = VInt 100 /\
     Endpoints.get_benchmark_results registry task_id = Ok final /\
     compare_benchmarks registry task_id task_id = Raise KeyError).
Proof.
  cbv zeta.
  assert (Hdoc :
    let run :=
      _generate_data_task task_id start finish duration users products
        user_service product_service s in
    snd (fst run) !! "results" = None /\
    (snd run <> Errored ->
       snd (fst run) !! "status" = Some (VStr "completed") /\
       snd (fst run) !! "has_results" = Some (VBool true) /\
       snd (fst run) !! "progress" = Some (VInt 100))).
  { cbv zeta. unfold _generate_data_task.
    unfold on_exception, set_message, set_progress, new_generation_task.
    destruct (follows_call s); [|cbn; split; [by simplify_map_eq | done]].
    destruct (purchases_call s); [|cbn; split; [by simplify_map_eq | done]].
    destruct (compare _ _); [|cbn; split; [by simplify_map_eq | done]].
    destruct (save_raises s); [cbn; split; [by simplify_map_eq | done]|].
    cbn [fst snd]. split; [by simplify_map_eq|].
    intros _. split; [|split]; by simplify_map_eq. }
  destruct Hdoc as [Hnone Hdone].
  set (final := snd (fst (_generate_data_task task_id start finish duration
                            users products user_service product_service s)))
    in *.
  split; [exact Hnone|]. split.
  - unfold Endpoints.list_entry. cbn [Endpoints.l_has_results].
    rewrite Hnone. destruct (Endpoints.get_is_str final "status" "completed");
      [|reflexivity].
    apply bool_decide_eq_false. by intros [? ?].
  - intros Hne. destruct (Hdone Hne) as (Hs & Hh & Hp).
    split; [exact Hh|]. unfold Endpoints.list_entry.
    cbn [Endpoints.l_status Endpoints.l_progress]. rewrite Hs, Hp.
    split; [reflexivity|]. split; [reflexivity|]. split.
    + unfold Endpoints.get_benchmark_results, getitem.
      by rewrite lookup_insert_eq, Hs.
    + unfold compare_benchmarks, completed, results_of, getitem.
      by rewrite lookup_insert_eq, Hs, Hnone.
Qed.

End GenerationTheorems.
